(** * portal_client: the manifest download engine of [process_manifest.py]

    A shallow embedding of [src/process_manifest.py] and the properties of
    its endpoint selection, resumable transfer, checksum verification and
    per-entry outcome codes. *)

From Stdlib Require Import ZArith Lia List Bool Ascii String.
From Stdlib Require Import Strings.Byte.
From stdpp Require Import base gmap strings list.

Import ListNotations.
Local Open Scope string_scope.
Local Open Scope Z_scope.

(** ** Python string operations used by the module

    Text is modelled on the ASCII range: a [string] stands for the Python
    [str] with the same characters when [isascii] holds of it, and a Python
    [str] with a character outside that range has no counterpart here.  On
    ASCII text [str.upper] and [str.lower] map the letters a-z and A-Z and
    nothing else, which is what [upper] and [lower] do; outside it Python
    follows the Unicode case tables (['ß'.upper()] is ['SS'], the Kelvin
    sign lowers to ['k']), which these definitions do not cover.  A property
    that rests on a law of case mapping is therefore stated for text of
    which [isascii] holds. *)
Module PyStr.

(** [s.isascii()] *)
Definition isascii_char (c : ascii) : bool := (nat_of_ascii c <? 128)%nat.

Fixpoint isascii (s : string) : bool :=
  match s with
  | EmptyString => true
  | String c s' => isascii_char c && isascii s'
  end.

Definition is_lower (c : ascii) : bool :=
  (97 <=? nat_of_ascii c)%nat && (nat_of_ascii c <=? 122)%nat.

Definition is_upper (c : ascii) : bool :=
  (65 <=? nat_of_ascii c)%nat && (nat_of_ascii c <=? 90)%nat.

Definition upper_char (c : ascii) : ascii :=
  if is_lower c then ascii_of_nat (nat_of_ascii c - 32) else c.

Definition lower_char (c : ascii) : ascii :=
  if is_upper c then ascii_of_nat (nat_of_ascii c + 32) else c.

Fixpoint map_chars (f : ascii -> ascii) (s : string) : string :=
  match s with
  | EmptyString => EmptyString
  | String c s' => String (f c) (map_chars f s')
  end.

(** [s.upper()] and [s.lower()], for [s] with [isascii s] *)
Definition upper : string -> string := map_chars upper_char.
Definition lower : string -> string := map_chars lower_char.

(** [s.startswith(p)] *)
Definition startswith (s p : string) : bool := String.prefix p s.

(** [sub in s] *)
Fixpoint contains (sub s : string) : bool :=
  String.prefix sub s ||
  match s with
  | EmptyString => false
  | String _ s' => contains sub s'
  end.

(** [s.split(sep)] for a non-empty separator: the pieces between the
    non-overlapping occurrences of [sep], scanned from the left.  [skip]
    counts the characters of a matched separator still to be dropped and
    [cur] is the piece being read. *)
Fixpoint split_aux (sep : string) (skip : nat) (cur : string) (s : string)
  : list string :=
  match s with
  | EmptyString => [cur]
  | String c s' =>
      match skip with
      | S k => split_aux sep k cur s'
      | O =>
          if String.prefix sep s
          then cur :: split_aux sep (String.length sep - 1) EmptyString s'
          else split_aux sep 0 (cur +:+ String c EmptyString) s'
      end
  end.

Definition split (sep s : string) : list string :=
  split_aux sep 0 EmptyString s.

(** [s.split(sep, 1)] for a one-character separator: cut at the first
    occurrence only. *)
Fixpoint split1 (sep : ascii) (s : string) : list string :=
  match s with
  | EmptyString => [EmptyString]
  | String c s' =>
      if Ascii.eqb c sep then [EmptyString; s']
      else match split1 sep s' with
           | h :: t => String c h :: t
           | [] => [String c EmptyString]
           end
  end.

(** [c in chars], for a character *)
Fixpoint mem_char (c : ascii) (chars : string) : bool :=
  match chars with
  | EmptyString => false
  | String d chars' => Ascii.eqb c d || mem_char c chars'
  end.

(** [s.lstrip(chars)]: drops every leading character that occurs in
    [chars]; [chars] is a set of characters, not a prefix. *)
Fixpoint lstrip (chars : string) (s : string) : string :=
  match s with
  | EmptyString => EmptyString
  | String c s' => if mem_char c chars then lstrip chars s' else s
  end.

(** [sep.join(l)] *)
Fixpoint join (sep : string) (l : list string) : string :=
  match l with
  | [] => EmptyString
  | [x] => x
  | x :: l' => x +:+ sep +:+ join sep l'
  end.

(** [l[-n:]] for [n > 0]: the last [n] elements, or all of them. *)
Definition last_n {A} (n : nat) (l : list A) : list A :=
  skipn (length l - n) l.

(** decimal rendering of an integer, as [format] does *)
Fixpoint digits_aux (fuel : nat) (n : N) (acc : string) : string :=
  match fuel with
  | O => acc
  | S fuel' =>
      let acc' := String (ascii_of_N (48 + n mod 10)) acc in
      if (n / 10 =? 0)%N then acc' else digits_aux fuel' (n / 10)%N acc'
  end.

Definition str_of_N (n : N) : string :=
  digits_aux (S (N.to_nat (N.log2 n))) n EmptyString.

Definition str_of_Z (z : Z) : string :=
  if z <? 0 then "-" +:+ str_of_N (Z.to_N (- z)) else str_of_N (Z.to_N z).

End PyStr.

(** ** MD5 (RFC 1321), the digest behind [hashlib.md5] *)
Module MD5.

Definition w32 (x : Z) : Z := x mod 2 ^ 32.

Definition rotl (x : Z) (n : Z) : Z :=
  w32 (Z.lor (Z.shiftl x n) (Z.shiftr (w32 x) (32 - n))).

Definition lnot32 (x : Z) : Z := Z.lxor (w32 x) (2 ^ 32 - 1).

Definition K : list Z :=
  [ 3614090360; 3905402710; 606105819; 3250441966; 4118548399; 1200080426;
    2821735955; 4249261313; 1770035416; 2336552879; 4294925233; 2304563134;
    1804603682; 4254626195; 2792965006; 1236535329; 4129170786; 3225465664;
    643717713; 3921069994; 3593408605; 38016083; 3634488961; 3889429448;
    568446438; 3275163606; 4107603335; 1163531501; 2850285829; 4243563512;
    1735328473; 2368359562; 4294588738; 2272392833; 1839030562; 4259657740;
    2763975236; 1272893353; 4139469664; 3200236656; 681279174; 3936430074;
    3572445317; 76029189; 3654602809; 3873151461; 530742520; 3299628645;
    4096336452; 1126891415; 2878612391; 4237533241; 1700485571; 2399980690;
    4293915773; 2240044497; 1873313359; 4264355552; 2734768916; 1309151649;
    4149444226; 3174756917; 718787259; 3951481745 ].

Definition shifts : list Z :=
  [ 7; 12; 17; 22; 7; 12; 17; 22; 7; 12; 17; 22; 7; 12; 17; 22;
    5; 9; 14; 20; 5; 9; 14; 20; 5; 9; 14; 20; 5; 9; 14; 20;
    4; 11; 16; 23; 4; 11; 16; 23; 4; 11; 16; 23; 4; 11; 16; 23;
    6; 10; 15; 21; 6; 10; 15; 21; 6; 10; 15; 21; 6; 10; 15; 21 ].

Record regs := Regs { ra : Z; rb : Z; rc : Z; rd : Z }.

Definition init_regs : regs :=
  Regs 1732584193 4023233417 2562383102 271733878.

(** one of the 64 operations of a block; [i] is its index *)
Definition round_step (M : list Z) (r : regs) (i : nat) : regs :=
  let '(Regs a b c d) := r in
  let iz := Z.of_nat i in
  let '(f, g) :=
    if iz <? 16 then (Z.lor (Z.land b c) (Z.land (lnot32 b) d), iz)
    else if iz <? 32 then
      (Z.lor (Z.land d b) (Z.land (lnot32 d) c), (5 * iz + 1) mod 16)
    else if iz <? 48 then (Z.lxor (Z.lxor b c) d, (3 * iz + 5) mod 16)
    else (Z.lxor c (Z.lor b (lnot32 d)), (7 * iz) mod 16) in
  let f' := w32 (f + a + nth i K 0 + nth (Z.to_nat g) M 0) in
  Regs d (w32 (b + rotl f' (nth i shifts 0))) b c.

Definition process_block (r : regs) (M : list Z) : regs :=
  let r' := fold_left (round_step M) (seq 0 64) r in
  Regs (w32 (ra r + ra r')) (w32 (rb r + rb r'))
       (w32 (rc r + rc r')) (w32 (rd r + rd r')).

Definition byte_val (b : byte) : Z := Z.of_N (Byte.to_N b).

(** little-endian 32-bit words of a byte sequence *)
Fixpoint words_of (bs : list Z) : list Z :=
  match bs with
  | b0 :: b1 :: b2 :: b3 :: rest =>
      (b0 + 256 * b1 + 65536 * b2 + 16777216 * b3) :: words_of rest
  | _ => []
  end.

Fixpoint blocks_of (fuel : nat) (ws : list Z) : list (list Z) :=
  match fuel with
  | O => []
  | S fuel' =>
      match ws with
      | [] => []
      | _ => firstn 16 ws :: blocks_of fuel' (skipn 16 ws)
      end
  end.

Definition le_bytes (n : nat) (x : Z) : list Z :=
  map (fun i => (x / 256 ^ Z.of_nat i) mod 256) (seq 0 n).

Definition pad (msg : list Z) : list Z :=
  let len := Z.of_nat (length msg) in
  let zeros := Z.to_nat ((55 - len) mod 64) in
  msg ++ [128] ++ repeat 0 zeros ++ le_bytes 8 ((8 * len) mod 2 ^ 64).

Definition digest (msg : list byte) : list Z :=
  let ws := words_of (pad (map byte_val msg)) in
  let r := fold_left process_block (blocks_of (length ws) ws) init_regs in
  le_bytes 4 (ra r) ++ le_bytes 4 (rb r) ++ le_bytes 4 (rc r) ++ le_bytes 4 (rd r).

Definition hex_digit (x : Z) : ascii :=
  if x <? 10 then ascii_of_N (Z.to_N (48 + x)) else ascii_of_N (Z.to_N (87 + x)).

Fixpoint hex_of (bs : list Z) : string :=
  match bs with
  | [] => EmptyString
  | b :: bs' => String (hex_digit (b / 16)) (String (hex_digit (b mod 16)) (hex_of bs'))
  end.

(** [hashlib.md5(msg).hexdigest()]: 32 lower-case hexadecimal digits *)
Definition hexdigest (msg : list byte) : string := hex_of (digest msg).

End MD5.

(** ** The environment: remote servers, local disk, library calls *)

(** Exceptions that can escape a call.  [TransportError] stands for whatever
    urllib, ftplib or boto raise when a host, bucket or file is unreachable. *)
Inductive exn :=
| TypeError | IndexError | ValueError | AttributeError
| ZeroDivisionError | FileNotFoundError | TransportError.

(** Result of running a piece of the program: a value, an uncaught
    exception, or a [while True] loop cut off by its iteration bound. *)
Inductive outcome (A : Type) :=
| Ok (a : A)
| Raise (e : exn)
| OutOfFuel.
Arguments Ok {A} a.
Arguments Raise {A} e.
Arguments OutOfFuel {A}.

(** The library calls that reach the network. *)
Inductive event :=
| MetadataProbe                                  (* get_instance_metadata(...) *)
| HttpOpen (url range : string)                  (* urlopen(Request(url, headers)) *)
| HttpSize (url : string)                        (* urlopen(url).info()['Content-Length'] *)
| HttpRead (url : string) (amt : Z)              (* res.read(amt) *)
| FtpConnect (host : string)                     (* FTP(host); login *)
| FtpMlsd (host path : string)                   (* ftp.mlsd(path) *)
| FtpSize (host path : string)                   (* ftp.size(path) *)
| FtpRetr (host path : string) (blocksize rest : Z)  (* ftp.retrbinary(...) *)
| S3GetBucket (bucket : string)                  (* s3_conn.get_bucket(bucket) *)
| S3GetKey (bucket key : string)                 (* b.get_key(key) *)
| S3GetContents (bucket key range : string).     (* k.get_contents_as_string(headers) *)

(** The transport calls (open, size, chunk read) are all of them but the
    metadata probe of the endpoint selector. *)
Definition is_transport_call (e : event) : bool :=
  match e with
  | MetadataProbe => false
  | _ => true
  end.

(** The remote side, fixed during a run: what each server holds.  Servers
    honour byte ranges and restart offsets, and send no bytes for a range
    that starts at or past the end of the object. *)
Record network := Network {
  http_body : string -> option (list byte);
      (* resource of a URL; None: urlopen raises *)
  ftp_files : string -> option (string -> option (list byte));
      (* files of an FTP host by path; None: the connection fails *)
  s3_objects : string -> option (string -> option (list byte));
      (* keys of a bucket; None: get_bucket raises *)
  instance_metadata : bool
      (* whether the EC2 metadata probe answers with any key *)
}.

(** The local side: the files on disk, the two module-level connection
    caches [FTP_CONNS] and [S3_CONNS], and the network calls made so far. *)
Record world := World {
  fs : gmap string (list byte);
  ftp_conns : gset string;
  s3_conn : bool;
  calls : list event
}.

Definition transport_calls (w : world) : list event :=
  filter (fun e => is_transport_call e = true) (calls w).

(** State and exception monad over [world]. *)
Definition M (A : Type) : Type := world -> outcome A * world.

Definition ret {A} (a : A) : M A := fun w => (Ok a, w).

Definition raise {A} (e : exn) : M A := fun w => (Raise e, w).

Definition bind {A B} (m : M A) (k : A -> M B) : M B :=
  fun w =>
    match m w with
    | (Ok a, w') => k a w'
    | (Raise e, w') => (Raise e, w')
    | (OutOfFuel, w') => (OutOfFuel, w')
    end.

Notation "x <- m ;; k" := (bind m (fun x => k))
  (at level 100, m at next level, right associativity).
Notation "m ;; k" := (bind m (fun _ => k))
  (at level 100, right associativity).

Definition log (e : event) : M unit :=
  fun w => (Ok tt, World (fs w) (ftp_conns w) (s3_conn w) (calls w ++ [e])%list).

Definition get_fs : M (gmap string (list byte)) := fun w => (Ok (fs w), w).

Definition set_fs (f : gmap string (list byte)) : M unit :=
  fun w => (Ok tt, World f (ftp_conns w) (s3_conn w) (calls w)).

(** [for x in l: s = body(x, s)] *)
Fixpoint for_each {A S} (l : list A) (body : A -> S -> M S) (s : S) : M S :=
  match l with
  | [] => ret s
  | x :: l' => s' <- body x s ;; for_each l' body s'
  end.

(** [l[i]], raising IndexError out of range *)
Definition index {A} (l : list A) (i : nat) : M A :=
  match l !! i with
  | Some x => ret x
  | None => raise IndexError
  end.

(** *** Files *)

(** [os.path.exists(path)] *)
Definition path_exists (path : string) : M bool :=
  f <- get_fs ;; ret (bool_decide (is_Some (f !! path))).

(** [os.path.getsize(path)] *)
Definition getsize (path : string) : M Z :=
  f <- get_fs ;;
  match f !! path with
  | Some data => ret (Z.of_nat (length data))
  | None => raise FileNotFoundError
  end.

(** [open(path, 'ab')]: creates the file when it is missing *)
Definition open_append (path : string) : M unit :=
  f <- get_fs ;;
  match f !! path with
  | Some _ => ret tt
  | None => set_fs (<[path := []]> f)
  end.

(** [file.write(buffer)] on a file opened for appending *)
Definition file_write (path : string) (buffer : list byte) : M unit :=
  f <- get_fs ;;
  set_fs (<[path := (default [] (f !! path) ++ buffer)%list]> f).

(** [shutil.move(src, dst)] of a regular file *)
Definition move (src dst : string) : M unit :=
  f <- get_fs ;;
  match f !! src with
  | Some data => set_fs (<[dst := data]> (delete src f))
  | None => raise FileNotFoundError
  end.

(** ** The program

    Functions keep their names and argument order.  What the module prints
    or logs (progress messages, [logger.debug]) is left out: it has no
    effect on the disk, the network calls or the codes returned. *)

(** A manifest entry: [mfile['id']], [mfile['urls']], [mfile['md5']]. *)
Record mfile := Mfile { id : string; urls : string; md5 : string }.

(** What [get_url_obj] and [get_fasp_obj] hand back as [res]. *)
Inductive netobj :=
| NoObj                                             (* the initial "" *)
| ErrorObj                                          (* the string "error" *)
| HttpResponse (url : string) (unread : list byte)  (* urlopen's response *)
| FtpGetData (host path : string)                   (* the get_data closure *)
| S3Key (bucket key : string) (content : list byte). (* a boto Key *)

(** [res == "error"] *)
Definition is_error (r : netobj) : bool :=
  match r with
  | ErrorObj => true
  | _ => false
  end.

(** The header value ['bytes={0}-'.format(start)], with the end of the range
    appended when there is one. *)
Definition range_header (start : Z) (stop : option Z) : string :=
  "bytes=" +:+ PyStr.str_of_Z start +:+ "-" +:+
  match stop with
  | Some e => PyStr.str_of_Z e
  | None => ""
  end.

(** The bytes a server sends for a range: from [start] to the end, or to
    [stop] inclusive; a range that ends before it starts is ignored and the
    whole content is sent. *)
Definition byte_range (content : list byte) (start : Z) (stop : option Z)
  : list byte :=
  match stop with
  | None => skipn (Z.to_nat start) content
  | Some e =>
      if e <? start then content
      else firstn (Z.to_nat (e - start + 1)) (skipn (Z.to_nat start) content)
  end.

(** [res.read(amt)] on a response: the bytes read and those left. *)
Definition read_amt (amt : Z) (unread : list byte) : list byte * list byte :=
  if amt <? 0 then (unread, [])
  else (firstn (Z.to_nat amt) unread, skipn (Z.to_nat amt) unread).

(** The endpoint name of a URL, [url.split(':')[0].upper()] (line 93). *)
Definition endpoint_of (url : string) : string :=
  PyStr.upper (hd "" (PyStr.split ":" url)).

Section Program.

Variable net : network.

(** [get_s3_connection] (lines 25-28) *)
Definition get_s3_connection : M unit :=
  fun w => (Ok tt, World (fs w) (ftp_conns w) true (calls w)).

(** [get_ftp_connection] (lines 33-38): the files the host serves *)
Definition get_ftp_connection (host : string)
  : M (string -> option (list byte)) :=
  fun w =>
    if bool_decide (host ∈ ftp_conns w) then
      match ftp_files net host with
      | Some files => (Ok files, w)
      | None => (Raise TransportError, w)
      end
    else
      match ftp_files net host with
      | Some files =>
          (Ok files,
           World (fs w) ({[host]} ∪ ftp_conns w) (s3_conn w)
                 (calls w ++ [FtpConnect host])%list)
      | None =>
          (Raise TransportError,
           World (fs w) (ftp_conns w) (s3_conn w)
                 (calls w ++ [FtpConnect host])%list)
      end.

(** [parse_ftp_url] (lines 40-45): [(dest, host, file_path)] *)
Definition parse_ftp_url (url : string) : M (string * string * string) :=
  dest <- index (PyStr.split "//" url) 1 ;;
  host <- index (PyStr.split "/" dest) 0 ;;
  if String.eqb host "" then raise ValueError   (* split with an empty separator *)
  else
    file_path <- index (PyStr.split host url) 1 ;;
    ret (dest, host, file_path).

(** [get_fasp_obj] (lines 154-176) takes [url, file_name, username,
    password]; the only call, at line 96, passes [url] alone. *)
Definition get_fasp_obj (url : string) : M netobj := raise TypeError.

(** The string part of [s3_get_key] (lines 284-286): bucket and key. *)
Definition s3_bucket_key (url : string) : M (string * string) :=
  let url := PyStr.lstrip "s3://" url in
  bucket <- index (PyStr.split1 "/" url) 0 ;;
  key <- index (PyStr.split1 "/" url) 1 ;;
  ret (bucket, key).

(** [s3_get_key] (lines 283-290): the Key, or None when the bucket lacks it *)
Definition s3_get_key (url : string) : M (option netobj) :=
  bk <- s3_bucket_key url ;;
  let '(bucket, key) := bk in
  get_s3_connection ;;
  log (S3GetBucket bucket) ;;
  match s3_objects net bucket with
  | None => raise TransportError
  | Some keys =>
      log (S3GetKey bucket key) ;;
      match keys key with
      | Some content => ret (Some (S3Key bucket key content))
      | None => ret None
      end
  end.

(** [get_url_obj] (lines 184-216).  [http_header] is the offset [K] of
    its ['Range': 'bytes=K-'] entry. *)
Definition get_url_obj (url endpoint : string) (http_header : Z) : M netobj :=
  let ftp_or_s3 : M netobj :=
    if String.eqb endpoint "FTP" then
      p <- parse_ftp_url url ;;
      let '(_, host, file_path) := p in
      files <- get_ftp_connection host ;;
      log (FtpMlsd host file_path) ;;
      match files file_path with
      | Some _ => ret (FtpGetData host file_path)
      | None => ret ErrorObj
      end
    else if String.eqb endpoint "S3" then
      res <- s3_get_key url ;;
      match res with
      | Some k => ret k
      | None => ret ErrorObj
      end
    else ret ErrorObj in
  if String.eqb endpoint "HTTP" then
    log (HttpOpen url (range_header http_header None)) ;;
    match http_body net url with
    | Some body => ret (HttpResponse url (byte_range body http_header None))
    | None => ftp_or_s3      (* the exception is swallowed, res = "" *)
    end
  else ftp_or_s3.

(** [get_file_size] (lines 222-233); None is Python's None *)
Definition get_file_size (url endpoint : string) : M (option Z) :=
  if String.eqb endpoint "HTTP" then
    log (HttpSize url) ;;
    match http_body net url with
    | Some body => ret (Some (Z.of_nat (length body)))
    | None => raise TransportError
    end
  else if String.eqb endpoint "FTP" then
    p <- parse_ftp_url url ;;
    let '(_, host, file_path) := p in
    files <- get_ftp_connection host ;;
    log (FtpSize host file_path) ;;
    match files file_path with
    | Some content => ret (Some (Z.of_nat (length content)))
    | None => raise TransportError
    end
  else if String.eqb endpoint "S3" then
    k <- s3_get_key url ;;
    match k with
    | Some (S3Key _ _ content) => ret (Some (Z.of_nat (length content)))
    | _ => raise AttributeError
    end
  else ret None.

(** [get_buffer] (lines 243-278): the buffer (None included) and the
    network object after the call; [file] is the path of the open file. *)
Definition get_buffer (res : netobj) (endpoint : string)
    (block_size start_pos max_range : Z) (file : string)
  : M (option (list byte) * netobj) :=
  if String.eqb endpoint "HTTP" then
    match res with
    | HttpResponse url unread =>
        log (HttpRead url block_size) ;;
        let '(buffer, rest) := read_amt block_size unread in
        ret (Some buffer, HttpResponse url rest)
    | _ => raise AttributeError
    end
  else if String.eqb endpoint "FTP" then
    match res with
    | FtpGetData host path =>
        log (FtpRetr host path block_size start_pos) ;;
        match ftp_files net host with
        | Some files =>
            match files path with
            | Some content =>
                (* retrbinary receives blocksize bytes at a time: a negative
                   size is refused, and with size 0 nothing is received and
                   the server's reply is an error *)
                if block_size <? 0 then raise ValueError
                else if block_size =? 0 then raise TransportError
                else
                  let data := byte_range content start_pos None in
                  (* callback, block by block: file.write(data), then the
                     progress message, whose percentage divides by
                     max_range *)
                  if negb (Nat.eqb (length data) 0) && (max_range =? 0)
                  then
                    file_write file (firstn (Z.to_nat block_size) data) ;;
                    raise ZeroDivisionError
                  else file_write file data ;; ret (None, res)
            | None => raise TransportError
            end
        | None => raise TransportError
        end
    | _ => raise TypeError
    end
  else if String.eqb endpoint "S3" then
    if start_pos >=? max_range then ret (None, res)
    else
      let range_end := start_pos + block_size - 1 in
      let stop := if range_end <=? max_range then Some range_end else None in
      match res with
      | S3Key bucket key content =>
          log (S3GetContents bucket key (range_header start_pos stop)) ;;
          ret (Some (byte_range content start_pos stop), res)
      | _ => raise AttributeError
      end
  else ret (None, res).

(** The demo-data rewrite of lines 321-323; None is the IndexError of
    [elements[2]] or [elements[4]]. *)
Definition demo_url (url : string) : option string :=
  if PyStr.contains "s3://" url && PyStr.contains "HMDEMO" url then
    let elements := PyStr.split "/" url in
    match elements !! 2%nat, elements !! 4%nat with
    | Some e2, Some e4 =>
        Some ("s3://" +:+ e2 +:+ "/DEMO/" +:+ e4 +:+ "/" +:+
              PyStr.join "/" (PyStr.last_n 4 elements))
    | _, _ => None
    end
  else Some url.

(** Body of [for url in urls] (lines 316-325) for the token [ep] *)
Definition select_url (ep url : string) (url_list : list string)
  : M (list string) :=
  if PyStr.startswith url (PyStr.lower ep) then
    match demo_url url with
    | Some url => ret (url_list ++ [url])%list
    | None => raise IndexError
    end
  else ret url_list.

(** Body of [for ep in eps] (lines 315-325) *)
Definition select_endpoint (urls : list string) (ep : string)
    (url_list : list string) : M (list string) :=
  for_each urls (select_url ep) url_list.

(** [get_prioritized_endpoint] (lines 297-327) *)
Definition get_prioritized_endpoint (manifest_urls priorities : string)
  : M (list string) :=
  let urls := PyStr.split "," manifest_urls in
  let eps := PyStr.split "," priorities in
  e0 <- index eps 0 ;;
  eps <- (if String.eqb e0 "" then
            log MetadataProbe ;;
            if instance_metadata net then ret ["S3"; "HTTP"; "FTP"]
            else ret ["HTTP"; "FTP"; "S3"]
          else ret eps) ;;
  for_each eps (select_endpoint urls) [].

(** A [hashlib.md5()] object: the bytes fed so far.  [update] appends,
    [hexdigest] is the MD5 of all of them. *)
Record md5_obj := Md5 { fed : list byte }.

Definition md5_update (o : md5_obj) (chunk : list byte) : md5_obj :=
  Md5 (fed o ++ chunk)%list.

Definition md5_hexdigest (o : md5_obj) : string := MD5.hexdigest (fed o).

(** the chunk size of [filehandle.read(4096)] *)
Definition chunk_size : nat := 4096.

(** [for chunk in iter(lambda: filehandle.read(4096), b""): md5.update(chunk)]
    (lines 340-341); [unread] is what the handle has not read yet. *)
Fixpoint hash_chunks (fuel : nat) (unread : list byte) (o : md5_obj)
  : outcome md5_obj :=
  match fuel with
  | O => OutOfFuel
  | S fuel' =>
      match firstn chunk_size unread with
      | [] => Ok o
      | chunk => hash_chunks fuel' (skipn chunk_size unread) (md5_update o chunk)
      end
  end.

(** [checksum_matches] (lines 334-349) *)
Definition checksum_matches (file_path original_md5 : string) : M bool :=
  f <- get_fs ;;
  match f !! file_path with
  | None => raise FileNotFoundError
  | Some data =>
      fun w =>
        match hash_chunks (S (length data)) data (Md5 []) with
        | Ok o => (Ok (String.eqb (md5_hexdigest o) original_md5), w)
        | Raise e => (Raise e, w)
        | OutOfFuel => (OutOfFuel, w)
        end
  end.

(** The loop variables of lines 89-102 after an iteration. *)
Record candidates := Candidates {
  c_res : netobj;
  c_endpoint : string;
  c_url : string;
  c_endpoints : list string
}.

(** Body of [for url in url_list] (lines 92-102).  The [continue] of line
    102 is the last statement of the body. *)
Definition try_candidate (http_header : Z) (url : string) (st : candidates)
  : M candidates :=
  let endpoint := endpoint_of url in
  let endpoints := (c_endpoints st ++ [endpoint])%list in
  res <- (if String.eqb endpoint "FASP" then get_fasp_obj url
          else get_url_obj url endpoint http_header) ;;
  ret (Candidates res endpoint url endpoints).

(** [while True] of lines 119-137; returns the final [current_byte]. *)
Fixpoint transfer_loop (fuel : nat) (tmp_file_name endpoint : string)
    (block_size file_size : Z) (res : netobj) (current_byte : Z) : M Z :=
  match fuel with
  | O => fun w => (OutOfFuel, w)
  | S fuel' =>
      b <- get_buffer res endpoint block_size current_byte file_size
                      tmp_file_name ;;
      let '(buffer, res) := b in
      match buffer with
      | None | Some [] => ret current_byte
      | Some buffer =>
          file_write tmp_file_name buffer ;;
          let current_byte := current_byte + Z.of_nat (length buffer) in
          if file_size =? 0 then raise ZeroDivisionError
          else transfer_loop fuel' tmp_file_name endpoint block_size
                             file_size res current_byte
      end
  end.

(** Iterations after which the loop has stopped. *)
Definition loop_bound (res : netobj) (file_size current_byte : Z) : nat :=
  match res with
  | HttpResponse _ unread => S (length unread)
  | S3Key _ _ _ => S (Z.to_nat (file_size - current_byte))
  | _ => 1
  end.

(** The [with open(tmp_file_name, 'ab')] block (lines 111-137) *)
Definition transfer (tmp_file_name url endpoint : string) (res : netobj)
    (block_size current_byte : Z) : M Z :=
  open_append tmp_file_name ;;
  file_size <- get_file_size url endpoint ;;
  match file_size with
  | None => raise TypeError          (* block_size > None *)
  | Some file_size =>
      transfer_loop (loop_bound res file_size current_byte) tmp_file_name
                    endpoint block_size file_size res current_byte
  end.

(** Lines 139-147: the checksum test and the rename *)
Definition verify_and_finalize (file_name tmp_file_name : string) (m : mfile)
    (failed_files : list Z) : M (list Z) :=
  valid <- checksum_matches tmp_file_name (md5 m) ;;
  if valid then
    move tmp_file_name file_name ;;
    ret (failed_files ++ [0])%list
  else ret (failed_files ++ [3])%list.

(** Lines 79-81: the resume offset *)
Definition get_current_byte (tmp_file_name : string) : M Z :=
  partial <- path_exists tmp_file_name ;;
  if partial then getsize tmp_file_name else ret 0.

(** The branch of [if not os.path.exists(file_name)] (lines 76-147) *)
Definition fetch_and_verify (file_name : string) (url_list : list string)
    (block_size : Z) (m : mfile) (failed_files : list Z) : M (list Z) :=
  let tmp_file_name := file_name +:+ ".partial" in
  current_byte <- get_current_byte tmp_file_name ;;
  let http_header := current_byte in
  st <- for_each url_list (try_candidate http_header)
                 (Candidates NoObj "" "" []) ;;
  if is_error (c_res st) then ret (failed_files ++ [2])%list
  else
    transfer tmp_file_name (c_url st) (c_endpoint st) (c_res st)
             block_size current_byte ;;
    verify_and_finalize file_name tmp_file_name m failed_files.

(** Body of [for mfile in manifest] (lines 63-150) *)
Definition download_mfile (destination priorities : string) (block_size : Z)
    (m : mfile) (failed_files : list Z) : M (list Z) :=
  url_list <- get_prioritized_endpoint (urls m) priorities ;;
  match url_list with
  | [] => ret (failed_files ++ [1])%list
  | url0 :: _ =>
      let file_name :=
        destination +:+ "/" +:+ List.last (PyStr.split "/" url0) "" in
      present <- path_exists file_name ;;
      if negb present then
        fetch_and_verify file_name url_list block_size m failed_files
      else ret (failed_files ++ [0])%list
  end.

(** [download_manifest] (lines 53-152) *)
Definition download_manifest (manifest : list mfile)
    (destination priorities : string) (block_size : Z) : M (list Z) :=
  for_each manifest (download_mfile destination priorities block_size) [].

End Program.

(** ** Notions used to state the properties *)

(** A URL's scheme appears in a priority list, compared without regard to
    case as the endpoint names are. *)
Definition scheme_in (url : string) (eps : list string) : Prop :=
  exists ep, ep ∈ eps /\ PyStr.upper ep = endpoint_of url.

(** The URLs picked for the priority tokens [eps]: token by token, the URLs
    that start with the lower-cased token, in the order of the set. *)
Definition selected (urls eps : list string) : list string :=
  flat_map
    (fun ep => filter (fun u => PyStr.startswith u (PyStr.lower ep) = true) urls)
    eps.

(** The priority list in force: the caller's, or the default order chosen by
    the metadata probe when the caller's first token is empty. *)
Definition effective_priorities (net : network) (priorities : string)
  : list string :=
  let eps := PyStr.split "," priorities in
  if String.eqb (hd "" eps) "" then
    if instance_metadata net then ["S3"; "HTTP"; "FTP"] else ["HTTP"; "FTP"; "S3"]
  else eps.

(** The world after the selector's probe: [MetadataProbe] is recorded when
    the caller's first token is empty, nothing else changes. *)
Definition after_probe (priorities : string) (w : world) : world :=
  if String.eqb (hd "" (PyStr.split "," priorities)) "" then
    World (fs w) (ftp_conns w) (s3_conn w) (calls w ++ [MetadataProbe])%list
  else w.

(** [keeps R m]: whatever [m] returns or raises, the world it leaves is
    related by [R] to the world it started from. *)
Definition keeps {A} (R : world -> world -> Prop) (m : M A) : Prop :=
  forall w, R w (snd (m w)).

(** the disk is left as it was *)
Definition same_disk (w w' : world) : Prop := fs w' = fs w.

(** only the file [path] may have been written, and it was not removed *)
Definition only_writes (path : string) (w w' : world) : Prop :=
  (is_Some (fs w !! path) -> is_Some (fs w' !! path))
  /\ forall p, p <> path -> fs w' !! p = fs w !! p.

(** [m] never stops for want of loop iterations. *)
Definition terminates {A} (m : M A) : Prop :=
  forall w, fst (m w) <> OutOfFuel.

(** every file but [file_name] and [tmp_file_name] is as it was *)
Definition touches (file_name tmp_file_name : string) (w w' : world) : Prop :=
  forall p, p <> file_name -> p <> tmp_file_name -> fs w' !! p = fs w !! p.

(** What a candidate's network object stands for on the remote side. *)
Definition served (net : network) (res : netobj) : option (list byte) :=
  match res with
  | HttpResponse url _ => http_body net url
  | FtpGetData host path =>
      match ftp_files net host with
      | Some files => files path
      | None => None
      end
  | S3Key _ _ content => Some content
  | _ => None
  end.

(** The resume offset of lines 79-81: the size of the partial file, 0
    when there is none. *)
Definition resume_offset (w : world) (tmp_file_name : string) : Z :=
  match fs w !! tmp_file_name with
  | Some data => Z.of_nat (length data)
  | None => 0
  end.

(** The loop variables before the first candidate is tried. *)
Definition no_candidate : candidates := Candidates NoObj "" "" [].

(** The world once [tmp_file_name] is renamed to [file_name] with the
    content [data]. *)
Definition renamed (file_name tmp_file_name : string) (data : list byte)
    (w : world) : world :=
  World (<[file_name := data]> (delete tmp_file_name (fs w)))
        (ftp_conns w) (s3_conn w) (calls w).

(** [m] neither reads nor changes the world. *)
Definition pure_m {A} (m : M A) : Prop :=
  forall w w0, m w = (fst (m w0), w).

(** What a network object other than ["error"] says about the URL it was
    opened from: the endpoint, the parsed location and that the remote side
    holds the object. *)
Definition opens_as (net : network) (K : Z) (url endpoint : string)
    (res : netobj) : Prop :=
  match res with
  | HttpResponse u unread =>
      endpoint = "HTTP" /\ u = url /\
      exists body, http_body net url = Some body /\ unread = byte_range body K None
  | FtpGetData host path =>
      endpoint = "FTP" /\
      (exists dest, forall w, parse_ftp_url url w = (Ok (dest, host, path), w)) /\
      exists files content, ftp_files net host = Some files /\ files path = Some content
  | S3Key bucket key content =>
      endpoint = "S3" /\
      (forall w, s3_bucket_key url w = (Ok (bucket, key), w)) /\
      exists keys, s3_objects net bucket = Some keys /\ keys key = Some content
  | ErrorObj => True
  | NoObj => False
  end.

Definition opened (net : network) (K : Z) (st : candidates) : Prop :=
  opens_as net K (c_url st) (c_endpoint st) (c_res st).

(** The path of an entry's final file, [destination/<last path element of
    the first candidate>] (line 72), and of its partial file (line 76). *)
Definition file_name_of (destination url0 : string) : string :=
  destination +:+ "/" +:+ List.last (PyStr.split "/" url0) "".

Definition partial_name_of (destination url0 : string) : string :=
  file_name_of destination url0 +:+ ".partial".

(** every character of [p] occurs in [chars] *)
Fixpoint all_in (chars p : string) : bool :=
  match p with
  | EmptyString => true
  | String c p' => PyStr.mem_char c chars && all_in chars p'
  end.

(** ** A small remote world for the examples *)

Definition sample_content : list byte := list_byte_of_string "0123456789abcdef".

Definition sample_md5 : string := "4032af8d61035123906e58e067140cc5".

Definition sample_net : network :=
  Network
    (fun u => if String.eqb u "http://a/x.bin" then Some sample_content else None)
    (fun h =>
       if String.eqb h "b" then
         Some (fun p => if String.eqb p "/y.dat" then Some sample_content else None)
       else None)
    (fun b =>
       if String.eqb b "bucket" then
         Some (fun k => if String.eqb k "x.bin" then Some sample_content else None)
       else None)
    false.

Definition empty_world : world := World ∅ ∅ false [].

(** a disk that already holds the final file of [http://a/x.bin] *)
Definition present_world : world :=
  World {["dest/x.bin" := sample_content]} ∅ false [].

(** the entry for [http://a/x.bin] and the stages of its download from an
    empty disk *)
Definition sample_entry : mfile := Mfile "F1" "http://a/x.bin" sample_md5.

Definition sample_opened : candidates :=
  Candidates (HttpResponse "http://a/x.bin" sample_content) "HTTP"
             "http://a/x.bin" ["HTTP"].

Definition sample_opened_world : world :=
  World ∅ ∅ false [HttpOpen "http://a/x.bin" "bytes=0-"].

Definition sample_transferred_world : world :=
  World {["dest/x.bin.partial" := sample_content]} ∅ false
        [HttpOpen "http://a/x.bin" "bytes=0-"; HttpSize "http://a/x.bin";
         HttpRead "http://a/x.bin" 8; HttpRead "http://a/x.bin" 8;
         HttpRead "http://a/x.bin" 8].

(** a disk that holds the first 6 bytes of [http://a/x.bin] as a partial
    file, and the stages of the resumed download *)
Definition resume_world : world :=
  World {["dest/x.bin.partial" := firstn 6 sample_content]} ∅ false [].

Definition resume_opened : candidates :=
  Candidates (HttpResponse "http://a/x.bin" (skipn 6 sample_content)) "HTTP"
             "http://a/x.bin" ["HTTP"].

Definition resume_opened_world : world :=
  World {["dest/x.bin.partial" := firstn 6 sample_content]} ∅ false
        [HttpOpen "http://a/x.bin" "bytes=6-"].

(** ** Notions used to state the further properties *)

(** the file [path] keeps what it holds: its content only gets longer *)
Definition grows (path : string) (w w' : world) : Prop :=
  forall old, fs w !! path = Some old ->
    exists more, fs w' !! path = Some (old ++ more)%list.

(** only files [destination/<name>] and [destination/<name>.partial], for
    a [name] without a slash, may differ *)
Definition inside (destination : string) (w w' : world) : Prop :=
  forall p,
    (forall name, PyStr.mem_char "/" name = false ->
       p <> destination +:+ "/" +:+ name /\
       p <> (destination +:+ "/" +:+ name) +:+ ".partial") ->
    fs w' !! p = fs w !! p.

(** [f] applied to the value returned, exceptions passed on *)
Definition map_outcome {A B} (f : A -> B) (r : outcome A * world)
  : outcome B * world :=
  match r with
  | (Ok a, w) => (Ok (f a), w)
  | (Raise e, w) => (Raise e, w)
  | (OutOfFuel, w) => (OutOfFuel, w)
  end.

(** an entry for [http://a/x.bin] with a digest that is not the file's *)
Definition wrong_entry : mfile :=
  Mfile "F9" "http://a/x.bin" "00000000000000000000000000000000".

(** [sep] does not match at any position inside [pre] when [pre] is
    followed by [rest] *)
Fixpoint no_match_in (sep pre rest : string) : bool :=
  match pre with
  | EmptyString => true
  | String c pre' =>
      negb (String.prefix sep (pre +:+ rest)) && no_match_in sep pre' rest
  end.

(** The endpoints [download_manifest] has a branch for. *)
Definition known_endpoint (endpoint : string) : bool :=
  String.eqb endpoint "HTTP" || String.eqb endpoint "FTP"
  || String.eqb endpoint "S3" || String.eqb endpoint "FASP".

(** [e] is the call [FTP(host)] *)
Definition is_connect (host : string) (e : event) : bool :=
  match e with
  | FtpConnect h => String.eqb h host
  | _ => false
  end.

(** how many times [host] was connected to *)
Fixpoint count_connects (host : string) (l : list event) : nat :=
  match l with
  | [] => 0
  | e :: l' => (if is_connect host e then 1 else 0) + count_connects host l'
  end.

Definition connects (host : string) (w : world) : nat :=
  count_connects host (calls w).

(** no host was connected to twice *)
Definition connected_once (w : world) : Prop :=
  forall host, (connects host w <= 1)%nat.

(** The cache [FTP_CONNS] agrees with the calls: a host in the cache was
    connected to at most once, a host outside it never. *)
Definition cache_ok (w : world) : Prop :=
  forall host,
    (host ∈ ftp_conns w -> (connects host w <= 1)%nat)
    /\ (host ∉ ftp_conns w -> connects host w = 0%nat).

(** [m] keeps the cache in agreement with the calls when it returns, and
    leaves no host connected to twice when it raises. *)
Definition caches {A} (m : M A) : Prop :=
  forall w, cache_ok w ->
    match m w with
    | (Ok _, w') => cache_ok w'
    | (_, w') => connected_once w'
    end.


(** * Properties *)

(** ** Checks of the string operations and of MD5 on known values *)

Example split_commas :
  PyStr.split "," "http://a/x.bin,ftp://b/x.bin" = ["http://a/x.bin"; "ftp://b/x.bin"].
Proof. reflexivity. Qed.

Example split_double_slash :
  PyStr.split "//" "ftp://b///x.bin" = ["ftp:"; "b"; "/x.bin"].
Proof. reflexivity. Qed.

Example split_empty_string : PyStr.split "," "" = [""].
Proof. reflexivity. Qed.

Example str_of_Z_4096 : PyStr.str_of_Z 4096 = "4096" /\ PyStr.str_of_Z 0 = "0".
Proof. split; reflexivity. Qed.

Example md5_empty : MD5.hexdigest [] = "d41d8cd98f00b204e9800998ecf8427e".
Proof. vm_compute. reflexivity. Qed.

Example md5_abc :
  MD5.hexdigest (list_byte_of_string "abc") = "900150983cd24fb0d6963f7d28e17f72".
Proof. vm_compute. reflexivity. Qed.

Example md5_long :
  MD5.hexdigest (list_byte_of_string
    "12345678901234567890123456789012345678901234567890123456789012345678901234567890")
  = "57edf4a22be3c955ac49da2e2107b67a".
Proof. vm_compute. reflexivity. Qed.


(** ** [s3_get_key]: what [lstrip('s3://')] does to the bucket name *)

Lemma split1_no_sep (sep : ascii) (b k : string) :
  PyStr.mem_char sep b = false ->
  PyStr.split1 sep (b +:+ String sep k) = [b; k].
Proof.
  induction b as [|c b IH]; simpl; intros Hb.
  - now rewrite Ascii.eqb_refl.
  - apply orb_false_iff in Hb as [Hc Hb].
    rewrite Ascii.eqb_sym in Hc. rewrite Hc.
    now rewrite (IH Hb).
Qed.

Lemma lstrip_stops (chars : string) (c : ascii) (s : string) :
  PyStr.mem_char c chars = false ->
  PyStr.lstrip chars (String c s) = String c s.
Proof. intros Hc. simpl. now rewrite Hc. Qed.

Lemma lstrip_drops (chars p : string) (c : ascii) (s : string) :
  all_in chars p = true ->
  PyStr.mem_char c chars = false ->
  PyStr.lstrip chars (p +:+ String c s) = String c s.
Proof.
  induction p as [|d p IH]; intros Hp Hc.
  - now apply lstrip_stops.
  - simpl in Hp. apply andb_true_iff in Hp as [Hd Hp].
    simpl. rewrite Hd. now apply IH.
Qed.

(** After its string part, [s3_get_key] connects, asks the connection for
    the parsed bucket and asks that bucket for the parsed key. *)
Lemma s3_get_key_run (net : network) (url bucket key : string) (w : world) :
  s3_bucket_key url w = (Ok (bucket, key), w) ->
  s3_get_key net url w
  = match s3_objects net bucket with
    | None =>
        (Raise TransportError,
         World (fs w) (ftp_conns w) true (calls w ++ [S3GetBucket bucket])%list)
    | Some keys =>
        (Ok (match keys key with
             | Some content => Some (S3Key bucket key content)
             | None => None
             end),
         World (fs w) (ftp_conns w) true
               (calls w ++ [S3GetBucket bucket; S3GetKey bucket key])%list)
    end.
Proof.
  intros Hparse. unfold s3_get_key. unfold bind at 1. rewrite Hparse.
  unfold get_s3_connection.
  cbv beta iota zeta delta [bind log ret raise].
  cbn [fs ftp_conns s3_conn calls].
  destruct (s3_objects net bucket) as [keys|]; [|reflexivity].
  cbn [fs ftp_conns s3_conn calls]. rewrite <- app_assoc.
  now destruct (keys key).
Qed.

(** C10.  [s3_get_key] strips with [lstrip('s3://')], which drops leading
    characters of the set {s, 3, :, /}.  For a URL [s3://bucket/key] whose
    bucket name starts with a character outside that set, the parsed bucket
    is the host segment and the key the remaining path, and [s3_get_key]
    asks the connection for that bucket and the bucket for that key: it
    returns the Key the bucket holds (None when it holds none) and stops on
    the library's error when the bucket is unknown.  For
    [s3://sample-bucket/key] the parsed bucket is [ample-bucket], and it is
    [ample-bucket] that [s3_get_key] hands to [get_bucket]. *)
Theorem s3_get_key_lstrip_bucket (net : network) (c : ascii) (b' key : string)
    (w : world) :
  PyStr.mem_char c "s3://" = false ->
  PyStr.mem_char "/" (String c b') = false ->
  let asked (bucket key : string) :=
    match s3_objects net bucket with
    | None =>
        (Raise TransportError,
         World (fs w) (ftp_conns w) true (calls w ++ [S3GetBucket bucket])%list)
    | Some keys =>
        (Ok (match keys key with
             | Some content => Some (S3Key bucket key content)
             | None => None
             end),
         World (fs w) (ftp_conns w) true
               (calls w ++ [S3GetBucket bucket; S3GetKey bucket key])%list)
    end in
  s3_get_key net ("s3://" +:+ String c b' +:+ "/" +:+ key) w
    = asked (String c b') key
  /\ s3_bucket_key ("s3://" +:+ String c b' +:+ "/" +:+ key) w
    = (Ok (String c b', key), w)
  /\ (forall p rest, all_in "s3://" p = true ->
        PyStr.lstrip "s3://" (p +:+ String c rest) = String c rest)
  /\ s3_get_key net "s3://sample-bucket/key" w = asked "ample-bucket" "key"
  /\ s3_bucket_key "s3://sample-bucket/key" w = (Ok ("ample-bucket", "key"), w)
  /\ "ample-bucket" <> "sample-bucket".
Proof.
  intros Hc Hslash asked.
  assert (s3_bucket_key ("s3://" +:+ String c b' +:+ "/" +:+ key) w
          = (Ok (String c b', key), w)) as Hparse.
  { unfold s3_bucket_key.
    change (PyStr.lstrip "s3://" ("s3://" +:+ String c b' +:+ "/" +:+ key))
      with (PyStr.lstrip "s3://" (String c (b' +:+ "/" +:+ key))).
    rewrite (lstrip_stops _ _ _ Hc).
    change (String c (b' +:+ "/" +:+ key)) with (String c b' +:+ String "/" key).
    rewrite (split1_no_sep _ _ _ Hslash). reflexivity. }
  split; [exact (s3_get_key_run net _ _ _ w Hparse)|].
  split; [exact Hparse|].
  split; [intros p rest Hp; now apply lstrip_drops|].
  split; [apply s3_get_key_run; reflexivity|].
  split; [reflexivity | discriminate].
Qed.

Lemma s3_get_key_lstrip_bucket_witness :
  s3_get_key sample_net ("s3://" +:+ "bucket" +:+ "/" +:+ "x.bin") empty_world
    = (Ok (Some (S3Key "bucket" "x.bin" sample_content)),
       World ∅ ∅ true [S3GetBucket "bucket"; S3GetKey "bucket" "x.bin"])
  /\ s3_bucket_key ("s3://" +:+ "bucket" +:+ "/" +:+ "x.bin") empty_world
    = (Ok ("bucket", "x.bin"), empty_world)
  /\ (forall p rest, all_in "s3://" p = true ->
        PyStr.lstrip "s3://" (p +:+ String "b" rest) = String "b" rest)
  /\ s3_get_key sample_net "s3://sample-bucket/key" empty_world
     = (Raise TransportError, World ∅ ∅ true [S3GetBucket "ample-bucket"])
  /\ s3_bucket_key "s3://sample-bucket/key" empty_world
     = (Ok ("ample-bucket", "key"), empty_world)
  /\ "ample-bucket" <> "sample-bucket".
Proof.
  apply (s3_get_key_lstrip_bucket sample_net "b" "ucket" "x.bin" empty_world);
    reflexivity.
Defined.

(** ** [get_prioritized_endpoint] *)

Lemma mapM_app_inv {A B} (f : A -> option B) (l1 l2 : list A) (k : list B) :
  mapM f (l1 ++ l2) = Some k ->
  exists k1 k2, k = (k1 ++ k2)%list /\ mapM f l1 = Some k1 /\ mapM f l2 = Some k2.
Proof.
  rewrite mapM_Some. intros H.
  apply Forall2_app_inv_l in H as (k1 & k2 & H1 & H2 & ->).
  exists k1, k2. now rewrite !mapM_Some.
Qed.

(** The inner loop appends the (rewritten) URLs that start with the token. *)
Lemma select_endpoint_ok (urls : list string) (ep : string)
    (acc l : list string) (w : world) :
  mapM demo_url
       (filter (fun u => PyStr.startswith u (PyStr.lower ep) = true) urls) = Some l ->
  select_endpoint urls ep acc w = (Ok (acc ++ l)%list, w).
Proof.
  unfold select_endpoint. revert acc l.
  induction urls as [|u urls IH]; intros acc l Hl.
  - simpl in Hl. injection Hl as <-. simpl. unfold ret. now rewrite app_nil_r.
  - rewrite filter_cons in Hl. simpl. unfold bind, select_url at 1.
    destruct (PyStr.startswith u (PyStr.lower ep)) eqn:Hu.
    + rewrite decide_True in Hl by reflexivity.
      change (u :: ?x) with ([u] ++ x)%list in Hl.
      apply mapM_app_inv in Hl as (k1 & k2 & -> & H1 & H2).
      simpl in H1. destruct (demo_url u) as [v|]; [|discriminate].
      simpl in H1. injection H1 as <-. unfold ret at 1.
      rewrite (IH _ _ H2). now rewrite <- app_assoc.
    + rewrite decide_False in Hl by discriminate.
      unfold ret at 1. now apply IH.
Qed.

(** The outer loop goes through the tokens in order. *)
Lemma select_all_ok (urls eps : list string) (acc l : list string) (w : world) :
  mapM demo_url (selected urls eps) = Some l ->
  for_each eps (select_endpoint urls) acc w = (Ok (acc ++ l)%list, w).
Proof.
  revert acc l. induction eps as [|ep eps IH]; intros acc l Hl.
  - simpl in Hl. injection Hl as <-. simpl. unfold ret. now rewrite app_nil_r.
  - unfold selected in Hl. simpl in Hl.
    apply mapM_app_inv in Hl as (k1 & k2 & -> & H1 & H2).
    simpl. unfold bind. rewrite (select_endpoint_ok _ _ _ _ _ H1).
    rewrite (IH _ _ H2). now rewrite <- app_assoc.
Qed.

(** Selecting never changes the world, whatever it returns. *)
Lemma select_endpoint_world (urls : list string) (ep : string)
    (acc : list string) (w : world) :
  snd (select_endpoint urls ep acc w) = w.
Proof.
  unfold select_endpoint. revert acc.
  induction urls as [|u urls IH]; intros acc; [reflexivity|].
  simpl. unfold bind, select_url at 1.
  destruct (PyStr.startswith u (PyStr.lower ep)); [|apply IH].
  destruct (demo_url u); [apply IH | reflexivity].
Qed.

Lemma select_all_world (urls eps : list string) (acc : list string) (w : world) :
  snd (for_each eps (select_endpoint urls) acc w) = w.
Proof.
  revert acc. induction eps as [|ep eps IH]; intros acc; [reflexivity|].
  simpl. unfold bind.
  pose proof (select_endpoint_world urls ep acc w) as Hw.
  destruct (select_endpoint urls ep acc w) as [[a|e|] w']; simpl in Hw; subst w';
    [apply IH | reflexivity | reflexivity].
Qed.

Lemma split_aux_nonempty (sep : string) (skip : nat) (cur s : string) :
  PyStr.split_aux sep skip cur s <> [].
Proof.
  revert skip cur.
  induction s as [|c s IH]; intros skip cur; cbn [PyStr.split_aux]; [easy|].
  destruct skip; [|apply IH].
  destruct (String.prefix sep (String c s)); [easy | apply IH].
Qed.

Lemma in_selected (urls eps : list string) (u : string) :
  u ∈ selected urls eps <->
  exists ep, ep ∈ eps /\ u ∈ urls /\ PyStr.startswith u (PyStr.lower ep) = true.
Proof.
  unfold selected. rewrite list_elem_of_In, in_flat_map. split.
  - intros (ep & Hep & Hu). apply list_elem_of_In, list_elem_of_filter in Hu as [Hs Hu].
    exists ep. now rewrite list_elem_of_In.
  - intros (ep & Hep & Hu & Hs). exists ep. rewrite <- !list_elem_of_In.
    split; [assumption|]. now apply list_elem_of_filter.
Qed.

(** The selector is its double loop over the effective priority list, run
    after the probe. *)
Lemma get_prioritized_endpoint_unfold (net : network)
    (manifest_urls priorities : string) (w : world) :
  get_prioritized_endpoint net manifest_urls priorities w
  = for_each (effective_priorities net priorities)
             (select_endpoint (PyStr.split "," manifest_urls)) []
             (after_probe priorities w).
Proof.
  unfold get_prioritized_endpoint, effective_priorities, after_probe.
  pose proof (split_aux_nonempty "," 0 "" priorities) as Hne.
  fold (PyStr.split "," priorities) in Hne.
  destruct (PyStr.split "," priorities) as [|e0 eps]; [easy|].
  cbn [hd]. unfold bind at 1, index. cbn [lookup list_lookup]. unfold ret at 1.
  destruct (String.eqb e0 ""); unfold bind, log, ret;
    [destruct (instance_metadata net)|]; reflexivity.
Qed.

Lemma get_prioritized_endpoint_world (net : network)
    (manifest_urls priorities : string) (w : world) :
  snd (get_prioritized_endpoint net manifest_urls priorities w)
  = after_probe priorities w.
Proof. rewrite get_prioritized_endpoint_unfold. apply select_all_world. Qed.

Lemma after_probe_fs (priorities : string) (w : world) :
  fs (after_probe priorities w) = fs w
  /\ ftp_conns (after_probe priorities w) = ftp_conns w
  /\ s3_conn (after_probe priorities w) = s3_conn w
  /\ transport_calls (after_probe priorities w) = transport_calls w.
Proof.
  unfold after_probe, transport_calls.
  destruct (String.eqb _ _); cbn [fs ftp_conns s3_conn calls]; [|easy].
  repeat split. rewrite filter_app. cbn. now rewrite app_nil_r.
Qed.

(** C3, as the code has it.  For a priority list whose first token is not
    empty, the selector returns, token by token in the order of the priority
    list, the URLs of the set that start with the lower-cased token, in the
    order of the set (demo-data URLs rewritten).  Every returned URL comes
    from a URL of the set that starts with some lower-cased token, and the
    result is empty exactly when no URL starts with any token. *)
Theorem get_prioritized_endpoint_selects (net : network)
    (manifest_urls priorities : string) (l : list string) (w : world) :
  let urls := PyStr.split "," manifest_urls in
  let eps := PyStr.split "," priorities in
  hd "" eps <> "" ->
  mapM demo_url (selected urls eps) = Some l ->
  get_prioritized_endpoint net manifest_urls priorities w = (Ok l, w)
  /\ (forall v, v ∈ l ->
        exists u ep, u ∈ urls /\ ep ∈ eps /\
          PyStr.startswith u (PyStr.lower ep) = true /\ demo_url u = Some v)
  /\ (l = [] <->
      forall u ep, u ∈ urls -> ep ∈ eps ->
        PyStr.startswith u (PyStr.lower ep) = false).
Proof.
  intros urls eps Hfirst Hl. split; [|split].
  - rewrite get_prioritized_endpoint_unfold.
    unfold effective_priorities, after_probe. fold eps.
    apply String.eqb_neq in Hfirst. rewrite Hfirst.
    exact (select_all_ok urls eps [] l w Hl).
  - intros v Hv. apply mapM_Some in Hl.
    apply list_elem_of_lookup in Hv as [i Hi].
    destruct (Forall2_lookup_r _ _ _ _ _ Hl Hi) as (u & Hu & Huv).
    apply list_elem_of_lookup_2 in Hu.
    apply in_selected in Hu as (ep & Hep & Hu & Hs). now exists u, ep.
  - apply mapM_Some in Hl. split.
    + intros -> u ep Hu Hep. apply Forall2_nil_inv_r in Hl.
      destruct (PyStr.startswith u (PyStr.lower ep)) eqn:Hs; [|reflexivity].
      assert (u ∈ selected urls eps) as Hin by (apply in_selected; eauto).
      rewrite Hl in Hin. now apply elem_of_nil in Hin.
    + intros Hnone. destruct (selected urls eps) as [|u sel] eqn:Hsel.
      * now apply Forall2_nil_inv_l in Hl.
      * assert (u ∈ selected urls eps) as Hin by (rewrite Hsel; left).
        apply in_selected in Hin as (ep & Hep & Hu & Hs).
        rewrite (Hnone u ep Hu Hep) in Hs. discriminate.
Qed.

Lemma get_prioritized_endpoint_selects_witness :
  get_prioritized_endpoint sample_net
    "http://a/x.bin,ftp://b/y.dat,https://c/x.bin" "ftp,http" empty_world
  = (Ok ["ftp://b/y.dat"; "http://a/x.bin"; "https://c/x.bin"], empty_world).
Proof.
  apply (get_prioritized_endpoint_selects sample_net
           "http://a/x.bin,ftp://b/y.dat,https://c/x.bin" "ftp,http"
           ["ftp://b/y.dat"; "http://a/x.bin"; "https://c/x.bin"] empty_world);
    [discriminate | reflexivity].
Defined.

(** C3 as stated fails: with the priority list [http] the selector returns
    the URL [https://a/x.bin], whose scheme [https] is not in the list. *)
Lemma get_prioritized_endpoint_scheme_counterexample :
  fst (get_prioritized_endpoint sample_net "https://a/x.bin" "http" empty_world)
    = Ok ["https://a/x.bin"]
  /\ ~ scheme_in "https://a/x.bin" (PyStr.split "," "http").
Proof.
  split; [reflexivity|].
  intros (ep & Hep & Heq). change (PyStr.split "," "http") with ["http"] in Hep.
  apply list_elem_of_singleton in Hep as ->. discriminate.
Qed.

(** ** Entries without a usable URL, entries already downloaded *)

(** Runs the monad's plumbing, leaving the program's own functions folded. *)
Ltac run_monad :=
  cbv beta iota zeta delta
    [bind ret raise log get_fs set_fs path_exists getsize open_append
     file_write move index].

Ltac run_monad_in H :=
  cbv beta iota zeta delta
    [bind ret raise log get_fs set_fs path_exists getsize open_append
     file_write move index] in H.

(** Once the selector's answer is known, the entry continues from the
    world after the probe. *)
Lemma download_mfile_selected (net : network) (destination priorities : string)
    (block_size : Z) (m : mfile) (failed_files : list Z) (w : world)
    (url_list : list string) :
  fst (get_prioritized_endpoint net (urls m) priorities w) = Ok url_list ->
  download_mfile net destination priorities block_size m failed_files w
  = match url_list with
    | [] => (Ok (failed_files ++ [1])%list, after_probe priorities w)
    | url0 :: _ =>
        if bool_decide (is_Some (fs w !! file_name_of destination url0))
        then (Ok (failed_files ++ [0])%list, after_probe priorities w)
        else fetch_and_verify net (file_name_of destination url0) url_list
               block_size m failed_files (after_probe priorities w)
    end.
Proof.
  intros Hsel. unfold download_mfile. unfold bind at 1.
  pose proof (get_prioritized_endpoint_world net (urls m) priorities w) as Hw.
  destruct (get_prioritized_endpoint net (urls m) priorities w) as [r w1].
  simpl in Hsel, Hw. subst r w1.
  destruct url_list as [|url0 rest]; [reflexivity|].
  run_monad. fold (file_name_of destination url0).
  destruct (after_probe_fs priorities w) as (-> & _).
  now destruct (bool_decide _).
Qed.

(** C7, as the code has it.  When no URL of the entry's set starts with a
    lower-cased token of the effective priority list, the entry gets code 1,
    the disk is left as it was and no transport call is made. *)
Theorem download_mfile_no_valid_endpoint (net : network)
    (destination priorities : string) (block_size : Z) (m : mfile)
    (failed_files : list Z) (w : world) :
  (forall u ep, u ∈ PyStr.split "," (urls m) ->
                ep ∈ effective_priorities net priorities ->
                PyStr.startswith u (PyStr.lower ep) = false) ->
  exists w',
    download_mfile net destination priorities block_size m failed_files w
      = (Ok (failed_files ++ [1])%list, w')
    /\ fs w' = fs w
    /\ transport_calls w' = transport_calls w.
Proof.
  intros Hnone. exists (after_probe priorities w).
  destruct (after_probe_fs priorities w) as (Hfs & _ & _ & Hcalls).
  split; [|now split].
  apply (download_mfile_selected net destination priorities block_size m
           failed_files w []).
  rewrite get_prioritized_endpoint_unfold.
  assert (selected (PyStr.split "," (urls m)) (effective_priorities net priorities)
          = []) as Hsel.
  { destruct (selected _ _) as [|u sel] eqn:Hsel; [reflexivity|].
    assert (u ∈ selected (PyStr.split "," (urls m))
                         (effective_priorities net priorities)) as Hin
      by (rewrite Hsel; left).
    apply in_selected in Hin as (ep & Hep & Hu & Hs).
    rewrite (Hnone u ep Hu Hep) in Hs. discriminate. }
  rewrite (select_all_ok _ _ [] []); [reflexivity|]. now rewrite Hsel.
Qed.

Lemma download_mfile_no_valid_endpoint_witness :
  exists w',
    download_mfile sample_net "dest" "ftp,s3" 8
      (Mfile "F1" "http://a/x.bin" sample_md5) [] empty_world = (Ok [1], w')
    /\ fs w' = fs empty_world
    /\ transport_calls w' = transport_calls empty_world.
Proof.
  apply (download_mfile_no_valid_endpoint sample_net "dest" "ftp,s3" 8
           (Mfile "F1" "http://a/x.bin" sample_md5) [] empty_world).
  intros u ep Hu Hep.
  change (u ∈ ["http://a/x.bin"]) in Hu. change (ep ∈ ["ftp"; "s3"]) in Hep.
  apply list_elem_of_singleton in Hu as ->.
  apply elem_of_cons in Hep as [->|Hep]; [reflexivity|].
  apply list_elem_of_singleton in Hep as ->. reflexivity.
Defined.

(** C7 as stated fails: the URL set [https://a/x.bin] holds no scheme of
    the priority list [http], yet the entry gets code 2, not 1. *)
Lemma download_mfile_no_valid_endpoint_counterexample :
  (forall u, u ∈ PyStr.split "," "https://a/x.bin" ->
             ~ scheme_in u (effective_priorities sample_net "http"))
  /\ fst (download_mfile sample_net "dest" "http" 8
            (Mfile "F1" "https://a/x.bin" sample_md5) [] empty_world) = Ok [2].
Proof.
  split; [|reflexivity].
  intros u Hu (ep & Hep & Heq).
  change (u ∈ ["https://a/x.bin"]) in Hu. change (ep ∈ ["http"]) in Hep.
  apply list_elem_of_singleton in Hu as ->.
  apply list_elem_of_singleton in Hep as ->. discriminate.
Qed.

(** C6.  When the selector yields candidates and the entry's final file is
    already on disk, the entry gets code 0, the disk and the connection
    caches are left as they were and no transport call is made. *)
Theorem download_mfile_already_present (net : network)
    (destination priorities : string) (block_size : Z) (m : mfile)
    (failed_files : list Z) (w : world) (url0 : string) (rest : list string) :
  fst (get_prioritized_endpoint net (urls m) priorities w) = Ok (url0 :: rest) ->
  is_Some (fs w !! file_name_of destination url0) ->
  exists w',
    download_mfile net destination priorities block_size m failed_files w
      = (Ok (failed_files ++ [0])%list, w')
    /\ fs w' = fs w
    /\ ftp_conns w' = ftp_conns w
    /\ s3_conn w' = s3_conn w
    /\ transport_calls w' = transport_calls w.
Proof.
  intros Hsel Hfile. exists (after_probe priorities w).
  split; [|apply after_probe_fs].
  rewrite (download_mfile_selected _ _ _ _ _ _ _ _ Hsel).
  now rewrite bool_decide_eq_true_2.
Qed.

Lemma download_mfile_already_present_witness :
  exists w',
    download_mfile sample_net "dest" "http" 8
      (Mfile "F1" "http://a/x.bin" sample_md5) [3] present_world
      = (Ok ([3] ++ [0])%list, w')
    /\ fs w' = fs present_world
    /\ ftp_conns w' = ftp_conns present_world
    /\ s3_conn w' = s3_conn present_world
    /\ transport_calls w' = transport_calls present_world.
Proof.
  apply (download_mfile_already_present sample_net "dest" "http" 8
           (Mfile "F1" "http://a/x.bin" sample_md5) [3] present_world
           "http://a/x.bin" []).
  - reflexivity.
  - change (file_name_of "dest" "http://a/x.bin") with "dest/x.bin".
    cbn [fs present_world]. rewrite lookup_singleton_eq. now eexists.
Defined.

(** ** [checksum_matches] *)

Lemma chunk_size_pos : (0 < chunk_size)%nat.
Proof. apply Nat.lt_0_succ. Qed.

(** The chunk loop feeds the whole file to the hash, whatever its length. *)
Lemma hash_chunks_all (fuel : nat) (data acc : list byte) :
  (length data < fuel)%nat ->
  hash_chunks fuel data (Md5 acc) = Ok (Md5 (acc ++ data)%list).
Proof.
  revert data acc. induction fuel as [|fuel IH]; intros data acc Hlen; [lia|].
  cbn [hash_chunks]. pose proof chunk_size_pos as Hpos.
  destruct (firstn chunk_size data) as [|b chunk] eqn:Hchunk.
  - destruct data as [|b data]; [now rewrite app_nil_r|].
    destruct chunk_size; [lia | discriminate].
  - unfold md5_update. cbn [fed]. rewrite IH.
    + rewrite <- Hchunk, <- app_assoc. now rewrite firstn_skipn.
    + rewrite length_skipn. destruct data; [discriminate|]. simpl in *. lia.
Qed.

Lemma checksum_matches_run (path expected : string) (data : list byte) (w : world) :
  fs w !! path = Some data ->
  checksum_matches path expected w
  = (Ok (String.eqb (MD5.hexdigest data) expected), w).
Proof.
  intros Hdata. unfold checksum_matches. run_monad. rewrite Hdata.
  rewrite hash_chunks_all by lia. reflexivity.
Qed.

(** C8, as the code has it.  [checksum_matches] reads the file in chunks
    of 4096 bytes until none is left, feeds every chunk to one MD5 object,
    so that the whole file is hashed, and answers true exactly when the
    lower-case hexadecimal digest is the expected digest character for
    character. *)
Theorem checksum_matches_exact (path expected : string) (data : list byte)
    (w : world) :
  fs w !! path = Some data ->
  hash_chunks (S (length data)) data (Md5 []) = Ok (Md5 data)
  /\ exists valid,
       checksum_matches path expected w = (Ok valid, w)
       /\ (valid = true <-> MD5.hexdigest data = expected).
Proof.
  intros Hdata. split.
  - now rewrite hash_chunks_all by lia.
  - exists (String.eqb (MD5.hexdigest data) expected).
    split; [now apply checksum_matches_run | apply String.eqb_eq].
Qed.

Lemma checksum_matches_exact_witness :
  hash_chunks (S (length sample_content)) sample_content (Md5 [])
    = Ok (Md5 sample_content)
  /\ exists valid,
       checksum_matches "dest/x.bin" sample_md5 present_world
         = (Ok valid, present_world)
       /\ (valid = true <-> MD5.hexdigest sample_content = sample_md5).
Proof.
  apply (checksum_matches_exact "dest/x.bin" sample_md5 sample_content
           present_world).
  cbn [fs present_world]. apply lookup_singleton_eq.
Defined.

(** C8 as stated fails for the comparison without regard to case: the
    upper-case spelling of the digest of the empty file is not accepted. *)
Lemma checksum_matches_case_counterexample :
  PyStr.lower "D41D8CD98F00B204E9800998ECF8427E" = MD5.hexdigest []
  /\ fst (checksum_matches "dest/empty" "D41D8CD98F00B204E9800998ECF8427E"
            (World {["dest/empty" := []]} ∅ false [])) = Ok false.
Proof.
  split; [vm_compute; reflexivity|].
  rewrite (checksum_matches_run _ _ []) by apply lookup_singleton_eq.
  vm_compute. reflexivity.
Qed.

(** ** What a run may touch on disk *)

Section Keeps.

Context (R : world -> world -> Prop) `{!PreOrder R}.

Lemma keeps_ret {A} (a : A) : keeps R (ret a).
Proof. intros w. reflexivity. Qed.

Lemma keeps_raise {A} (e : exn) : keeps R (@raise A e).
Proof. intros w. reflexivity. Qed.

Lemma keeps_bind {A B} (m : M A) (k : A -> M B) :
  keeps R m -> (forall a, keeps R (k a)) -> keeps R (bind m k).
Proof.
  intros Hm Hk w. unfold bind. specialize (Hm w).
  destruct (m w) as [[a|e|] w1]; cbn [snd] in *; [|assumption..].
  etransitivity; [exact Hm | apply Hk].
Qed.

Lemma keeps_for_each {A S} (l : list A) (body : A -> S -> M S) (s : S) :
  (forall x s, keeps R (body x s)) -> keeps R (for_each l body s).
Proof.
  intros Hbody. revert s. induction l as [|x l IH]; intros s; cbn [for_each].
  - apply keeps_ret.
  - apply keeps_bind; [apply Hbody | intros s'; apply IH].
Qed.

End Keeps.

Global Instance same_disk_preorder : PreOrder same_disk.
Proof.
  split; [intros w; reflexivity|].
  intros w1 w2 w3 H12 H23. unfold same_disk in *. congruence.
Qed.

Global Instance only_writes_preorder (path : string) : PreOrder (only_writes path).
Proof.
  split; [intros w; split; auto|].
  intros w1 w2 w3 [H12 F12] [H23 F23]. split; [auto|].
  intros p Hp. rewrite F23, F12; auto.
Qed.

Lemma same_disk_only_writes {A} (path : string) (m : M A) :
  keeps same_disk m -> keeps (only_writes path) m.
Proof.
  intros Hm w. specialize (Hm w). unfold same_disk in Hm.
  split; [|intros p _]; now rewrite Hm.
Qed.

Lemma keeps_log (e : event) : keeps same_disk (log e).
Proof. intros w. reflexivity. Qed.

Lemma keeps_get_fs : keeps same_disk get_fs.
Proof. intros w. reflexivity. Qed.

Lemma keeps_index {A} (l : list A) (i : nat) : keeps same_disk (index l i).
Proof. intros w. unfold index. now destruct (l !! i). Qed.

Lemma keeps_get_s3_connection : keeps same_disk get_s3_connection.
Proof. intros w. reflexivity. Qed.

Lemma keeps_get_ftp_connection (net : network) (host : string) :
  keeps same_disk (get_ftp_connection net host).
Proof.
  intros w. unfold get_ftp_connection.
  destruct (bool_decide _), (ftp_files net host); reflexivity.
Qed.

Lemma keeps_file_write (path : string) (buffer : list byte) :
  keeps (only_writes path) (file_write path buffer).
Proof.
  intros w. unfold file_write, only_writes. run_monad. cbn [snd fs]. split.
  - intros _. rewrite lookup_insert_eq. now eexists.
  - intros p Hp. now rewrite lookup_insert_ne.
Qed.

Lemma keeps_open_append (path : string) :
  keeps (only_writes path) (open_append path).
Proof.
  intros w. unfold open_append, only_writes. run_monad.
  destruct (fs w !! path) eqn:Hp; cbn [snd fs]; [now rewrite Hp|]. split.
  - intros _. rewrite lookup_insert_eq. now eexists.
  - intros p Hne. now rewrite lookup_insert_ne.
Qed.

(** Steps through a monadic term, splitting on its tests. *)
Ltac keeps_step :=
  match goal with
  | |- keeps _ (bind _ _) => apply keeps_bind; [typeclasses eauto| |intros ?]
  | |- keeps _ (ret _) => apply keeps_ret; typeclasses eauto
  | |- keeps _ (raise _) => apply keeps_raise; typeclasses eauto
  | |- keeps same_disk (log _) => apply keeps_log
  | |- keeps same_disk (index _ _) => apply keeps_index
  | |- keeps same_disk get_s3_connection => apply keeps_get_s3_connection
  | |- keeps same_disk (get_ftp_connection _ _) => apply keeps_get_ftp_connection
  | |- keeps _ (let '(_, _) := ?p in _) => destruct p
  | |- keeps _ (if ?b then _ else _) => destruct b
  | |- keeps _ (match ?x with _ => _ end) => destruct x
  end.

Lemma keeps_parse_ftp_url (url : string) : keeps same_disk (parse_ftp_url url).
Proof. unfold parse_ftp_url. repeat keeps_step. Qed.

Lemma keeps_s3_get_key (net : network) (url : string) :
  keeps same_disk (s3_get_key net url).
Proof. unfold s3_get_key, s3_bucket_key. repeat keeps_step. Qed.

Lemma keeps_get_url_obj (net : network) (url endpoint : string) (h : Z) :
  keeps same_disk (get_url_obj net url endpoint h).
Proof.
  unfold get_url_obj.
  repeat first [ apply keeps_parse_ftp_url | apply keeps_s3_get_key | keeps_step ].
Qed.

Lemma keeps_get_file_size (net : network) (url endpoint : string) :
  keeps same_disk (get_file_size net url endpoint).
Proof.
  unfold get_file_size.
  repeat first [ apply keeps_parse_ftp_url | apply keeps_s3_get_key | keeps_step ].
Qed.

Lemma keeps_try_candidate (net : network) (h : Z) (url : string) (st : candidates) :
  keeps same_disk (try_candidate net h url st).
Proof.
  unfold try_candidate, get_fasp_obj.
  repeat first [ apply keeps_get_url_obj | keeps_step ].
Qed.

Global Instance touches_preorder (file_name tmp : string) :
  PreOrder (touches file_name tmp).
Proof.
  split; [intros w p _ _; reflexivity|].
  intros w1 w2 w3 H12 H23 p Hf Ht. rewrite H23, H12; auto.
Qed.

Lemma only_writes_touches {A} (file_name tmp : string) (m : M A) :
  keeps (only_writes tmp) m -> keeps (touches file_name tmp) m.
Proof. intros Hm w p _ Hp. now apply (Hm w). Qed.

Lemma keeps_get_buffer (net : network) (res : netobj) (endpoint : string)
    (block_size start_pos max_range : Z) (file : string) :
  keeps (only_writes file)
        (get_buffer net res endpoint block_size start_pos max_range file).
Proof.
  unfold get_buffer.
  repeat first
    [ apply keeps_file_write
    | apply same_disk_only_writes; apply keeps_log
    | keeps_step ].
Qed.

Lemma keeps_transfer_loop (net : network) (fuel : nat) (tmp endpoint : string)
    (block_size file_size : Z) (res : netobj) (current_byte : Z) :
  keeps (only_writes tmp)
        (transfer_loop net fuel tmp endpoint block_size file_size res current_byte).
Proof.
  revert res current_byte.
  induction fuel as [|fuel IH]; intros res current_byte; cbn [transfer_loop].
  - intros w. reflexivity.
  - repeat first
      [ apply keeps_get_buffer | apply keeps_file_write | apply IH | keeps_step ].
Qed.

Lemma keeps_transfer (net : network) (tmp url endpoint : string) (res : netobj)
    (block_size current_byte : Z) :
  keeps (only_writes tmp)
        (transfer net tmp url endpoint res block_size current_byte).
Proof.
  unfold transfer.
  repeat first
    [ apply keeps_open_append | apply keeps_transfer_loop
    | apply same_disk_only_writes; apply keeps_get_file_size
    | keeps_step ].
Qed.

(** After [transfer], however it ends, the partial file is on disk. *)
Lemma transfer_creates (net : network) (tmp url endpoint : string) (res : netobj)
    (block_size current_byte : Z) (w : world) :
  is_Some (fs (snd (transfer net tmp url endpoint res block_size current_byte w))
           !! tmp).
Proof.
  unfold transfer. unfold bind at 1.
  pose proof (keeps_open_append tmp w) as [_ Hframe].
  assert (is_Some (fs (snd (open_append tmp w)) !! tmp)) as Hopen.
  { unfold open_append. run_monad.
    destruct (fs w !! tmp) eqn:Ht; cbn [snd fs].
    - rewrite Ht. now eexists.
    - rewrite lookup_insert_eq. now eexists. }
  assert (fst (open_append tmp w) = Ok tt) as Hok.
  { unfold open_append. run_monad. now destruct (fs w !! tmp). }
  destruct (open_append tmp w) as [r w1]. cbn [fst snd] in *. subst r.
  match goal with
  | |- is_Some (fs (snd (?m w1)) !! tmp) =>
      assert (keeps (only_writes tmp) m) as Hrest
  end.
  { repeat first
      [ apply keeps_transfer_loop
      | apply same_disk_only_writes; apply keeps_get_file_size
      | keeps_step ]. }
  now apply (Hrest w1).
Qed.

(** ** The phases of an entry's download *)

Lemma checksum_matches_missing (path expected : string) (w : world) :
  fs w !! path = None ->
  checksum_matches path expected w = (Raise FileNotFoundError, w).
Proof. intros Hp. unfold checksum_matches. run_monad. now rewrite Hp. Qed.

Lemma get_current_byte_run (tmp : string) (w : world) :
  get_current_byte tmp w = (Ok (resume_offset w tmp), w).
Proof.
  unfold get_current_byte, resume_offset. run_monad.
  destruct (fs w !! tmp) eqn:Ht.
  - rewrite bool_decide_eq_true_2 by now eexists. now rewrite Ht.
  - rewrite bool_decide_eq_false_2; [reflexivity|]. now intros [? ?].
Qed.

Lemma verify_and_finalize_run (file_name tmp : string) (m : mfile)
    (failed_files : list Z) (w : world) :
  verify_and_finalize file_name tmp m failed_files w
  = match fs w !! tmp with
    | Some data =>
        if String.eqb (MD5.hexdigest data) (md5 m)
        then (Ok (failed_files ++ [0])%list, renamed file_name tmp data w)
        else (Ok (failed_files ++ [3])%list, w)
    | None => (Raise FileNotFoundError, w)
    end.
Proof.
  unfold verify_and_finalize. unfold bind at 1.
  destruct (fs w !! tmp) as [data|] eqn:Hdata.
  - rewrite (checksum_matches_run _ _ _ _ Hdata).
    destruct (String.eqb _ _); [|reflexivity].
    unfold move. run_monad. now rewrite Hdata.
  - now rewrite (checksum_matches_missing _ _ _ Hdata).
Qed.

(** [fetch_and_verify] phase by phase: the candidates loop, the transfer,
    the checksum and the rename. *)
Lemma fetch_and_verify_run (net : network) (file_name : string)
    (url_list : list string) (block_size : Z) (m : mfile)
    (failed_files : list Z) (w : world) :
  let tmp := file_name +:+ ".partial" in
  let K := resume_offset w tmp in
  fetch_and_verify net file_name url_list block_size m failed_files w
  = match for_each url_list (try_candidate net K) no_candidate w with
    | (Ok st, w2) =>
        if is_error (c_res st) then (Ok (failed_files ++ [2])%list, w2)
        else
          match transfer net tmp (c_url st) (c_endpoint st) (c_res st)
                         block_size K w2 with
          | (Ok _, w3) =>
              match fs w3 !! tmp with
              | Some data =>
                  if String.eqb (MD5.hexdigest data) (md5 m)
                  then (Ok (failed_files ++ [0])%list,
                        renamed file_name tmp data w3)
                  else (Ok (failed_files ++ [3])%list, w3)
              | None => (Raise FileNotFoundError, w3)
              end
          | (Raise e, w3) => (Raise e, w3)
          | (OutOfFuel, w3) => (OutOfFuel, w3)
          end
    | (Raise e, w2) => (Raise e, w2)
    | (OutOfFuel, w2) => (OutOfFuel, w2)
    end.
Proof.
  intros tmp K. unfold fetch_and_verify. fold tmp.
  unfold bind at 1. rewrite get_current_byte_run. fold K.
  unfold bind at 1. fold no_candidate.
  destruct (for_each url_list _ _ w) as [[st|e|] w2]; [|reflexivity..].
  destruct (is_error (c_res st)); [reflexivity|].
  unfold bind at 1.
  destruct (transfer _ _ _ _ _ _ _ w2) as [[cb|e|] w3]; [|reflexivity..].
  apply verify_and_finalize_run.
Qed.

Lemma length_append (s t : string) :
  String.length (s +:+ t) = (String.length s + String.length t)%nat.
Proof. induction s as [|c s IH]; simpl; [reflexivity | now rewrite IH]. Qed.

(** The partial file is never the final file. *)
Lemma partial_name_ne (file_name : string) : file_name +:+ ".partial" <> file_name.
Proof.
  intros Heq. apply (f_equal String.length) in Heq.
  rewrite length_append in Heq. simpl in Heq. lia.
Qed.

Lemma keeps_candidates (net : network) (h : Z) (url_list : list string)
    (st : candidates) :
  keeps same_disk (for_each url_list (try_candidate net h) st).
Proof.
  apply keeps_for_each; [typeclasses eauto|]. intros. apply keeps_try_candidate.
Qed.

Lemma resume_offset_after_probe (priorities : string) (w : world) (tmp : string) :
  resume_offset (after_probe priorities w) tmp = resume_offset w tmp.
Proof.
  unfold resume_offset. now destruct (after_probe_fs priorities w) as (-> & _).
Qed.

(** ** Checksum verification and the rename *)

(** C4.  When an entry's transfer has completed, the digest of the partial
    file decides: if it is the expected digest, the partial file is renamed
    to the final path and the entry gets code 0; otherwise the entry gets
    code 3, the final path stays absent and the partial file stays on
    disk. *)
Theorem download_mfile_verifies (net : network) (destination priorities : string)
    (block_size : Z) (m : mfile) (failed_files : list Z) (w : world)
    (url0 : string) (rest : list string) (st : candidates) (w2 : world)
    (current_byte : Z) (w3 : world) :
  let file_name := file_name_of destination url0 in
  let tmp := partial_name_of destination url0 in
  let K := resume_offset w tmp in
  fst (get_prioritized_endpoint net (urls m) priorities w) = Ok (url0 :: rest) ->
  fs w !! file_name = None ->
  for_each (url0 :: rest) (try_candidate net K) no_candidate
           (after_probe priorities w) = (Ok st, w2) ->
  is_error (c_res st) = false ->
  transfer net tmp (c_url st) (c_endpoint st) (c_res st) block_size K w2
    = (Ok current_byte, w3) ->
  exists data,
    fs w3 !! tmp = Some data
    /\ fs w3 !! file_name = None
    /\ (MD5.hexdigest data = md5 m ->
        download_mfile net destination priorities block_size m failed_files w
          = (Ok (failed_files ++ [0])%list, renamed file_name tmp data w3)
        /\ fs (renamed file_name tmp data w3) !! file_name = Some data
        /\ fs (renamed file_name tmp data w3) !! tmp = None)
    /\ (MD5.hexdigest data <> md5 m ->
        download_mfile net destination priorities block_size m failed_files w
          = (Ok (failed_files ++ [3])%list, w3)).
Proof.
  intros file_name tmp K Hsel Habsent Hopen Herr Htransfer.
  pose proof (partial_name_ne file_name) as Hne. fold tmp in Hne.
  pose proof (transfer_creates net tmp (c_url st) (c_endpoint st) (c_res st)
                block_size K w2) as [data Hdata].
  pose proof (keeps_transfer net tmp (c_url st) (c_endpoint st) (c_res st)
                block_size K w2) as [_ Hframe].
  pose proof (keeps_candidates net K (url0 :: rest) no_candidate
                (after_probe priorities w)) as Hdisk.
  rewrite Htransfer in Hdata, Hframe. rewrite Hopen in Hdisk.
  cbn [snd] in Hdata, Hframe, Hdisk. unfold same_disk in Hdisk.
  destruct (after_probe_fs priorities w) as (Hfs & _).
  assert (fs w3 !! file_name = None) as Hfinal.
  { rewrite Hframe by (intros Heq; now apply Hne). now rewrite Hdisk, Hfs. }
  assert (download_mfile net destination priorities block_size m failed_files w
          = if String.eqb (MD5.hexdigest data) (md5 m)
            then (Ok (failed_files ++ [0])%list, renamed file_name tmp data w3)
            else (Ok (failed_files ++ [3])%list, w3)) as Hrun.
  { rewrite (download_mfile_selected _ _ _ _ _ _ _ _ Hsel).
    fold file_name. rewrite bool_decide_eq_false_2
      by (rewrite Habsent; now intros [? ?]).
    rewrite fetch_and_verify_run.
    change (file_name +:+ ".partial") with tmp.
    rewrite resume_offset_after_probe. fold K.
    now rewrite Hopen, Herr, Htransfer, Hdata. }
  exists data. split; [assumption|]. split; [assumption|]. split.
  - intros Hmatch. apply String.eqb_eq in Hmatch. rewrite Hmatch in Hrun.
    split; [assumption|]. unfold renamed. cbn [fs]. split.
    + apply lookup_insert_eq.
    + rewrite lookup_insert_ne by (intros Heq; now apply Hne).
      apply lookup_delete_eq.
  - intros Hmismatch. apply String.eqb_neq in Hmismatch. now rewrite Hmismatch in Hrun.
Qed.

Lemma download_mfile_verifies_witness :
  exists data,
    fs sample_transferred_world !! partial_name_of "dest" "http://a/x.bin"
      = Some data
    /\ fs sample_transferred_world !! file_name_of "dest" "http://a/x.bin" = None
    /\ (MD5.hexdigest data = md5 sample_entry ->
        download_mfile sample_net "dest" "http" 8 sample_entry [] empty_world
          = (Ok ([] ++ [0])%list,
             renamed (file_name_of "dest" "http://a/x.bin")
                     (partial_name_of "dest" "http://a/x.bin") data
                     sample_transferred_world)
        /\ fs (renamed (file_name_of "dest" "http://a/x.bin")
                       (partial_name_of "dest" "http://a/x.bin") data
                       sample_transferred_world)
              !! file_name_of "dest" "http://a/x.bin" = Some data
        /\ fs (renamed (file_name_of "dest" "http://a/x.bin")
                       (partial_name_of "dest" "http://a/x.bin") data
                       sample_transferred_world)
              !! partial_name_of "dest" "http://a/x.bin" = None)
    /\ (MD5.hexdigest data <> md5 sample_entry ->
        download_mfile sample_net "dest" "http" 8 sample_entry [] empty_world
          = (Ok ([] ++ [3])%list, sample_transferred_world)).
Proof.
  apply (download_mfile_verifies sample_net "dest" "http" 8 sample_entry []
           empty_world "http://a/x.bin" [] sample_opened sample_opened_world
           16 sample_transferred_world);
    vm_compute; reflexivity.
Defined.

(** ** Where an entry's files are written *)

(** C9, as the code has it.  For an entry with candidates whose final file
    is absent, no path other than [destination/<last element of the first
    candidate>] and that path with [.partial] appended is touched; when the
    entry gets code 0 the file is at the former and the latter is gone; in
    every other case the final path stays absent. *)
Theorem download_mfile_artifacts (net : network) (destination priorities : string)
    (block_size : Z) (m : mfile) (failed_files : list Z) (w : world)
    (url0 : string) (rest : list string) (r : outcome (list Z)) (w' : world) :
  let file_name := file_name_of destination url0 in
  let tmp := file_name +:+ ".partial" in
  fst (get_prioritized_endpoint net (urls m) priorities w) = Ok (url0 :: rest) ->
  fs w !! file_name = None ->
  download_mfile net destination priorities block_size m failed_files w = (r, w') ->
  touches file_name tmp w w'
  /\ (r = Ok (failed_files ++ [0])%list ->
      is_Some (fs w' !! file_name) /\ fs w' !! tmp = None)
  /\ (r <> Ok (failed_files ++ [0])%list -> fs w' !! file_name = None).
Proof.
  intros file_name tmp Hsel Habsent Hrun.
  pose proof (partial_name_ne file_name) as Hne. fold tmp in Hne.
  rewrite (download_mfile_selected _ _ _ _ _ _ _ _ Hsel) in Hrun.
  fold file_name in Hrun.
  rewrite bool_decide_eq_false_2 in Hrun by (rewrite Habsent; now intros [? ?]).
  rewrite fetch_and_verify_run in Hrun. fold tmp in Hrun.
  set (K := resume_offset (after_probe priorities w) tmp) in Hrun.
  destruct (after_probe_fs priorities w) as (Hfs & _).
  pose proof (keeps_candidates net K (url0 :: rest) no_candidate
                (after_probe priorities w)) as Hdisk.
  unfold same_disk in Hdisk. rewrite Hfs in Hdisk.
  assert (forall w2, fs w2 = fs w -> touches file_name tmp w w2
                     /\ fs w2 !! file_name = None) as Hsame.
  { intros w2 Hw2. split; [intros p _ _|]; now rewrite Hw2. }
  assert (forall (c : Z) (P : Prop),
            Ok (failed_files ++ [c])%list = Ok (failed_files ++ [0])%list ->
            c <> 0 -> P) as Hcode.
  { intros c P Heq Hc. injection Heq as Heq. apply app_inv_head in Heq.
    injection Heq as Heq. contradiction. }
  destruct (for_each (url0 :: rest) _ _ _) as [[st|e|] w2]; cbn [snd] in Hdisk;
    [|injection Hrun as <- <-; destruct (Hsame _ Hdisk); repeat split; easy..].
  destruct (is_error (c_res st)).
  { injection Hrun as <- <-. destruct (Hsame _ Hdisk) as [Ht Hf].
    split; [exact Ht|]. split; [|intros _; exact Hf].
    intros Heq. now apply (Hcode 2 _ Heq). }
  pose proof (keeps_transfer net tmp (c_url st) (c_endpoint st) (c_res st)
                block_size K w2) as [_ Hframe].
  destruct (transfer _ _ _ _ _ _ _ w2) as [rt w3]. cbn [snd] in Hframe.
  assert (touches file_name tmp w w3 /\ fs w3 !! file_name = None) as [Ht3 Hf3].
  { split.
    - intros p _ Hp. now rewrite Hframe, Hdisk.
    - rewrite Hframe by (intros Heq; now apply Hne). now rewrite Hdisk. }
  destruct rt as [cb|e|]; [|injection Hrun as <- <-; repeat split; easy..].
  destruct (fs w3 !! tmp) as [data|] eqn:Hdata;
    [|injection Hrun as <- <-; repeat split; easy].
  destruct (String.eqb (MD5.hexdigest data) (md5 m)); injection Hrun as <- <-.
  - unfold renamed, touches. cbn [fs]. split; [|split].
    + intros p Hp Hpt. rewrite lookup_insert_ne by congruence.
      rewrite lookup_delete_ne by congruence. now apply Ht3.
    + intros _. rewrite lookup_insert_eq. split; [now eexists|].
      rewrite lookup_insert_ne by (intros Heq; now apply Hne).
      apply lookup_delete_eq.
    + intros Hcontra. now contradiction Hcontra.
  - split; [exact Ht3|]. split; [|intros _; exact Hf3].
    intros Heq. now apply (Hcode 3 _ Heq).
Qed.

Lemma download_mfile_artifacts_witness :
  touches (file_name_of "dest" "http://a/x.bin")
          (file_name_of "dest" "http://a/x.bin" +:+ ".partial") empty_world
          (renamed "dest/x.bin" "dest/x.bin.partial" sample_content
                   sample_transferred_world)
  /\ (Ok [0] = Ok ([] ++ [0])%list ->
      is_Some (fs (renamed "dest/x.bin" "dest/x.bin.partial" sample_content
                           sample_transferred_world)
               !! file_name_of "dest" "http://a/x.bin")
      /\ fs (renamed "dest/x.bin" "dest/x.bin.partial" sample_content
                     sample_transferred_world)
            !! (file_name_of "dest" "http://a/x.bin" +:+ ".partial") = None)
  /\ (Ok [0] <> Ok ([] ++ [0])%list ->
      fs (renamed "dest/x.bin" "dest/x.bin.partial" sample_content
                  sample_transferred_world)
         !! file_name_of "dest" "http://a/x.bin" = None).
Proof.
  apply (download_mfile_artifacts sample_net "dest" "http" 8 sample_entry []
           empty_world "http://a/x.bin" [] (Ok [0])
           (renamed "dest/x.bin" "dest/x.bin.partial" sample_content
                    sample_transferred_world));
    vm_compute; reflexivity.
Defined.

(** C9 as stated fails: the first candidate [https://c/z.bin] cannot be
    opened, the transfer uses [ftp://b/y.dat], and the completed file is
    written at [dest/z.bin], not at [dest/y.dat]. *)
Lemma download_mfile_artifacts_counterexample :
  let m := Mfile "F2" "https://c/z.bin,ftp://b/y.dat" sample_md5 in
  let run := download_mfile sample_net "dest" "http,ftp" 8 m [] empty_world in
  fst (get_url_obj sample_net "https://c/z.bin" (endpoint_of "https://c/z.bin") 0
                   empty_world) = Ok ErrorObj
  /\ fst run = Ok [0]
  /\ calls (snd run) = [FtpConnect "b"; FtpMlsd "b" "/y.dat"; FtpSize "b" "/y.dat";
                        FtpRetr "b" "/y.dat" 8 0]
  /\ fs (snd run) !! file_name_of "dest" "ftp://b/y.dat" = None
  /\ fs (snd run) !! "dest/z.bin" = Some sample_content.
Proof. vm_compute. repeat split; reflexivity. Qed.

(** ** Opening the candidates *)

Lemma pure_ret {A} (a : A) : pure_m (ret a).
Proof. intros w w0. reflexivity. Qed.

Lemma pure_raise {A} (e : exn) : pure_m (@raise A e).
Proof. intros w w0. reflexivity. Qed.

Lemma pure_index {A} (l : list A) (i : nat) : pure_m (index l i).
Proof. intros w w0. unfold index. now destruct (l !! i). Qed.

Lemma pure_bind {A B} (m : M A) (k : A -> M B) :
  pure_m m -> (forall a, pure_m (k a)) -> pure_m (bind m k).
Proof.
  intros Hm Hk w w0. unfold bind. rewrite (Hm w w0).
  destruct (m w0) as [[a|e|] w1]; cbn [fst]; [apply Hk | reflexivity..].
Qed.

Lemma pure_parse_ftp_url (url : string) : pure_m (parse_ftp_url url).
Proof.
  unfold parse_ftp_url.
  repeat first
    [ apply pure_bind; [|intros ?] | apply pure_index | apply pure_ret
    | apply pure_raise
    | match goal with |- pure_m (if ?b then _ else _) => destruct b end ].
Qed.

Lemma pure_s3_bucket_key (url : string) : pure_m (s3_bucket_key url).
Proof.
  unfold s3_bucket_key.
  repeat first
    [ apply pure_bind; [|intros ?] | apply pure_index | apply pure_ret ].
Qed.

Lemma pure_run {A} (m : M A) (w : world) (r : outcome A) (w' : world) :
  pure_m m -> m w = (r, w') -> w' = w /\ forall w0, m w0 = (r, w0).
Proof.
  intros Hm Hrun. rewrite (Hm w w) in Hrun.
  assert (w' = w) as -> by congruence. split; [reflexivity|].
  intros w0. rewrite (Hm w0 w). congruence.
Qed.

Lemma get_url_obj_opens (net : network) (url endpoint : string) (K : Z)
    (w : world) (res : netobj) (w' : world) :
  get_url_obj net url endpoint K w = (Ok res, w') ->
  opens_as net K url endpoint res.
Proof.
  unfold get_url_obj.
  destruct (String.eqb endpoint "HTTP") eqn:Ehttp.
  - apply String.eqb_eq in Ehttp as ->. cbn [String.eqb Ascii.eqb Bool.eqb].
    run_monad. destruct (http_body net url) as [body|] eqn:Hbody; intros Hrun;
      injection Hrun as <- <-; cbn; eauto 6.
  - destruct (String.eqb endpoint "FTP") eqn:Eftp.
    + apply String.eqb_eq in Eftp as ->. unfold bind at 1.
      destruct (parse_ftp_url url w) as [[[[dest host] path]|e|] w1] eqn:Hparse;
        [|discriminate..].
      apply (pure_run _ _ _ _ (pure_parse_ftp_url url)) in Hparse as [-> Hparse].
      unfold bind at 1. unfold get_ftp_connection.
      destruct (ftp_files net host) as [files|] eqn:Hfiles;
        [|destruct (bool_decide _); discriminate].
      destruct (bool_decide _); run_monad;
        (destruct (files path) as [content|] eqn:Hpath; intros Hrun;
         injection Hrun as <- <-; cbn; [|exact I]);
        (split; [reflexivity|]; split; [now exists dest|]; exists files, content; now split).
    + destruct (String.eqb endpoint "S3") eqn:Es3;
        [|intros Hrun; injection Hrun as <- <-; exact I].
      apply String.eqb_eq in Es3 as ->. unfold bind at 1, s3_get_key.
      unfold bind at 1.
      destruct (s3_bucket_key url w) as [[[bucket key]|e|] w1] eqn:Hparse;
        [|discriminate..].
      apply (pure_run _ _ _ _ (pure_s3_bucket_key url)) in Hparse as [-> Hparse].
      unfold get_s3_connection. run_monad.
      destruct (s3_objects net bucket) as [keys|] eqn:Hkeys; [|discriminate].
      destruct (keys key) as [content|] eqn:Hkey; intros Hrun;
        injection Hrun as <- <-; cbn; [|exact I].
      split; [reflexivity|]. split; [assumption|]. exists keys. now split.
Qed.

Lemma try_candidate_opened (net : network) (K : Z) (url : string)
    (st : candidates) (w : world) (st' : candidates) (w' : world) :
  try_candidate net K url st w = (Ok st', w') -> opened net K st'.
Proof.
  unfold try_candidate, opened. unfold bind at 1.
  destruct (String.eqb (endpoint_of url) "FASP"); [discriminate|].
  destruct (get_url_obj net url (endpoint_of url) K w) as [[res|e|] w1] eqn:Hopen;
    [|discriminate..].
  intros Hrun. injection Hrun as <- <-. cbn [c_url c_endpoint c_res].
  exact (get_url_obj_opens _ _ _ _ _ _ _ Hopen).
Qed.

(** After the loop over a non-empty candidate list, the loop variables
    describe the last candidate. *)
Lemma candidates_opened (net : network) (K : Z) (url_list : list string)
    (st0 : candidates) (w : world) (st : candidates) (w2 : world) :
  url_list <> [] ->
  for_each url_list (try_candidate net K) st0 w = (Ok st, w2) ->
  opened net K st.
Proof.
  revert st0 w. induction url_list as [|url url_list IH]; intros st0 w Hne; [easy|].
  cbn [for_each]. unfold bind at 1.
  destruct (try_candidate net K url st0 w) as [[st1|e|] w1] eqn:Htry;
    [|discriminate..].
  destruct url_list as [|url' url_list].
  - intros Hrun. injection Hrun as <- <-.
    exact (try_candidate_opened _ _ _ _ _ _ _ Htry).
  - now apply IH.
Qed.

(** An HTTP candidate is opened with the header [Range: bytes=K-]. *)
Lemma try_candidate_range (net : network) (K : Z) (url : string)
    (st : candidates) (w : world) (st' : candidates) (w' : world) :
  try_candidate net K url st w = (Ok st', w') ->
  c_endpoint st' = "HTTP" ->
  calls w' = (calls w ++ [HttpOpen (c_url st') (range_header K None)])%list.
Proof.
  unfold try_candidate. unfold bind at 1.
  destruct (String.eqb (endpoint_of url) "FASP"); [discriminate|].
  destruct (get_url_obj net url (endpoint_of url) K w) as [[res|e|] w1] eqn:Hopen;
    [|discriminate..].
  intros Hrun Hhttp. injection Hrun as <- <-. cbn [c_url c_endpoint] in *.
  unfold get_url_obj in Hopen. rewrite Hhttp in Hopen.
  cbn [String.eqb Ascii.eqb Bool.eqb] in Hopen. run_monad_in Hopen.
  destruct (http_body net url); injection Hopen as <- <-; reflexivity.
Qed.

Lemma candidates_range (net : network) (K : Z) (url_list : list string)
    (st0 : candidates) (w : world) (st : candidates) (w2 : world) :
  url_list <> [] ->
  for_each url_list (try_candidate net K) st0 w = (Ok st, w2) ->
  c_endpoint st = "HTTP" ->
  exists before,
    calls w2 = (before ++ [HttpOpen (c_url st) (range_header K None)])%list.
Proof.
  revert st0 w. induction url_list as [|url url_list IH]; intros st0 w Hne; [easy|].
  cbn [for_each]. unfold bind at 1.
  destruct (try_candidate net K url st0 w) as [[st1|e|] w1] eqn:Htry;
    [|discriminate..].
  destruct url_list as [|url' url_list].
  - intros Hrun Hhttp. injection Hrun as <- <-. exists (calls w).
    exact (try_candidate_range _ _ _ _ _ _ _ Htry Hhttp).
  - now apply IH.
Qed.

(** ** The transfer of an opened candidate *)

Lemma get_file_size_opened (net : network) (K : Z) (st : candidates)
    (content : list byte) (w : world) :
  opened net K st ->
  served net (c_res st) = Some content ->
  exists w',
    get_file_size net (c_url st) (c_endpoint st) w
      = (Ok (Some (Z.of_nat (length content))), w')
    /\ fs w' = fs w.
Proof.
  intros Hopened Hserved.
  pose proof (keeps_get_file_size net (c_url st) (c_endpoint st) w) as Hdisk.
  unfold same_disk in Hdisk.
  enough (fst (get_file_size net (c_url st) (c_endpoint st) w)
          = Ok (Some (Z.of_nat (length content)))) as Hfst.
  { destruct (get_file_size _ _ _ w) as [r w']. cbn [fst snd] in *. subst r.
    now exists w'. }
  unfold opened, opens_as in Hopened. unfold get_file_size.
  destruct (c_res st) as [| |u unread|host path|bucket key content'];
    cbn [served] in Hserved; try discriminate.
  - destruct Hopened as (-> & -> & body & Hbody & _).
    cbn [String.eqb Ascii.eqb Bool.eqb]. run_monad.
    rewrite Hserved. reflexivity.
  - destruct Hopened as (-> & [dest Hparse] & files & content' & Hfiles & Hpath).
    cbn [String.eqb Ascii.eqb Bool.eqb]. unfold bind at 1. rewrite Hparse.
    rewrite Hfiles in Hserved. unfold bind at 1. unfold get_ftp_connection.
    rewrite Hfiles. destruct (bool_decide _); run_monad; now rewrite Hserved.
  - destruct Hopened as (-> & Hparse & keys & Hkeys & Hkey).
    injection Hserved as ->.
    cbn [String.eqb Ascii.eqb Bool.eqb]. unfold bind at 1, s3_get_key.
    unfold bind at 1. rewrite Hparse. unfold get_s3_connection. run_monad.
    rewrite Hkeys, Hkey. reflexivity.
Qed.

Lemma read_amt_positive (amt : Z) (unread : list byte) :
  0 < amt ->
  read_amt amt unread
  = (firstn (Z.to_nat amt) unread, skipn (Z.to_nat amt) unread).
Proof. intros Hamt. unfold read_amt. now rewrite (proj2 (Z.ltb_ge _ _)) by lia. Qed.

Lemma transfer_loop_http (net : network) (tmp : string) (bs fsz : Z) (url : string)
    (fuel : nat) (unread : list byte) (cb : Z) (w : world) (P : list byte) :
  (length unread < fuel)%nat ->
  0 < bs ->
  (unread <> [] -> fsz <> 0) ->
  fs w !! tmp = Some P ->
  exists cb' w',
    transfer_loop net fuel tmp "HTTP" bs fsz (HttpResponse url unread) cb w
      = (Ok cb', w')
    /\ fs w' = <[tmp := (P ++ unread)%list]> (fs w).
Proof.
  revert unread cb w P.
  induction fuel as [|fuel IH]; intros unread cb w P Hfuel Hbs Hsize HP; [lia|].
  cbn [transfer_loop]. unfold bind at 1. unfold get_buffer.
  cbn [String.eqb Ascii.eqb Bool.eqb]. rewrite (read_amt_positive _ _ Hbs).
  unfold bind at 1, log at 1. unfold ret at 1.
  destruct (firstn (Z.to_nat bs) unread) as [|b buffer] eqn:Hbuf.
  - assert (unread = []) as ->.
    { destruct unread; [reflexivity|]. destruct (Z.to_nat bs) eqn:Hn; [lia|discriminate]. }
    eexists _, _. split; [reflexivity|]. cbn [fs]. rewrite app_nil_r.
    now rewrite insert_id.
  - unfold bind at 1. unfold file_write at 1. run_monad.
    cbn [fs ftp_conns s3_conn calls]. rewrite HP. cbn [default].
    assert (unread <> []) as Hne by (intros ->; now rewrite firstn_nil in Hbuf).
    rewrite (proj2 (Z.eqb_neq _ _) (Hsize Hne)).
    rewrite <- Hbuf.
    edestruct (IH (skipn (Z.to_nat bs) unread)
                  (cb + Z.of_nat (length (firstn (Z.to_nat bs) unread)))
                  (World (<[tmp := (P ++ firstn (Z.to_nat bs) unread)%list]> (fs w))
                         (ftp_conns w) (s3_conn w)
                         (calls w ++ [HttpRead url bs])%list)
                  (P ++ firstn (Z.to_nat bs) unread)%list)
      as (cb' & w' & Hrun & Hfs).
    + rewrite length_skipn. destruct unread; [easy|]. simpl in *. lia.
    + assumption.
    + intros _. now apply Hsize.
    + cbn [fs]. apply lookup_insert_eq.
    + exists cb', w'. split; [exact Hrun|]. rewrite Hfs. cbn [fs].
      rewrite insert_insert_eq. now rewrite <- app_assoc, firstn_skipn.
Qed.

(** The range requested from S3 is the next [block_size] bytes. *)
Lemma s3_range_next (content : list byte) (cb bs len : Z) :
  0 <= cb -> 0 < bs -> len = Z.of_nat (length content) ->
  byte_range content cb (if cb + bs - 1 <=? len then Some (cb + bs - 1) else None)
  = firstn (Z.to_nat bs) (skipn (Z.to_nat cb) content).
Proof.
  intros Hcb Hbs Hlen. unfold byte_range.
  destruct (cb + bs - 1 <=? len) eqn:Hend.
  - rewrite (proj2 (Z.ltb_ge _ _)) by lia.
    now replace (cb + bs - 1 - cb + 1) with bs by lia.
  - apply Z.leb_gt in Hend. symmetry. apply firstn_all2.
    rewrite length_skipn. lia.
Qed.

Lemma firstn_skipn_length {A} (n : nat) (l : list A) :
  (firstn n l ++ skipn (length (firstn n l)) l)%list = l.
Proof.
  rewrite length_firstn. destruct (Nat.le_gt_cases n (length l)).
  - rewrite Nat.min_l by lia. apply firstn_skipn.
  - rewrite Nat.min_r by lia. rewrite firstn_all2 by lia.
    rewrite skipn_all. apply app_nil_r.
Qed.

Lemma transfer_loop_s3 (net : network) (tmp : string) (bs : Z)
    (bucket key : string) (content : list byte)
    (fuel : nat) (cb : Z) (w : world) (P : list byte) :
  let len := Z.of_nat (length content) in
  (Z.to_nat (len - cb) < fuel)%nat ->
  0 <= cb ->
  0 < bs ->
  fs w !! tmp = Some P ->
  exists cb' w',
    transfer_loop net fuel tmp "S3" bs len (S3Key bucket key content) cb w
      = (Ok cb', w')
    /\ fs w' = <[tmp := (P ++ skipn (Z.to_nat cb) content)%list]> (fs w).
Proof.
  intros len. revert cb w P.
  induction fuel as [|fuel IH]; intros cb w P Hfuel Hcb Hbs HP; [lia|].
  cbn [transfer_loop]. unfold bind at 1. unfold get_buffer.
  cbn [String.eqb Ascii.eqb Bool.eqb].
  destruct (cb >=? len) eqn:Hdone.
  - unfold ret at 1. eexists _, _. split; [reflexivity|].
    rewrite skipn_all2 by (unfold len in Hdone; lia).
    rewrite app_nil_r. now rewrite insert_id.
  - cbv zeta. rewrite (s3_range_next content cb bs len Hcb Hbs eq_refl).
    unfold bind at 1, log at 1. unfold ret at 1.
    assert (cb < len) as Hlt by lia.
    destruct (firstn (Z.to_nat bs) (skipn (Z.to_nat cb) content))
      as [|b buffer] eqn:Hbuf.
    { exfalso. apply (f_equal (@length byte)) in Hbuf.
      rewrite length_firstn, length_skipn in Hbuf. simpl in Hbuf.
      unfold len in Hlt. lia. }
    unfold bind at 1. unfold file_write at 1. run_monad.
    cbn [fs ftp_conns s3_conn calls]. rewrite HP. cbn [default].
    rewrite (proj2 (Z.eqb_neq _ _)) by lia.
    rewrite <- Hbuf.
    set (buf := firstn (Z.to_nat bs) (skipn (Z.to_nat cb) content)).
    assert (0 < length buf)%nat as Hpos by (unfold buf; rewrite Hbuf; simpl; lia).
    assert (length buf <= length content - Z.to_nat cb)%nat as Hle.
    { unfold buf. rewrite length_firstn, length_skipn. lia. }
    match goal with
    | |- context [transfer_loop _ _ _ _ _ _ _ _ ?w1] =>
        edestruct (IH (cb + Z.of_nat (length buf)) w1 (P ++ buf)%list)
          as (cb' & w' & Hrun & Hfs)
    end.
    + unfold len in *. lia.
    + lia.
    + assumption.
    + cbn [fs]. apply lookup_insert_eq.
    + exists cb', w'. split; [exact Hrun|]. rewrite Hfs. cbn [fs].
      rewrite insert_insert_eq. f_equal. rewrite <- app_assoc. f_equal.
      replace (Z.to_nat (cb + Z.of_nat (length buf)))
        with (length buf + Z.to_nat cb)%nat by lia.
      rewrite <- skipn_skipn. unfold buf. apply firstn_skipn_length.
Qed.

Lemma opened_served (net : network) (K : Z) (st : candidates) :
  opened net K st -> is_error (c_res st) = false ->
  exists content, served net (c_res st) = Some content.
Proof.
  unfold opened, opens_as.
  destruct (c_res st) as [| |u unread|host path|bucket key content];
    cbn [served is_error]; try easy.
  - intros (_ & -> & body & Hbody & _) _. now exists body.
  - intros (_ & _ & files & content & Hfiles & Hpath) _. exists content.
    now rewrite Hfiles.
  - intros _ _. now exists content.
Qed.

(** The transfer of an opened candidate appends to the partial file what
    the remote object holds from offset [K] on. *)
Lemma transfer_opened (net : network) (K : Z) (st : candidates)
    (content : list byte) (bs : Z) (tmp : string) (w : world) :
  opened net K st ->
  served net (c_res st) = Some content ->
  0 < bs -> 0 <= K ->
  exists cb w',
    transfer net tmp (c_url st) (c_endpoint st) (c_res st) bs K w = (Ok cb, w')
    /\ fs w' = <[tmp := (default [] (fs w !! tmp)
                         ++ skipn (Z.to_nat K) content)%list]> (fs w).
Proof.
  intros Hopened Hserved Hbs HK. unfold transfer. unfold bind at 1.
  set (P := default [] (fs w !! tmp)).
  assert (exists w1, open_append tmp w = (Ok tt, w1) /\ fs w1 !! tmp = Some P
                     /\ forall X, <[tmp := X]> (fs w1) = <[tmp := X]> (fs w))
    as (w1 & -> & HP & Hins).
  { unfold open_append, P. run_monad. destruct (fs w !! tmp) eqn:Ht.
    - exists w. now rewrite Ht.
    - eexists. split; [reflexivity|]. cbn [fs default]. split.
      + apply lookup_insert_eq.
      + intros X. apply insert_insert_eq. }
  unfold bind at 1.
  destruct (get_file_size_opened net K st content w1 Hopened Hserved)
    as (w2 & -> & Hfs2).
  rewrite <- Hfs2 in HP. setoid_rewrite <- Hfs2 in Hins.
  setoid_rewrite <- Hins. clearbody P. clear Hins Hfs2 w1 w.
  unfold opened, opens_as in Hopened.
  destruct (c_res st) as [| |u unread|host path|bucket key content'];
    cbn [served] in Hserved; try discriminate.
  - destruct Hopened as (-> & -> & body & Hbody & ->).
    rewrite Hbody in Hserved. injection Hserved as ->.
    unfold byte_range. cbn [loop_bound].
    apply transfer_loop_http; [lia | assumption | | assumption].
    intros Hne Hlen. apply Hne.
    destruct content; [now rewrite skipn_nil | discriminate].
  - destruct Hopened as (-> & _ & files & content' & Hfiles & Hpath).
    rewrite Hfiles, Hpath in Hserved. injection Hserved as ->.
    cbn [loop_bound transfer_loop]. unfold bind at 1, get_buffer.
    cbn [String.eqb Ascii.eqb Bool.eqb]. rewrite Hfiles, Hpath.
    replace (bs <? 0) with false by (symmetry; apply Z.ltb_ge; lia).
    replace (bs =? 0) with false by (symmetry; apply Z.eqb_neq; lia).
    unfold byte_range.
    assert (negb (length (skipn (Z.to_nat K) content) =? 0)%nat
            && (Z.of_nat (length content) =? 0) = false) as ->.
    { destruct (Z.of_nat (length content) =? 0) eqn:Hz; [|apply andb_false_r].
      apply Z.eqb_eq in Hz. destruct content; [|discriminate].
      now rewrite skipn_nil. }
    unfold file_write. run_monad. cbn [fs ftp_conns s3_conn calls].
    rewrite HP. cbn [default].
    eexists _, _. split; reflexivity.
  - destruct Hopened as (-> & _). injection Hserved as ->.
    cbn [loop_bound]. apply transfer_loop_s3; [lia | assumption..].
Qed.

(** ** Resuming a transfer *)

(** C5.  For an entry whose final file is absent and whose candidate was
    opened, with a positive block size: the resume offset [K] is the size of
    the partial file (0 without one); an HTTP candidate was opened with the
    header [Range: bytes=K-]; the transfer completes and leaves in the
    partial file its old content followed by the remote content from offset
    [K] on, which is the whole remote content when the old content was its
    first [K] bytes; the entry then ends with the checksum test on that
    file. *)
Theorem download_mfile_resumes (net : network) (destination priorities : string)
    (block_size : Z) (m : mfile) (failed_files : list Z) (w : world)
    (url0 : string) (rest : list string) (st : candidates) (w2 : world) :
  let file_name := file_name_of destination url0 in
  let tmp := partial_name_of destination url0 in
  let partial := default [] (fs w !! tmp) in
  let K := resume_offset w tmp in
  fst (get_prioritized_endpoint net (urls m) priorities w) = Ok (url0 :: rest) ->
  fs w !! file_name = None ->
  for_each (url0 :: rest) (try_candidate net K) no_candidate
           (after_probe priorities w) = (Ok st, w2) ->
  is_error (c_res st) = false ->
  0 < block_size ->
  K = Z.of_nat (length partial)
  /\ (c_endpoint st = "HTTP" ->
      exists before,
        calls w2 = (before ++ [HttpOpen (c_url st)
                                 ("bytes=" +:+ PyStr.str_of_Z K +:+ "-")])%list)
  /\ exists content current_byte w3,
       let assembled := (partial ++ skipn (length partial) content)%list in
       served net (c_res st) = Some content
       /\ transfer net tmp (c_url st) (c_endpoint st) (c_res st) block_size K w2
          = (Ok current_byte, w3)
       /\ fs w3 !! tmp = Some assembled
       /\ (partial = firstn (length partial) content -> assembled = content)
       /\ download_mfile net destination priorities block_size m failed_files w
          = if String.eqb (MD5.hexdigest assembled) (md5 m)
            then (Ok (failed_files ++ [0])%list,
                  renamed file_name tmp assembled w3)
            else (Ok (failed_files ++ [3])%list, w3).
Proof.
  intros file_name tmp partial K Hsel Habsent Hopen Herr Hbs.
  assert (K = Z.of_nat (length partial)) as HK.
  { unfold K, partial, resume_offset. now destruct (fs w !! tmp). }
  split; [exact HK|]. split.
  { intros Hhttp.
    now apply (candidates_range net K (url0 :: rest) no_candidate
                 (after_probe priorities w) st w2). }
  assert (opened net K st) as Hopened
    by now apply (candidates_opened net K (url0 :: rest) no_candidate
                    (after_probe priorities w) st w2).
  destruct (opened_served net K st Hopened Herr) as [content Hserved].
  destruct (transfer_opened net K st content block_size tmp w2
              Hopened Hserved Hbs ltac:(lia)) as (cb & w3 & Htransfer & Hfs3).
  pose proof (keeps_candidates net K (url0 :: rest) no_candidate
                (after_probe priorities w)) as Hdisk.
  rewrite Hopen in Hdisk. cbn [snd] in Hdisk. unfold same_disk in Hdisk.
  destruct (after_probe_fs priorities w) as (Hfs & _).
  rewrite Hdisk, Hfs in Hfs3. fold partial in Hfs3.
  rewrite HK, Nat2Z.id in Hfs3.
  exists content, cb, w3. cbv zeta.
  split; [exact Hserved|]. split; [exact Htransfer|].
  assert (fs w3 !! tmp = Some (partial ++ skipn (length partial) content)%list)
    as Hdata by (rewrite Hfs3; apply lookup_insert_eq).
  split; [exact Hdata|]. split.
  { intros Hprefix. rewrite Hprefix at 1. apply firstn_skipn. }
  rewrite (download_mfile_selected _ _ _ _ _ _ _ _ Hsel).
  fold file_name.
  rewrite bool_decide_eq_false_2 by (rewrite Habsent; now intros [? ?]).
  rewrite fetch_and_verify_run.
  change (file_name +:+ ".partial") with tmp.
  rewrite resume_offset_after_probe. fold K.
  now rewrite Hopen, Herr, Htransfer, Hdata.
Qed.

Lemma download_mfile_resumes_witness :
  let file_name := file_name_of "dest" "http://a/x.bin" in
  let tmp := partial_name_of "dest" "http://a/x.bin" in
  let partial := default [] (fs resume_world !! tmp) in
  let K := resume_offset resume_world tmp in
  K = Z.of_nat (length partial)
  /\ (c_endpoint resume_opened = "HTTP" ->
      exists before,
        calls resume_opened_world
        = (before ++ [HttpOpen (c_url resume_opened)
                               ("bytes=" +:+ PyStr.str_of_Z K +:+ "-")])%list)
  /\ exists content current_byte w3,
       let assembled := (partial ++ skipn (length partial) content)%list in
       served sample_net (c_res resume_opened) = Some content
       /\ transfer sample_net tmp (c_url resume_opened) (c_endpoint resume_opened)
                   (c_res resume_opened) 8 K resume_opened_world
          = (Ok current_byte, w3)
       /\ fs w3 !! tmp = Some assembled
       /\ (partial = firstn (length partial) content -> assembled = content)
       /\ download_mfile sample_net "dest" "http" 8 sample_entry [] resume_world
          = if String.eqb (MD5.hexdigest assembled) (md5 sample_entry)
            then (Ok ([] ++ [0])%list, renamed file_name tmp assembled w3)
            else (Ok ([] ++ [3])%list, w3).
Proof.
  apply (download_mfile_resumes sample_net "dest" "http" 8 sample_entry []
           resume_world "http://a/x.bin" [] resume_opened resume_opened_world);
    [vm_compute; reflexivity .. | lia].
Defined.

(** ** The candidates loop has no [break] *)

(** X19.  The loop variables after the loop are those of the last
    candidate, whatever the earlier ones returned. *)
Lemma candidates_use_last (net : network) (K : Z) (url_list : list string)
    (st0 : candidates) (w : world) (st : candidates) (w2 : world) :
  url_list <> [] ->
  for_each url_list (try_candidate net K) st0 w = (Ok st, w2) ->
  c_url st = List.last url_list "" /\ c_endpoint st = endpoint_of (c_url st).
Proof.
  revert st0 w. induction url_list as [|url url_list IH]; intros st0 w Hne; [easy|].
  cbn [for_each]. unfold bind at 1.
  destruct (try_candidate net K url st0 w) as [[st1|e|] w1] eqn:Htry;
    [|discriminate..].
  destruct url_list as [|url' url_list].
  - intros Hrun. injection Hrun as <- <-. unfold try_candidate in Htry.
    unfold bind at 1 in Htry.
    destruct (if String.eqb (endpoint_of url) "FASP" then _ else _)
      as [[res|e|] w'] in Htry; [|discriminate..].
    injection Htry as <- <-. now split.
  - intros Hrun. now apply (IH st1 w1).
Qed.

(** C2, at a failing input.  The first candidate [http://a/x.bin] is opened
    (the response is not ["error"]), the second, [s3://bucket/missing.bin],
    is not; the entry gets code 2 although an open succeeded.  With two
    candidates that both open, the transfer is made from the second one. *)
Theorem download_manifest_first_open_lost :
  let m := Mfile "F1" "http://a/x.bin,s3://bucket/missing.bin" sample_md5 in
  let m2 := Mfile "F2" "http://a/x.bin,ftp://b/y.dat" sample_md5 in
  fst (get_prioritized_endpoint sample_net (urls m) "http,s3" empty_world)
    = Ok ["http://a/x.bin"; "s3://bucket/missing.bin"]
  /\ fst (get_url_obj sample_net "http://a/x.bin" "HTTP" 0 empty_world)
     = Ok (HttpResponse "http://a/x.bin" sample_content)
  /\ fst (download_manifest sample_net [m] "dest" "http,s3" 8 empty_world) = Ok [2]
  /\ calls (snd (download_manifest sample_net [m2] "dest" "http,ftp" 8 empty_world))
     = [HttpOpen "http://a/x.bin" "bytes=0-"; FtpConnect "b";
        FtpMlsd "b" "/y.dat"; FtpSize "b" "/y.dat"; FtpRetr "b" "/y.dat" 8 0].
Proof. vm_compute. repeat split; reflexivity. Qed.

(** ** Exceptions that escape the batch *)

(** A FASP candidate raises TypeError: line 96 calls [get_fasp_obj] with one
    argument. *)
Lemma try_candidate_fasp (net : network) (K : Z) (url : string)
    (st : candidates) (w : world) :
  endpoint_of url = "FASP" ->
  try_candidate net K url st w = (Raise TypeError, w).
Proof. intros Hfasp. unfold try_candidate. now rewrite Hfasp. Qed.

(** C1, at a failing input.  An entry whose candidate is a FASP URL makes
    [download_manifest] raise TypeError: no list of codes is returned, and
    the entry after it, which alone gets code 0, is never processed.  An
    FTP candidate on a host that refuses the connection raises as well:
    only the HTTP open of [get_url_obj] sits in a [try]. *)
Theorem download_manifest_fasp_raises :
  let m := Mfile "F1" "fasp://h/x.bin" sample_md5 in
  download_manifest sample_net [m] "dest" "fasp" 8 empty_world
    = (Raise TypeError, empty_world)
  /\ download_manifest sample_net [m; sample_entry] "dest" "fasp,http" 8 empty_world
     = (Raise TypeError, empty_world)
  /\ download_manifest sample_net [sample_entry] "dest" "fasp,http" 8 empty_world
     = (Ok [0], renamed "dest/x.bin" "dest/x.bin.partial" sample_content
                        sample_transferred_world)
  /\ fst (download_manifest sample_net [Mfile "F3" "ftp://down/x.bin" sample_md5]
                            "dest" "ftp" 8 empty_world)
     = Raise TransportError.
Proof. vm_compute. repeat split; reflexivity. Qed.

(** ** Every loop ends within its bound *)

Lemma terminates_ret {A} (a : A) : terminates (ret a).
Proof. intros w. discriminate. Qed.

Lemma terminates_raise {A} (e : exn) : terminates (@raise A e).
Proof. intros w. discriminate. Qed.

Lemma terminates_bind {A B} (m : M A) (k : A -> M B) :
  terminates m -> (forall a, terminates (k a)) -> terminates (bind m k).
Proof.
  intros Hm Hk w. unfold bind. specialize (Hm w).
  destruct (m w) as [[a|e|] w1]; cbn [fst] in *; [apply Hk | discriminate | easy].
Qed.

Lemma terminates_for_each {A S} (l : list A) (body : A -> S -> M S) (s : S) :
  (forall x s, terminates (body x s)) -> terminates (for_each l body s).
Proof.
  intros Hbody. revert s. induction l as [|x l IH]; intros s; cbn [for_each].
  - apply terminates_ret.
  - apply terminates_bind; [apply Hbody | intros s'; apply IH].
Qed.

Lemma terminates_log (e : event) : terminates (log e).
Proof. intros w. discriminate. Qed.

Lemma terminates_get_fs : terminates get_fs.
Proof. intros w. discriminate. Qed.

Lemma terminates_set_fs (f : gmap string (list byte)) : terminates (set_fs f).
Proof. intros w. discriminate. Qed.

Lemma terminates_index {A} (l : list A) (i : nat) : terminates (index l i).
Proof. intros w. unfold index. now destruct (l !! i). Qed.

Lemma terminates_get_s3_connection : terminates get_s3_connection.
Proof. intros w. discriminate. Qed.

Lemma terminates_get_ftp_connection (net : network) (host : string) :
  terminates (get_ftp_connection net host).
Proof.
  intros w. unfold get_ftp_connection.
  destruct (bool_decide _), (ftp_files net host); discriminate.
Qed.

Ltac terminates_step :=
  match goal with
  | |- terminates (bind _ _) => apply terminates_bind; [|intros ?]
  | |- terminates (ret _) => apply terminates_ret
  | |- terminates (raise _) => apply terminates_raise
  | |- terminates (log _) => apply terminates_log
  | |- terminates get_fs => apply terminates_get_fs
  | |- terminates (set_fs _) => apply terminates_set_fs
  | |- terminates (index _ _) => apply terminates_index
  | |- terminates get_s3_connection => apply terminates_get_s3_connection
  | |- terminates (get_ftp_connection _ _) => apply terminates_get_ftp_connection
  | |- terminates (let '(_, _) := ?p in _) => destruct p
  | |- terminates (if ?b then _ else _) => destruct b
  | |- terminates (match ?x with _ => _ end) => destruct x
  end.

Lemma terminates_s3_get_key (net : network) (url : string) :
  terminates (s3_get_key net url).
Proof. unfold s3_get_key, s3_bucket_key. repeat terminates_step. Qed.

Lemma terminates_parse_ftp_url (url : string) : terminates (parse_ftp_url url).
Proof. unfold parse_ftp_url. repeat terminates_step. Qed.

Lemma terminates_get_url_obj (net : network) (url endpoint : string) (h : Z) :
  terminates (get_url_obj net url endpoint h).
Proof.
  unfold get_url_obj.
  repeat first [ apply terminates_parse_ftp_url | apply terminates_s3_get_key
               | terminates_step ].
Qed.

Lemma terminates_get_file_size (net : network) (url endpoint : string) :
  terminates (get_file_size net url endpoint).
Proof.
  unfold get_file_size.
  repeat first [ apply terminates_parse_ftp_url | apply terminates_s3_get_key
               | terminates_step ].
Qed.

Lemma terminates_try_candidate (net : network) (h : Z) (url : string)
    (st : candidates) :
  terminates (try_candidate net h url st).
Proof.
  unfold try_candidate, get_fasp_obj.
  repeat first [ apply terminates_get_url_obj | terminates_step ].
Qed.

Lemma terminates_get_prioritized_endpoint (net : network)
    (manifest_urls priorities : string) :
  terminates (get_prioritized_endpoint net manifest_urls priorities).
Proof.
  unfold get_prioritized_endpoint.
  repeat first
    [ apply terminates_for_each; intros; unfold select_endpoint, select_url
    | terminates_step ].
Qed.

Lemma terminates_checksum_matches (path expected : string) :
  terminates (checksum_matches path expected).
Proof.
  intros w. unfold checksum_matches. run_monad.
  destruct (fs w !! path) as [data|]; [|discriminate].
  rewrite hash_chunks_all by lia. discriminate.
Qed.

Lemma terminates_file_write (path : string) (buffer : list byte) :
  terminates (file_write path buffer).
Proof. intros w. discriminate. Qed.

Lemma terminates_get_buffer (net : network) (res : netobj) (endpoint : string)
    (bs cb fsz : Z) (file : string) :
  terminates (get_buffer net res endpoint bs cb fsz file).
Proof.
  unfold get_buffer.
  repeat first [ apply terminates_file_write | terminates_step ].
Qed.

Lemma loop_bound_pos (res : netobj) (fsz cb : Z) : (0 < loop_bound res fsz cb)%nat.
Proof. destruct res; cbn [loop_bound]; lia. Qed.

(** A non-empty buffer brings the loop closer to its end. *)
Lemma get_buffer_progress (net : network) (res : netobj) (endpoint : string)
    (bs cb fsz : Z) (file : string) (w : world)
    (buffer : list byte) (res' : netobj) (w1 : world) :
  get_buffer net res endpoint bs cb fsz file w = (Ok (Some buffer, res'), w1) ->
  buffer <> [] ->
  (loop_bound res' fsz (cb + Z.of_nat (length buffer)) < loop_bound res fsz cb)%nat.
Proof.
  unfold get_buffer. intros Hrun Hne.
  destruct (String.eqb endpoint "HTTP").
  - destruct res as [| |url unread| |]; try discriminate.
    run_monad_in Hrun. unfold read_amt in Hrun.
    destruct (bs <? 0); injection Hrun as <- <- _; cbn [loop_bound].
    + destruct unread; [easy | simpl; lia].
    + rewrite length_skipn. destruct unread; [now rewrite firstn_nil in Hne|].
      destruct (Z.to_nat bs); [easy | simpl; lia].
  - destruct (String.eqb endpoint "FTP").
    + destruct res as [| | |host path|]; try discriminate.
      run_monad_in Hrun. destruct (ftp_files net host) as [files|]; [|discriminate].
      destruct (files path); [|discriminate].
      destruct (bs <? 0); [discriminate|].
      destruct (bs =? 0); [discriminate|].
      now destruct (_ && _).
    + destruct (String.eqb endpoint "S3"); [|discriminate].
      destruct (cb >=? fsz) eqn:Hdone; [discriminate|].
      destruct res as [| | | |bucket key content]; try discriminate.
      run_monad_in Hrun. injection Hrun as <- <- _. cbn [loop_bound].
      destruct (byte_range _ _ _); [easy | simpl; lia].
Qed.

Lemma terminates_transfer_loop (net : network) (tmp endpoint : string)
    (bs fsz : Z) (fuel : nat) (res : netobj) (cb : Z) :
  (loop_bound res fsz cb <= fuel)%nat ->
  terminates (transfer_loop net fuel tmp endpoint bs fsz res cb).
Proof.
  revert res cb. induction fuel as [|fuel IH]; intros res cb Hfuel.
  - pose proof (loop_bound_pos res fsz cb). lia.
  - intros w. cbn [transfer_loop]. unfold bind at 1.
    pose proof (terminates_get_buffer net res endpoint bs cb fsz tmp w) as Hbuf.
    destruct (get_buffer net res endpoint bs cb fsz tmp w)
      as [[[[[|b buffer]|] res']|e|] w1] eqn:Hrun; cbn [fst] in Hbuf;
      [discriminate| |discriminate|discriminate|easy].
    apply get_buffer_progress in Hrun; [|easy].
    unfold bind at 1, file_write at 1. run_monad.
    destruct (fsz =? 0); [discriminate|]. apply IH. lia.
Qed.

Lemma terminates_transfer (net : network) (tmp url endpoint : string)
    (res : netobj) (bs cb : Z) :
  terminates (transfer net tmp url endpoint res bs cb).
Proof.
  unfold transfer.
  apply terminates_bind; [intros w; unfold open_append; run_monad;
                          now destruct (fs w !! tmp)|intros _].
  apply terminates_bind; [apply terminates_get_file_size|intros [fsz|]].
  - now apply terminates_transfer_loop.
  - apply terminates_raise.
Qed.

Lemma terminates_download_mfile (net : network) (destination priorities : string)
    (bs : Z) (m : mfile) (failed_files : list Z) :
  terminates (download_mfile net destination priorities bs m failed_files).
Proof.
  unfold download_mfile.
  apply terminates_bind; [apply terminates_get_prioritized_endpoint|].
  intros [|url0 rest]; [apply terminates_ret|].
  apply terminates_bind; [unfold path_exists; repeat terminates_step|].
  intros [|]; [apply terminates_ret|]. cbn [negb].
  unfold fetch_and_verify.
  apply terminates_bind.
  { unfold get_current_byte, path_exists, getsize. repeat terminates_step. }
  intros K. apply terminates_bind.
  { apply terminates_for_each. intros. apply terminates_try_candidate. }
  intros st. destruct (is_error (c_res st)); [apply terminates_ret|].
  apply terminates_bind; [apply terminates_transfer|intros _].
  unfold verify_and_finalize, move.
  repeat first [ apply terminates_checksum_matches | terminates_step ].
Qed.

(** X21.  The run never stops for want of iterations: every [while True]
    loop of the program ends within its bound, for every block size. *)
Theorem download_manifest_terminates (net : network) (manifest : list mfile)
    (destination priorities : string) (bs : Z) (w : world) :
  fst (download_manifest net manifest destination priorities bs w) <> OutOfFuel.
Proof.
  apply terminates_for_each. intros. apply terminates_download_mfile.
Qed.

(** ** One code per entry, when the batch returns *)

Lemma download_mfile_appends (net : network) (destination priorities : string)
    (bs : Z) (m : mfile) (failed_files : list Z) (w : world)
    (failed_files' : list Z) (w' : world) :
  download_mfile net destination priorities bs m failed_files w
    = (Ok failed_files', w') ->
  exists code, failed_files' = (failed_files ++ [code])%list /\ 0 <= code <= 3.
Proof.
  intros Hrun.
  destruct (get_prioritized_endpoint net (urls m) priorities w)
    as [[url_list|e|] w1] eqn:Hsel.
  - rewrite (download_mfile_selected net destination priorities bs m
               failed_files w url_list) in Hrun by now rewrite Hsel.
    destruct url_list as [|url0 rest].
    { injection Hrun as <- _. exists 1. split; [reflexivity | lia]. }
    destruct (bool_decide _).
    { injection Hrun as <- _. exists 0. split; [reflexivity | lia]. }
    rewrite fetch_and_verify_run in Hrun.
    destruct (for_each _ _ _ _) as [[st|e|] w2]; [|discriminate..].
    destruct (is_error (c_res st)).
    { injection Hrun as <- _. exists 2. split; [reflexivity | lia]. }
    destruct (transfer _ _ _ _ _ _ _ _) as [[cb|e|] w3]; [|discriminate..].
    destruct (fs w3 !! _) as [data|]; [|discriminate].
    destruct (String.eqb _ _); injection Hrun as <- _;
      [exists 0 | exists 3]; (split; [reflexivity | lia]).
  - unfold download_mfile, bind in Hrun. rewrite Hsel in Hrun. discriminate.
  - unfold download_mfile, bind in Hrun. rewrite Hsel in Hrun. discriminate.
Qed.

(** X20.  When [download_manifest] returns, it returns one code of 0..3
    per manifest entry. *)
Theorem download_manifest_codes (net : network) (manifest : list mfile)
    (destination priorities : string) (bs : Z) (w : world)
    (codes : list Z) (w' : world) :
  download_manifest net manifest destination priorities bs w = (Ok codes, w') ->
  length codes = length manifest /\ Forall (fun c => 0 <= c <= 3) codes.
Proof.
  unfold download_manifest.
  enough (forall acc,
            Forall (fun c => 0 <= c <= 3) acc ->
            for_each manifest (download_mfile net destination priorities bs) acc w
              = (Ok codes, w') ->
            length codes = (length acc + length manifest)%nat
            /\ Forall (fun c => 0 <= c <= 3) codes) as Hgen
    by (intros Hrun; now apply (Hgen [])).
  revert w. induction manifest as [|m manifest IH]; intros w acc Hacc; cbn [for_each].
  - intros Hrun. injection Hrun as <- _. split; [simpl; lia | assumption].
  - unfold bind at 1.
    destruct (download_mfile net destination priorities bs m acc w)
      as [[acc'|e|] w1] eqn:Hm; [|discriminate..].
    apply download_mfile_appends in Hm as (code & -> & Hcode).
    intros Hrun. apply IH in Hrun.
    + destruct Hrun as [Hlen Hall]. split; [|assumption].
      rewrite Hlen, length_app. simpl. lia.
    + apply Forall_app. split; [assumption|]. now constructor.
Qed.

(** * Further properties *)

(** ** What an entry's code says about the disk *)

Global Instance grows_preorder (path : string) : PreOrder (grows path).
Proof.
  split.
  - intros w old Hold. exists []. now rewrite app_nil_r.
  - intros w1 w2 w3 H12 H23 old Hold.
    destruct (H12 old Hold) as [more1 H1]. destruct (H23 _ H1) as [more2 H2].
    exists (more1 ++ more2)%list. now rewrite app_assoc.
Qed.

Lemma same_disk_grows {A} (path : string) (m : M A) :
  keeps same_disk m -> keeps (grows path) m.
Proof.
  intros Hm w old Hold. specialize (Hm w). unfold same_disk in Hm.
  exists []. now rewrite Hm, app_nil_r.
Qed.

Lemma grows_file_write (path : string) (buffer : list byte) :
  keeps (grows path) (file_write path buffer).
Proof.
  intros w old Hold. unfold file_write. run_monad. cbn [snd fs].
  exists buffer. rewrite Hold. cbn [default]. apply lookup_insert_eq.
Qed.

Lemma grows_open_append (path : string) : keeps (grows path) (open_append path).
Proof.
  intros w old Hold. unfold open_append. run_monad. rewrite Hold.
  cbn [snd]. exists []. now rewrite app_nil_r.
Qed.

Lemma grows_get_buffer (net : network) (res : netobj) (endpoint : string)
    (block_size start_pos max_range : Z) (file : string) :
  keeps (grows file)
        (get_buffer net res endpoint block_size start_pos max_range file).
Proof.
  unfold get_buffer.
  repeat first
    [ apply grows_file_write
    | apply same_disk_grows; apply keeps_log
    | keeps_step ].
Qed.

Lemma grows_transfer_loop (net : network) (fuel : nat) (tmp endpoint : string)
    (block_size file_size : Z) (res : netobj) (current_byte : Z) :
  keeps (grows tmp)
        (transfer_loop net fuel tmp endpoint block_size file_size res current_byte).
Proof.
  revert res current_byte.
  induction fuel as [|fuel IH]; intros res current_byte; cbn [transfer_loop].
  - intros w. reflexivity.
  - repeat first
      [ apply grows_get_buffer | apply grows_file_write | apply IH | keeps_step ].
Qed.

Lemma grows_transfer (net : network) (tmp url endpoint : string) (res : netobj)
    (block_size current_byte : Z) :
  keeps (grows tmp) (transfer net tmp url endpoint res block_size current_byte).
Proof.
  unfold transfer.
  repeat first
    [ apply grows_open_append | apply grows_transfer_loop
    | apply same_disk_grows; apply keeps_get_file_size
    | keeps_step ].
Qed.

(** The ways an entry can end once candidates are selected and its final
    file is absent: code 2 with the disk as it was; the partial file written
    and then renamed (code 0) or kept (code 3) by its digest; or an
    exception, with at most the partial file written. *)
Lemma download_mfile_ends (net : network) (destination priorities : string)
    (block_size : Z) (m : mfile) (failed_files : list Z) (w : world)
    (url0 : string) (rest : list string) (r : outcome (list Z)) (w' : world) :
  let file_name := file_name_of destination url0 in
  let tmp := file_name +:+ ".partial" in
  fst (get_prioritized_endpoint net (urls m) priorities w) = Ok (url0 :: rest) ->
  fs w !! file_name = None ->
  download_mfile net destination priorities block_size m failed_files w = (r, w') ->
  (r = Ok (failed_files ++ [2])%list /\ fs w' = fs w)
  \/ (exists w3 data,
        only_writes tmp w w3 /\ grows tmp w w3 /\
        fs w3 !! tmp = Some data /\ fs w3 !! file_name = None /\
        ((MD5.hexdigest data = md5 m /\ r = Ok (failed_files ++ [0])%list /\
          w' = renamed file_name tmp data w3)
         \/ (MD5.hexdigest data <> md5 m /\ r = Ok (failed_files ++ [3])%list /\
             w' = w3)))
  \/ ((forall codes, r <> Ok codes) /\ only_writes tmp w w' /\ grows tmp w w').
Proof.
  intros file_name tmp Hsel Habsent Hrun.
  pose proof (partial_name_ne file_name) as Hne. fold tmp in Hne.
  rewrite (download_mfile_selected _ _ _ _ _ _ _ _ Hsel) in Hrun.
  fold file_name in Hrun.
  rewrite bool_decide_eq_false_2 in Hrun by (rewrite Habsent; now intros [? ?]).
  rewrite fetch_and_verify_run in Hrun. fold tmp in Hrun.
  set (K := resume_offset (after_probe priorities w) tmp) in Hrun.
  destruct (after_probe_fs priorities w) as (Hfs & _).
  pose proof (keeps_candidates net K (url0 :: rest) no_candidate
                (after_probe priorities w)) as Hdisk.
  unfold same_disk in Hdisk. rewrite Hfs in Hdisk.
  assert (forall w2, fs w2 = fs w -> only_writes tmp w w2 /\ grows tmp w w2)
    as Hsame.
  { intros w2 Hw2. split.
    - split; [|intros p _]; now rewrite Hw2.
    - intros old Hold. exists []. now rewrite Hw2, app_nil_r. }
  destruct (for_each (url0 :: rest) _ _ _) as [[st|e|] w2]; cbn [snd] in Hdisk;
    [|injection Hrun as <- <-; right; right;
      (split; [intros codes Hc; discriminate | now apply Hsame])..].
  destruct (is_error (c_res st)).
  { injection Hrun as <- <-. now left. }
  pose proof (keeps_transfer net tmp (c_url st) (c_endpoint st) (c_res st)
                block_size K w2) as Hwrites.
  pose proof (grows_transfer net tmp (c_url st) (c_endpoint st) (c_res st)
                block_size K w2) as Hgrows.
  destruct (transfer _ _ _ _ _ _ _ w2) as [rt w3]. cbn [snd] in Hwrites, Hgrows.
  destruct (Hsame w2 Hdisk) as [Hw2 Hg2].
  assert (only_writes tmp w w3) as Hw3 by (etransitivity; eassumption).
  assert (grows tmp w w3) as Hg3 by (etransitivity; eassumption).
  assert (fs w3 !! file_name = None) as Hf3.
  { destruct Hw3 as [_ Hframe]. rewrite Hframe by (intros Heq; now apply Hne).
    assumption. }
  destruct rt as [cb|e|];
    [|injection Hrun as <- <-; right; right;
      (split; [intros codes Hc; discriminate | split; assumption])..].
  destruct (fs w3 !! tmp) as [data|] eqn:Hdata;
    [|injection Hrun as <- <-; right; right;
      (split; [intros codes Hc; discriminate | split; assumption])].
  right; left. exists w3, data. repeat (split; [assumption|]).
  destruct (String.eqb (MD5.hexdigest data) (md5 m)) eqn:Hdigest;
    injection Hrun as <- <-.
  - left. apply String.eqb_eq in Hdigest. now repeat split.
  - right. apply String.eqb_neq in Hdigest. now repeat split.
Qed.

Lemma code_differs (failed_files : list Z) (c d : Z) :
  Ok (failed_files ++ [c])%list = Ok (failed_files ++ [d])%list -> c = d.
Proof.
  intros Heq. injection Heq as Heq. apply app_inv_head in Heq. congruence.
Qed.

(** X1.  A file that the engine puts at its final path has the expected
    digest: when an entry whose final file was absent gets code 0, the final
    file is on disk, its MD5 is the entry's [md5], and the partial file is
    gone. *)
Theorem download_mfile_success_digest (net : network)
    (destination priorities : string) (block_size : Z) (m : mfile)
    (failed_files : list Z) (w : world) (url0 : string) (rest : list string)
    (w' : world) :
  let file_name := file_name_of destination url0 in
  fst (get_prioritized_endpoint net (urls m) priorities w) = Ok (url0 :: rest) ->
  fs w !! file_name = None ->
  download_mfile net destination priorities block_size m failed_files w
    = (Ok (failed_files ++ [0])%list, w') ->
  exists data,
    fs w' !! file_name = Some data
    /\ MD5.hexdigest data = md5 m
    /\ fs w' !! (file_name +:+ ".partial") = None.
Proof.
  intros file_name Hsel Habsent Hrun.
  pose proof (partial_name_ne file_name) as Hne.
  destruct (download_mfile_ends _ _ _ _ _ _ _ _ _ _ _ Hsel Habsent Hrun)
    as [[Hr _]|[(w3 & data & _ & _ & Hdata & _ & Hcase)|[Hr _]]].
  - apply code_differs in Hr. discriminate.
  - destruct Hcase as [(Hdigest & _ & ->)|(_ & Hr & _)];
      [|apply code_differs in Hr; discriminate].
    exists data. unfold renamed. cbn [fs]. fold file_name.
    split; [apply lookup_insert_eq|]. split; [assumption|].
    rewrite lookup_insert_ne by (intros Heq; now apply Hne).
    apply lookup_delete_eq.
  - now contradiction (Hr (failed_files ++ [0])%list).
Qed.

Lemma download_mfile_success_digest_witness :
  exists data,
    fs (snd (download_mfile sample_net "dest" "http" 8 sample_entry [] empty_world))
       !! file_name_of "dest" "http://a/x.bin" = Some data
    /\ MD5.hexdigest data = md5 sample_entry
    /\ fs (snd (download_mfile sample_net "dest" "http" 8 sample_entry []
                  empty_world))
          !! (file_name_of "dest" "http://a/x.bin" +:+ ".partial") = None.
Proof.
  apply (download_mfile_success_digest sample_net "dest" "http" 8 sample_entry
           [] empty_world "http://a/x.bin" []);
    vm_compute; reflexivity.
Defined.

(** X2.  The failure codes of an entry whose final file was absent: with
    code 2 the disk is as it was (no partial file is created); with code 3
    the partial file is on disk, its MD5 is not the entry's [md5], and the
    final path is still absent. *)
Theorem download_mfile_failure_codes (net : network)
    (destination priorities : string) (block_size : Z) (m : mfile)
    (failed_files : list Z) (w : world) (url0 : string) (rest : list string)
    (r : outcome (list Z)) (w' : world) :
  let file_name := file_name_of destination url0 in
  fst (get_prioritized_endpoint net (urls m) priorities w) = Ok (url0 :: rest) ->
  fs w !! file_name = None ->
  download_mfile net destination priorities block_size m failed_files w = (r, w') ->
  (r = Ok (failed_files ++ [2])%list -> fs w' = fs w)
  /\ (r = Ok (failed_files ++ [3])%list ->
      fs w' !! file_name = None
      /\ exists data,
           fs w' !! (file_name +:+ ".partial") = Some data
           /\ MD5.hexdigest data <> md5 m).
Proof.
  intros file_name Hsel Habsent Hrun.
  destruct (download_mfile_ends _ _ _ _ _ _ _ _ _ _ _ Hsel Habsent Hrun)
    as [[-> Hfs]|[(w3 & data & _ & _ & Hdata & Hfinal & Hcase)|[Hr _]]].
  - split; [easy|]. intros Hr. apply code_differs in Hr. discriminate.
  - destruct Hcase as [(_ & -> & _)|(Hdigest & -> & ->)].
    + split; intros Hr; apply code_differs in Hr; discriminate.
    + split; [intros Hr; apply code_differs in Hr; discriminate|].
      intros _. split; [assumption|]. now exists data.
  - split; intros ->; now contradiction (Hr _ eq_refl).
Qed.

Lemma download_mfile_failure_codes_witness :
  let run := download_mfile sample_net "dest" "http" 8 wrong_entry [] empty_world in
  (Ok [3] = Ok ([] ++ [2])%list -> fs (snd run) = fs empty_world)
  /\ (Ok [3] = Ok ([] ++ [3])%list ->
      fs (snd run) !! file_name_of "dest" "http://a/x.bin" = None
      /\ exists data,
           fs (snd run) !! (file_name_of "dest" "http://a/x.bin" +:+ ".partial")
             = Some data
           /\ MD5.hexdigest data <> md5 wrong_entry).
Proof.
  apply (download_mfile_failure_codes sample_net "dest" "http" 8 wrong_entry
           [] empty_world "http://a/x.bin" [] (Ok [3]));
    vm_compute; reflexivity.
Defined.

(** X3.  Bytes already on disk are never rewritten: whatever way an entry
    with a partial file ends, the old content of the partial file is the
    beginning of what the partial file holds afterwards, or, with code 0, of
    what the final file holds. *)
Theorem download_mfile_appends_only (net : network)
    (destination priorities : string) (block_size : Z) (m : mfile)
    (failed_files : list Z) (w : world) (url0 : string) (rest : list string)
    (old : list byte) (r : outcome (list Z)) (w' : world) :
  let file_name := file_name_of destination url0 in
  let tmp := file_name +:+ ".partial" in
  fst (get_prioritized_endpoint net (urls m) priorities w) = Ok (url0 :: rest) ->
  fs w !! file_name = None ->
  fs w !! tmp = Some old ->
  download_mfile net destination priorities block_size m failed_files w = (r, w') ->
  (exists more, fs w' !! tmp = Some (old ++ more)%list)
  \/ (r = Ok (failed_files ++ [0])%list
      /\ exists more, fs w' !! file_name = Some (old ++ more)%list).
Proof.
  intros file_name tmp Hsel Habsent Hold Hrun.
  destruct (download_mfile_ends _ _ _ _ _ _ _ _ _ _ _ Hsel Habsent Hrun)
    as [[_ Hfs]|[(w3 & data & _ & Hgrows & Hdata & _ & Hcase)|(_ & _ & Hgrows)]].
  - left. exists []. now rewrite Hfs, app_nil_r.
  - destruct (Hgrows old Hold) as [more Hmore]. fold tmp in Hdata.
    rewrite Hdata in Hmore. injection Hmore as ->.
    destruct Hcase as [(_ & -> & ->)|(_ & _ & ->)].
    + right. split; [reflexivity|]. exists more. unfold renamed. cbn [fs].
      apply lookup_insert_eq.
    + left. now exists more.
  - left. exact (Hgrows old Hold).
Qed.

Lemma download_mfile_appends_only_witness :
  let run := download_mfile sample_net "dest" "http" 8 wrong_entry [] resume_world in
  (exists more,
     fs (snd run) !! (file_name_of "dest" "http://a/x.bin" +:+ ".partial")
       = Some (firstn 6 sample_content ++ more)%list)
  \/ (fst run = Ok ([] ++ [0])%list
      /\ exists more,
           fs (snd run) !! file_name_of "dest" "http://a/x.bin"
             = Some (firstn 6 sample_content ++ more)%list).
Proof.
  apply (download_mfile_appends_only sample_net "dest" "http" 8 wrong_entry
           [] resume_world "http://a/x.bin" [] (firstn 6 sample_content));
    vm_compute; reflexivity.
Defined.

(** ** The batch writes inside the destination directory only *)

Lemma mem_char_append (c : ascii) (s t : string) :
  PyStr.mem_char c (s +:+ t) = PyStr.mem_char c s || PyStr.mem_char c t.
Proof.
  induction s as [|d s IH]; [reflexivity|].
  simpl. rewrite IH. apply orb_assoc.
Qed.

(** The pieces of [s.split('/')] hold no slash. *)
Lemma split_slash_pieces (s cur : string) :
  PyStr.mem_char "/" cur = false ->
  Forall (fun piece => PyStr.mem_char "/" piece = false)
         (PyStr.split_aux "/" 0 cur s).
Proof.
  revert cur. induction s as [|c s IH]; intros cur Hcur; cbn [PyStr.split_aux].
  - now constructor.
  - cbn [String.prefix String.length Nat.sub].
    destruct (ascii_dec "/" c) as [<-|Hc].
    + destruct s; (constructor; [assumption | now apply IH]).
    + apply IH. rewrite mem_char_append, Hcur. cbn [PyStr.mem_char orb].
      rewrite orb_false_r. apply Ascii.eqb_neq. congruence.
Qed.

Lemma basename_no_slash (url : string) :
  PyStr.mem_char "/" (List.last (PyStr.split "/" url) "") = false.
Proof.
  pose proof (split_slash_pieces url "" eq_refl) as Hall.
  fold (PyStr.split "/" url) in Hall.
  induction Hall as [|piece l Hpiece Hall IH]; [reflexivity|].
  destruct l; [assumption | exact IH].
Qed.

Global Instance inside_preorder (destination : string) :
  PreOrder (inside destination).
Proof.
  split; [intros w p _; reflexivity|].
  intros w1 w2 w3 H12 H23 p Hp. rewrite H23, H12; auto.
Qed.

Lemma touches_inside {A} (destination url0 : string) (m : M A) :
  keeps (touches (file_name_of destination url0)
                 (file_name_of destination url0 +:+ ".partial")) m ->
  keeps (inside destination) m.
Proof.
  intros Hm w p Hp.
  destruct (Hp _ (basename_no_slash url0)) as [Hfile Htmp].
  now apply (Hm w).
Qed.

Lemma same_disk_inside {A} (destination : string) (m : M A) :
  keeps same_disk m -> keeps (inside destination) m.
Proof. intros Hm w p _. now rewrite (Hm w). Qed.

Lemma keeps_checksum_matches (path expected : string) :
  keeps same_disk (checksum_matches path expected).
Proof.
  intros w. unfold checksum_matches. run_monad.
  destruct (fs w !! path); [|reflexivity].
  now destruct (hash_chunks _ _ _).
Qed.

Lemma touches_move (file_name tmp : string) :
  keeps (touches file_name tmp) (move tmp file_name).
Proof.
  intros w p Hfile Htmp. unfold move. run_monad.
  destruct (fs w !! tmp); [|reflexivity]. cbn [snd fs].
  rewrite lookup_insert_ne by congruence. now apply lookup_delete_ne.
Qed.

Lemma keeps_get_current_byte (tmp : string) :
  keeps same_disk (get_current_byte tmp).
Proof. intros w. now rewrite get_current_byte_run. Qed.

Lemma touches_fetch_and_verify (net : network) (file_name : string)
    (url_list : list string) (block_size : Z) (m : mfile)
    (failed_files : list Z) :
  keeps (touches file_name (file_name +:+ ".partial"))
        (fetch_and_verify net file_name url_list block_size m failed_files).
Proof.
  unfold fetch_and_verify, verify_and_finalize.
  assert (forall A (x : M A), keeps same_disk x ->
            keeps (touches file_name (file_name +:+ ".partial")) x) as Hsame.
  { intros A x Hx. apply only_writes_touches. now apply same_disk_only_writes. }
  repeat first
    [ apply touches_move
    | apply only_writes_touches; apply keeps_transfer
    | apply Hsame; first [ apply keeps_get_current_byte | apply keeps_candidates
                         | apply keeps_checksum_matches ]
    | keeps_step ].
Qed.

Lemma inside_download_mfile (net : network) (destination priorities : string)
    (block_size : Z) (m : mfile) (failed_files : list Z) :
  keeps (inside destination)
        (download_mfile net destination priorities block_size m failed_files).
Proof.
  unfold download_mfile.
  apply keeps_bind; [typeclasses eauto| |intros [|url0 rest]].
  - apply same_disk_inside. intros w.
    rewrite get_prioritized_endpoint_world. unfold same_disk.
    now destruct (after_probe_fs priorities w).
  - apply keeps_ret. typeclasses eauto.
  - apply keeps_bind; [typeclasses eauto| |intros [|]].
    + apply same_disk_inside. intros w. reflexivity.
    + apply keeps_ret. typeclasses eauto.
    + cbn [negb]. apply (touches_inside destination url0).
      apply touches_fetch_and_verify.
Qed.

(** X4.  Whatever the manifest and however the run ends, a batch changes
    no file other than [destination/<name>] and
    [destination/<name>.partial] for names without a slash: nothing is
    written outside the destination directory or below a subdirectory. *)
Theorem download_manifest_inside_destination (net : network)
    (manifest : list mfile) (destination priorities : string)
    (block_size : Z) (w : world) (p : string) :
  (forall name, PyStr.mem_char "/" name = false ->
     p <> destination +:+ "/" +:+ name /\
     p <> (destination +:+ "/" +:+ name) +:+ ".partial") ->
  fs (snd (download_manifest net manifest destination priorities block_size w))
     !! p = fs w !! p.
Proof.
  revert p. change (inside destination w
    (snd (download_manifest net manifest destination priorities block_size w))).
  revert w. unfold download_manifest.
  apply (keeps_for_each (inside destination)).
  intros. apply inside_download_mfile.
Qed.

Lemma download_manifest_inside_destination_witness :
  fs (snd (download_manifest sample_net [sample_entry; wrong_entry] "dest" "http" 8
             present_world)) !! "elsewhere/x.bin"
  = fs present_world !! "elsewhere/x.bin".
Proof.
  apply (download_manifest_inside_destination sample_net
           [sample_entry; wrong_entry] "dest" "http" 8 present_world
           "elsewhere/x.bin").
  intros name _. simpl. split; discriminate.
Defined.

(** ** Running an entry again, running a manifest in parts *)

Lemma pure_for_each {A S} (l : list A) (body : A -> S -> M S) (s : S) :
  (forall x s, pure_m (body x s)) -> pure_m (for_each l body s).
Proof.
  intros Hbody. revert s. induction l as [|x l IH]; intros s; cbn [for_each].
  - apply pure_ret.
  - apply pure_bind; [apply Hbody | intros s'; apply IH].
Qed.

Lemma pure_select_endpoint (urls : list string) (ep : string)
    (url_list : list string) :
  pure_m (select_endpoint urls ep url_list).
Proof.
  unfold select_endpoint. apply pure_for_each. intros url acc.
  unfold select_url. destruct (PyStr.startswith _ _); [|apply pure_ret].
  destruct (demo_url url); [apply pure_ret | apply pure_raise].
Qed.

(** What the selector returns does not depend on the disk, the caches or
    the calls made before. *)
Lemma get_prioritized_endpoint_fst (net : network)
    (manifest_urls priorities : string) (w w0 : world) :
  fst (get_prioritized_endpoint net manifest_urls priorities w)
  = fst (get_prioritized_endpoint net manifest_urls priorities w0).
Proof.
  rewrite !get_prioritized_endpoint_unfold.
  assert (pure_m (for_each (effective_priorities net priorities)
                    (select_endpoint (PyStr.split "," manifest_urls)) []))
    as Hpure by (apply pure_for_each; intros; apply pure_select_endpoint).
  rewrite (Hpure (after_probe priorities w) (after_probe priorities w0)).
  reflexivity.
Qed.

(** X5.  Running an entry again after it got code 0 is a no-op: whatever
    the block size, the second run gives code 0 again, leaves the disk and
    the connection caches as they are and makes no transport call. *)
Theorem download_mfile_again (net : network) (destination priorities : string)
    (block_size block_size' : Z) (m : mfile) (failed_files failed_files' : list Z)
    (w : world) (url0 : string) (rest : list string) (w' : world) :
  fst (get_prioritized_endpoint net (urls m) priorities w) = Ok (url0 :: rest) ->
  fs w !! file_name_of destination url0 = None ->
  download_mfile net destination priorities block_size m failed_files w
    = (Ok (failed_files ++ [0])%list, w') ->
  exists w'',
    download_mfile net destination priorities block_size' m failed_files' w'
      = (Ok (failed_files' ++ [0])%list, w'')
    /\ fs w'' = fs w'
    /\ ftp_conns w'' = ftp_conns w'
    /\ transport_calls w'' = transport_calls w'.
Proof.
  intros Hsel Habsent Hrun.
  assert (is_Some (fs w' !! file_name_of destination url0)) as Hpresent.
  { destruct (download_mfile_ends _ _ _ _ _ _ _ _ _ _ _ Hsel Habsent Hrun)
      as [[Hr _]|[(w3 & data & _ & _ & _ & _ & Hcase)|[Hr _]]].
    - apply code_differs in Hr. discriminate.
    - destruct Hcase as [(_ & _ & ->)|(_ & Hr & _)];
        [|apply code_differs in Hr; discriminate].
      unfold renamed. cbn [fs]. rewrite lookup_insert_eq. now eexists.
    - now contradiction (Hr (failed_files ++ [0])%list). }
  rewrite (get_prioritized_endpoint_fst net (urls m) priorities w w') in Hsel.
  exists (after_probe priorities w').
  destruct (after_probe_fs priorities w') as (Hfs & Hconns & _ & Hcalls).
  split; [|now repeat split].
  rewrite (download_mfile_selected _ _ _ _ _ _ _ _ Hsel).
  now rewrite bool_decide_eq_true_2.
Qed.

Lemma download_mfile_again_witness :
  let w' := snd (download_mfile sample_net "dest" "http" 8 sample_entry []
                   empty_world) in
  exists w'',
    download_mfile sample_net "dest" "http" 3 sample_entry [0] w'
      = (Ok ([0] ++ [0])%list, w'')
    /\ fs w'' = fs w'
    /\ ftp_conns w'' = ftp_conns w'
    /\ transport_calls w'' = transport_calls w'.
Proof.
  apply (download_mfile_again sample_net "dest" "http" 8 3 sample_entry [] [0]
           empty_world "http://a/x.bin" []);
    vm_compute; reflexivity.
Defined.

(** The codes an entry appends do not depend on the codes collected so
    far. *)
Lemma download_mfile_acc (net : network) (destination priorities : string)
    (block_size : Z) (m : mfile) (failed_files : list Z) (w : world) :
  download_mfile net destination priorities block_size m failed_files w
  = map_outcome (app failed_files)
      (download_mfile net destination priorities block_size m [] w).
Proof.
  destruct (get_prioritized_endpoint net (urls m) priorities w)
    as [[url_list|e|] w1] eqn:Hsel.
  - rewrite !(download_mfile_selected net destination priorities block_size m
                _ w url_list) by now rewrite Hsel.
    destruct url_list as [|url0 rest]; [reflexivity|].
    destruct (bool_decide _); [reflexivity|].
    rewrite !fetch_and_verify_run.
    destruct (for_each _ _ _ _) as [[st|e|] w2]; [|reflexivity..].
    destruct (is_error (c_res st)); [reflexivity|].
    destruct (transfer _ _ _ _ _ _ _ _) as [[cb|e|] w3]; [|reflexivity..].
    destruct (fs w3 !! _) as [data|]; [|reflexivity].
    now destruct (String.eqb _ _).
  - unfold download_mfile, bind. now rewrite Hsel.
  - unfold download_mfile, bind. now rewrite Hsel.
Qed.

Lemma download_entries_acc (net : network) (manifest : list mfile)
    (destination priorities : string) (block_size : Z) (acc : list Z)
    (w : world) :
  for_each manifest (download_mfile net destination priorities block_size) acc w
  = map_outcome (app acc)
      (download_manifest net manifest destination priorities block_size w).
Proof.
  unfold download_manifest. revert acc w.
  induction manifest as [|m manifest IH]; intros acc w; cbn [for_each].
  - unfold ret, map_outcome. now rewrite app_nil_r.
  - unfold bind. rewrite (download_mfile_acc _ _ _ _ _ acc).
    destruct (download_mfile net destination priorities block_size m [] w)
      as [[c|e|] w1]; cbn [map_outcome]; [|reflexivity..].
    rewrite (IH (acc ++ c)%list), (IH c).
    destruct (for_each manifest _ [] w1) as [[cs|e|] w2]; cbn [map_outcome];
      [|reflexivity..].
    now rewrite app_assoc.
Qed.

(** X6.  A manifest can be run in parts: running [manifest1 ++ manifest2]
    is running [manifest1], then [manifest2] from the world it left, and the
    codes are those of the first part followed by those of the second; an
    exception in the first part ends the run there. *)
Theorem download_manifest_app (net : network) (manifest1 manifest2 : list mfile)
    (destination priorities : string) (block_size : Z) (w : world) :
  download_manifest net (manifest1 ++ manifest2) destination priorities
                    block_size w
  = match download_manifest net manifest1 destination priorities block_size w with
    | (Ok codes1, w1) =>
        map_outcome (app codes1)
          (download_manifest net manifest2 destination priorities block_size w1)
    | (Raise e, w1) => (Raise e, w1)
    | (OutOfFuel, w1) => (OutOfFuel, w1)
    end.
Proof.
  unfold download_manifest at 1 2.
  generalize (@nil Z) at 1 2. revert w.
  induction manifest1 as [|m manifest1 IH]; intros w acc; cbn [app for_each].
  - unfold ret. apply download_entries_acc.
  - unfold bind.
    destruct (download_mfile net destination priorities block_size m acc w)
      as [[acc'|e|] w1]; [apply IH | reflexivity..].
Qed.

(** ** [str.split] with a separator of any length *)

Lemma append_nil_r (s : string) : s +:+ "" = s.
Proof.
  induction s as [|c s IH]; [reflexivity|].
  change (String c (s +:+ "") = String c s). now rewrite IH.
Qed.

Lemma append_assoc (s t u : string) : (s +:+ t) +:+ u = s +:+ (t +:+ u).
Proof.
  induction s as [|c s IH]; [reflexivity|].
  change (String c ((s +:+ t) +:+ u) = String c (s +:+ (t +:+ u))).
  now rewrite IH.
Qed.

Lemma prefix_append (p s : string) : String.prefix p (p +:+ s) = true.
Proof.
  induction p as [|c p IH]; [now destruct s|].
  change (String c p +:+ s) with (String c (p +:+ s)). cbn [String.prefix].
  destruct (ascii_dec c c); [assumption | contradiction].
Qed.

Lemma prefix_split (p s : string) :
  String.prefix p s = true -> exists r, s = p +:+ r.
Proof.
  revert s. induction p as [|c p IH]; intros s Hp; [now exists s|].
  destruct s as [|d s]; [discriminate|]. simpl in Hp.
  destruct (ascii_dec c d) as [->|]; [|discriminate].
  destruct (IH s Hp) as [r ->]. now exists r.
Qed.

(** the characters of a matched separator are dropped *)
Lemma split_aux_skip (sep x cur s : string) :
  PyStr.split_aux sep (String.length x) cur (x +:+ s) = PyStr.split_aux sep 0 cur s.
Proof. induction x as [|c x IH]; [reflexivity | exact IH]. Qed.

(** a separator at the head ends the piece being read *)
Lemma split_aux_match (c : ascii) (sep' cur s : string) :
  PyStr.split_aux (String c sep') 0 cur (String c sep' +:+ s)
  = cur :: PyStr.split_aux (String c sep') 0 "" s.
Proof.
  change (String c sep' +:+ s) with (String c (sep' +:+ s)).
  cbn [PyStr.split_aux].
  change (String c (sep' +:+ s)) with (String c sep' +:+ s).
  rewrite prefix_append. cbn [String.length Nat.sub].
  rewrite Nat.sub_0_r. now rewrite split_aux_skip.
Qed.

(** where the separator does not match, the characters join the piece *)
Lemma split_aux_no_match (sep pre rest cur : string) :
  no_match_in sep pre rest = true ->
  PyStr.split_aux sep 0 cur (pre +:+ rest)
  = PyStr.split_aux sep 0 (cur +:+ pre) rest.
Proof.
  revert cur. induction pre as [|c pre IH]; intros cur Hno.
  - now rewrite append_nil_r.
  - cbn [no_match_in] in Hno. apply andb_true_iff in Hno as [Hhead Hno].
    apply negb_true_iff in Hhead.
    change (String c pre +:+ rest) with (String c (pre +:+ rest)) in *.
    cbn [PyStr.split_aux]. rewrite Hhead. rewrite (IH _ Hno).
    now rewrite append_assoc.
Qed.

(** without an occurrence of the separator there is one piece *)
Lemma split_aux_absent (sep s cur : string) :
  PyStr.contains sep s = false ->
  PyStr.split_aux sep 0 cur s = [cur +:+ s].
Proof.
  revert cur. induction s as [|c s IH]; intros cur Hno.
  - now rewrite append_nil_r.
  - cbn [PyStr.contains] in Hno. apply orb_false_iff in Hno as [Hhead Hno].
    cbn [PyStr.split_aux]. rewrite Hhead. rewrite (IH _ Hno).
    now rewrite append_assoc.
Qed.

(** the first piece starts with the piece being read *)
Lemma split_aux_head (sep s cur : string) :
  exists t, hd "" (PyStr.split_aux sep 0 cur s) = cur +:+ t.
Proof.
  revert cur. induction s as [|c s IH]; intros cur; cbn [PyStr.split_aux].
  - exists "". now rewrite append_nil_r.
  - destruct (String.prefix sep (String c s)).
    + exists "". now rewrite append_nil_r.
    + destruct (IH (cur +:+ String c "")) as [t Ht]. exists (String c t).
      rewrite Ht. now rewrite append_assoc.
Qed.

Lemma no_slash_no_match (host rest : string) :
  PyStr.mem_char "/" host = false -> no_match_in "/" host rest = true.
Proof.
  induction host as [|c host IH]; intros Hhost; [reflexivity|].
  cbn [PyStr.mem_char] in Hhost. apply orb_false_iff in Hhost as [Hc Hhost].
  cbn [no_match_in]. rewrite (IH Hhost), andb_true_r.
  change (String c host +:+ rest) with (String c (host +:+ rest)).
  cbn [String.prefix]. destruct (ascii_dec "/" c) as [<-|]; [discriminate|reflexivity].
Qed.

(** ** [parse_ftp_url] *)

Lemma no_slash_absent (host : string) :
  PyStr.mem_char "/" host = false -> PyStr.contains "/" host = false.
Proof.
  induction host as [|c host IH]; intros Hhost; [reflexivity|].
  cbn [PyStr.mem_char] in Hhost. apply orb_false_iff in Hhost as [Hc Hhost].
  cbn [PyStr.contains String.prefix]. rewrite (IH Hhost), orb_false_r.
  destruct (ascii_dec "/" c) as [<-|]; [discriminate | reflexivity].
Qed.

(** When the separator occurs in the text, the first piece stops before
    the end of the text. *)
Lemma split_aux_present (sep s cur : string) :
  sep <> "" ->
  PyStr.contains sep s = true ->
  exists pre, hd "" (PyStr.split_aux sep 0 cur s) = cur +:+ pre
              /\ (String.length pre < String.length s)%nat.
Proof.
  intros Hsep. revert cur. induction s as [|c s IH]; intros cur Hin.
  - destruct sep; [easy | discriminate].
  - cbn [PyStr.contains] in Hin. cbn [PyStr.split_aux].
    destruct (String.prefix sep (String c s)) eqn:Hhead.
    + exists "". rewrite append_nil_r. split; [reflexivity | simpl; lia].
    + cbn [orb] in Hin.
      destruct (IH (cur +:+ String c "") Hin) as (pre & Hpre & Hlen).
      exists (String c pre). rewrite Hpre, append_assoc.
      split; [reflexivity | simpl; lia].
Qed.

(** X7.  For [ftp://<host>/<path>] with a non-empty host without a slash,
    no [//] after the scheme, and a host name that does not occur in the URL
    before its own place, [parse_ftp_url] returns the host, the rest of the
    URL as [dest], and as [file_path] the path up to the first occurrence
    of the host name in it: the whole path exactly when the host name does
    not occur in the path (a path that holds the host name is cut short). *)
Theorem parse_ftp_url_fields (c : ascii) (host' p : string) (w : world) :
  let host := String c host' in
  let path := "/" +:+ p in
  PyStr.mem_char "/" host = false ->
  PyStr.contains "//" (host +:+ path) = false ->
  no_match_in host "ftp://" (host +:+ path) = true ->
  parse_ftp_url ("ftp://" +:+ host +:+ path) w
    = (Ok (host +:+ path, host, hd "" (PyStr.split host path)), w)
  /\ (hd "" (PyStr.split host path) = path
      <-> PyStr.contains host path = false).
Proof.
  intros host path Hhost Hdouble Hbefore. split.
  - unfold parse_ftp_url.
    assert (PyStr.split "//" ("ftp://" +:+ host +:+ path)
            = ["ftp:"; host +:+ path]) as ->.
    { unfold PyStr.split.
      change ("ftp://" +:+ host +:+ path)
        with ("ftp:" +:+ ("//" +:+ (host +:+ path))).
      rewrite split_aux_no_match by reflexivity.
      rewrite split_aux_match. now rewrite split_aux_absent. }
    assert (hd "" (PyStr.split "/" (host +:+ path)) = host) as Hhd.
    { unfold PyStr.split, path.
      rewrite split_aux_no_match by now apply no_slash_no_match.
      now rewrite split_aux_match. }
    assert (PyStr.split host ("ftp://" +:+ host +:+ path)
            = "ftp://" :: PyStr.split host path) as Hsplit.
    { unfold PyStr.split. rewrite split_aux_no_match by assumption.
      unfold host at 1 3. now rewrite split_aux_match. }
    pose proof (split_aux_nonempty "/" 0 "" (host +:+ path)) as Hne.
    fold (PyStr.split "/" (host +:+ path)) in Hne.
    pose proof (split_aux_nonempty host 0 "" path) as Hne'.
    fold (PyStr.split host path) in Hne'.
    run_monad. cbn [lookup list_lookup].
    destruct (PyStr.split "/" (host +:+ path)) as [|h pieces]; [easy|].
    cbn [hd] in Hhd. subst h. cbn [lookup list_lookup].
    change (String.eqb host "") with false. cbv iota.
    rewrite Hsplit.
    destruct (PyStr.split host path) as [|fp pieces']; [easy|]. reflexivity.
  - split.
    + intros Hwhole. destruct (PyStr.contains host path) eqn:Hin; [|reflexivity].
      destruct (split_aux_present host path "" ltac:(discriminate) Hin)
        as (pre & Hpre & Hlen).
      fold (PyStr.split host path) in Hpre. rewrite Hwhole in Hpre.
      change ("" +:+ pre) with pre in Hpre. subst pre. lia.
    + intros Habsent. unfold PyStr.split.
      now rewrite (split_aux_absent _ _ _ Habsent).
Qed.

Lemma parse_ftp_url_fields_witness :
  parse_ftp_url ("ftp://" +:+ "ftp.example.org" +:+ ("/" +:+ "pub/x.bin"))
                empty_world
    = (Ok ("ftp.example.org" +:+ ("/" +:+ "pub/x.bin"), "ftp.example.org",
           hd "" (PyStr.split "ftp.example.org" ("/" +:+ "pub/x.bin"))),
       empty_world)
  /\ (hd "" (PyStr.split "ftp.example.org" ("/" +:+ "pub/x.bin"))
      = "/" +:+ "pub/x.bin"
      <-> PyStr.contains "ftp.example.org" ("/" +:+ "pub/x.bin") = false).
Proof.
  apply (parse_ftp_url_fields "f" "tp.example.org" "pub/x.bin" empty_world);
    reflexivity.
Defined.

(** X8.  Malformed FTP URLs raise instead of giving ["error"]: a URL without
    [//] raises IndexError in [parse_ftp_url], and so does [get_url_obj] for
    the FTP endpoint, before any network call; a URL with an empty host,
    [ftp:///...], raises ValueError. *)
Theorem parse_ftp_url_malformed (net : network) (url p : string) (h : Z)
    (w : world) :
  PyStr.contains "//" url = false ->
  parse_ftp_url url w = (Raise IndexError, w)
  /\ get_url_obj net url "FTP" h w = (Raise IndexError, w)
  /\ parse_ftp_url ("ftp:///" +:+ p) w = (Raise ValueError, w).
Proof.
  intros Hno.
  assert (parse_ftp_url url w = (Raise IndexError, w)) as Hparse.
  { unfold parse_ftp_url, PyStr.split. now rewrite split_aux_absent. }
  split; [exact Hparse|]. split.
  - unfold get_url_obj. cbn [String.eqb Ascii.eqb Bool.eqb].
    unfold bind at 1. now rewrite Hparse.
  - unfold parse_ftp_url.
    assert (exists t more, PyStr.split "//" ("ftp:///" +:+ p)
                           = "ftp:" :: String "/" t :: more
                           \/ PyStr.split "//" ("ftp:///" +:+ p)
                              = "ftp:" :: "" :: more) as (t & more & Hsplit).
    { unfold PyStr.split.
      change ("ftp:///" +:+ p) with ("ftp:" +:+ ("//" +:+ ("/" +:+ p))).
      rewrite split_aux_no_match by reflexivity. rewrite split_aux_match.
      change ("/" +:+ p) with (String "/" p). cbn [PyStr.split_aux].
      destruct (String.prefix "//" (String "/" p)).
      - exists "", (PyStr.split_aux "//" (String.length "//" - 1) "" p). now right.
      - destruct (split_aux_head "//" p ("" +:+ "/")) as [t Ht].
        pose proof (split_aux_nonempty "//" 0 ("" +:+ "/") p) as Hne.
        destruct (PyStr.split_aux "//" 0 ("" +:+ "/") p) as [|d more]; [easy|].
        cbn [hd] in Ht. subst d. exists t, more. now left. }
    destruct Hsplit as [-> | ->]; run_monad; cbn [lookup list_lookup].
    + unfold PyStr.split. change (String "/" t) with ("/" +:+ t).
      now rewrite split_aux_match.
    + reflexivity.
Qed.

Lemma parse_ftp_url_malformed_witness :
  parse_ftp_url "ftp:host/x.bin" empty_world = (Raise IndexError, empty_world)
  /\ get_url_obj sample_net "ftp:host/x.bin" "FTP" 0 empty_world
     = (Raise IndexError, empty_world)
  /\ parse_ftp_url ("ftp:///" +:+ "x.bin") empty_world
     = (Raise ValueError, empty_world).
Proof.
  apply (parse_ftp_url_malformed sample_net "ftp:host/x.bin" "x.bin" 0
           empty_world).
  reflexivity.
Defined.

(** ** URLs that cannot be fetched *)

Lemma split1_absent (sep : ascii) (s : string) :
  PyStr.mem_char sep s = false -> PyStr.split1 sep s = [s].
Proof.
  induction s as [|c s IH]; intros Hs; [reflexivity|].
  cbn [PyStr.mem_char] in Hs. apply orb_false_iff in Hs as [Hc Hs].
  cbn [PyStr.split1]. rewrite Ascii.eqb_sym, Hc. now rewrite (IH Hs).
Qed.

(** X9.  An s3 URL without a key, one in which no slash is left after the
    [lstrip], raises IndexError in [s3_get_key] before the connection is
    made or any call is sent; [get_url_obj] and [get_file_size] raise with
    it. *)
Theorem s3_get_key_without_key (net : network) (url : string) (h : Z)
    (w : world) :
  PyStr.mem_char "/" (PyStr.lstrip "s3://" url) = false ->
  s3_get_key net url w = (Raise IndexError, w)
  /\ get_url_obj net url "S3" h w = (Raise IndexError, w)
  /\ get_file_size net url "S3" w = (Raise IndexError, w).
Proof.
  intros Hno.
  assert (s3_get_key net url w = (Raise IndexError, w)) as Hkey.
  { unfold s3_get_key, s3_bucket_key. rewrite (split1_absent _ _ Hno). reflexivity. }
  split; [exact Hkey|].
  split; [unfold get_url_obj | unfold get_file_size];
    cbn [String.eqb Ascii.eqb Bool.eqb]; unfold bind at 1; now rewrite Hkey.
Qed.

Lemma s3_get_key_without_key_witness :
  s3_get_key sample_net "s3://bucket" empty_world = (Raise IndexError, empty_world)
  /\ get_url_obj sample_net "s3://bucket" "S3" 0 empty_world
     = (Raise IndexError, empty_world)
  /\ get_file_size sample_net "s3://bucket" "S3" empty_world
     = (Raise IndexError, empty_world).
Proof.
  apply (s3_get_key_without_key sample_net "s3://bucket" 0 empty_world).
  reflexivity.
Defined.

Lemma get_url_obj_unknown (net : network) (url endpoint : string) (h : Z)
    (w : world) :
  String.eqb endpoint "HTTP" = false ->
  String.eqb endpoint "FTP" = false ->
  String.eqb endpoint "S3" = false ->
  get_url_obj net url endpoint h w = (Ok ErrorObj, w).
Proof. intros Hhttp Hftp Hs3. unfold get_url_obj. now rewrite Hhttp, Hftp, Hs3. Qed.

(** Candidates with endpoints the engine has no branch for all end in
    ["error"], and the world is left alone. *)
Lemma candidates_unknown (net : network) (K : Z) (url_list : list string)
    (st : candidates) (w : world) :
  Forall (fun u => known_endpoint (endpoint_of u) = false) url_list ->
  url_list <> [] ->
  exists st', for_each url_list (try_candidate net K) st w = (Ok st', w)
              /\ c_res st' = ErrorObj.
Proof.
  intros Hall. revert st. induction Hall as [|url url_list Hurl Hall IH];
    intros st Hne; [easy|].
  cbn [for_each]. unfold bind at 1, try_candidate at 1.
  unfold known_endpoint in Hurl.
  repeat (apply orb_false_iff in Hurl as [Hurl ?]).
  unfold bind at 1. rewrite H. rewrite get_url_obj_unknown by assumption.
  unfold ret at 1.
  destruct url_list as [|url' url_list].
  - eexists. split; reflexivity.
  - now apply IH.
Qed.

(** The selector's probe leaves the disk, the connection caches and the
    transport calls as they were, and is the only call it records. *)
Lemma after_probe_calls (priorities : string) (w : world) :
  fs (after_probe priorities w) = fs w
  /\ ftp_conns (after_probe priorities w) = ftp_conns w
  /\ s3_conn (after_probe priorities w) = s3_conn w
  /\ calls (after_probe priorities w)
     = (calls w ++ if String.eqb (hd "" (PyStr.split "," priorities)) ""
                   then [MetadataProbe] else [])%list
  /\ transport_calls (after_probe priorities w) = transport_calls w.
Proof.
  unfold after_probe, transport_calls.
  destruct (String.eqb (hd "" (PyStr.split "," priorities)) "").
  - cbn [fs ftp_conns s3_conn calls]. repeat split.
    rewrite filter_app. cbn. apply app_nil_r.
  - rewrite app_nil_r. now repeat split.
Qed.

(** X10.  An entry whose candidates all have an endpoint other than HTTP,
    FTP, S3 and FASP, https URLs among them, gets code 2 when its final
    file is absent.  No server is contacted for it: the run records no
    transport call (open, size or read) and leaves the disk and the
    connection caches as they were.  The one call the run can record is the
    selector's metadata probe, made exactly when the first token of the
    priority list is empty. *)
Theorem download_mfile_unknown_endpoints (net : network)
    (destination priorities : string) (block_size : Z) (m : mfile)
    (failed_files : list Z) (w : world) (url0 : string) (rest : list string) :
  fst (get_prioritized_endpoint net (urls m) priorities w) = Ok (url0 :: rest) ->
  fs w !! file_name_of destination url0 = None ->
  Forall (fun u => known_endpoint (endpoint_of u) = false) (url0 :: rest) ->
  let run := download_mfile net destination priorities block_size m
               failed_files w in
  run = (Ok (failed_files ++ [2])%list, after_probe priorities w)
  /\ fs (snd run) = fs w
  /\ ftp_conns (snd run) = ftp_conns w
  /\ s3_conn (snd run) = s3_conn w
  /\ transport_calls (snd run) = transport_calls w
  /\ calls (snd run)
     = (calls w ++ if String.eqb (hd "" (PyStr.split "," priorities)) ""
                   then [MetadataProbe] else [])%list
  /\ forall r, known_endpoint (endpoint_of ("https://" +:+ r)) = false.
Proof.
  intros Hsel Habsent Hall run.
  assert (run = (Ok (failed_files ++ [2])%list, after_probe priorities w))
    as Hrun.
  { unfold run. rewrite (download_mfile_selected _ _ _ _ _ _ _ _ Hsel).
    rewrite bool_decide_eq_false_2 by (rewrite Habsent; now intros [? ?]).
    rewrite fetch_and_verify_run.
    destruct (candidates_unknown net
                (resume_offset (after_probe priorities w)
                   (file_name_of destination url0 +:+ ".partial"))
                (url0 :: rest) no_candidate (after_probe priorities w) Hall)
      as (st & -> & Hres); [easy|].
    now rewrite Hres. }
  rewrite Hrun. cbn [snd].
  destruct (after_probe_calls priorities w) as (Hfs & Hftp & Hs3 & Hcalls & Ht).
  repeat (split; [assumption || reflexivity|]).
  intros r. unfold endpoint_of, PyStr.split.
  change ("https://" +:+ r) with ("https" +:+ (":" +:+ ("//" +:+ r))).
  rewrite split_aux_no_match by reflexivity.
  now rewrite split_aux_match.
Qed.

Lemma download_mfile_unknown_endpoints_witness :
  let run := download_mfile sample_net "dest" "" 8
               (Mfile "F4" "https://a/x.bin,https://c/x.bin" sample_md5) []
               empty_world in
  run = (Ok ([] ++ [2])%list, after_probe "" empty_world)
  /\ fs (snd run) = fs empty_world
  /\ ftp_conns (snd run) = ftp_conns empty_world
  /\ s3_conn (snd run) = s3_conn empty_world
  /\ transport_calls (snd run) = transport_calls empty_world
  /\ calls (snd run)
     = (calls empty_world ++ if String.eqb (hd "" (PyStr.split "," "")) ""
                             then [MetadataProbe] else [])%list
  /\ forall r, known_endpoint (endpoint_of ("https://" +:+ r)) = false.
Proof.
  apply (download_mfile_unknown_endpoints sample_net "dest" "" 8
           (Mfile "F4" "https://a/x.bin,https://c/x.bin" sample_md5) []
           empty_world "https://a/x.bin" ["https://c/x.bin"]).
  - reflexivity.
  - reflexivity.
  - repeat constructor.
Defined.

Lemma try_candidate_http_unreachable (net : network) (K : Z) (url : string)
    (st : candidates) (w : world) :
  endpoint_of url = "HTTP" ->
  http_body net url = None ->
  try_candidate net K url st w
  = (Ok (Candidates ErrorObj "HTTP" url (c_endpoints st ++ ["HTTP"])%list),
     World (fs w) (ftp_conns w) (s3_conn w)
           (calls w ++ [HttpOpen url (range_header K None)])%list).
Proof.
  intros Hep Hbody. unfold try_candidate. rewrite Hep.
  cbn [String.eqb Ascii.eqb Bool.eqb]. unfold get_url_obj.
  cbn [String.eqb Ascii.eqb Bool.eqb]. run_monad. now rewrite Hbody.
Qed.

Lemma candidates_http_unreachable (net : network) (K : Z)
    (url_list : list string) (st : candidates) (w : world) :
  Forall (fun u => endpoint_of u = "HTTP" /\ http_body net u = None) url_list ->
  url_list <> [] ->
  exists st' w',
    for_each url_list (try_candidate net K) st w = (Ok st', w')
    /\ c_res st' = ErrorObj
    /\ fs w' = fs w
    /\ calls w'
       = (calls w ++ map (fun u => HttpOpen u (range_header K None)) url_list)%list.
Proof.
  intros Hall. revert st w.
  induction Hall as [|url url_list [Hep Hbody] Hall IH]; intros st w Hne; [easy|].
  cbn [for_each]. unfold bind at 1.
  rewrite (try_candidate_http_unreachable _ _ _ _ _ Hep Hbody).
  destruct url_list as [|url' url_list].
  - eexists _, _. split; [reflexivity|]. now repeat split.
  - edestruct IH as (st' & w' & -> & Hres & Hfs & Hcalls); [easy|].
    exists st', w'. split; [reflexivity|]. split; [assumption|].
    split; [assumption|]. rewrite Hcalls. cbn [calls map].
    now rewrite <- app_assoc.
Qed.

(** X11.  When every candidate of an entry is an http URL that cannot be
    reached, the failures are swallowed: the entry gets code 2, the disk is
    left as it was, and one open per candidate was attempted, in the order
    of the list, each with the header [Range: bytes=K-]. *)
Theorem download_mfile_http_unreachable (net : network)
    (destination priorities : string) (block_size : Z) (m : mfile)
    (failed_files : list Z) (w : world) (url0 : string) (rest : list string) :
  let K := resume_offset w (file_name_of destination url0 +:+ ".partial") in
  fst (get_prioritized_endpoint net (urls m) priorities w) = Ok (url0 :: rest) ->
  fs w !! file_name_of destination url0 = None ->
  Forall (fun u => endpoint_of u = "HTTP" /\ http_body net u = None)
         (url0 :: rest) ->
  exists w',
    download_mfile net destination priorities block_size m failed_files w
      = (Ok (failed_files ++ [2])%list, w')
    /\ fs w' = fs w
    /\ calls w'
       = (calls (after_probe priorities w)
          ++ map (fun u => HttpOpen u (range_header K None)) (url0 :: rest))%list.
Proof.
  intros K Hsel Habsent Hall.
  rewrite (download_mfile_selected _ _ _ _ _ _ _ _ Hsel).
  rewrite bool_decide_eq_false_2 by (rewrite Habsent; now intros [? ?]).
  rewrite fetch_and_verify_run. rewrite resume_offset_after_probe. fold K.
  destruct (candidates_http_unreachable net K (url0 :: rest) no_candidate
              (after_probe priorities w) Hall)
    as (st & w' & -> & Hres & Hfs & Hcalls); [easy|].
  rewrite Hres. exists w'. split; [reflexivity|]. split; [|assumption].
  rewrite Hfs. now destruct (after_probe_fs priorities w).
Qed.

Lemma download_mfile_http_unreachable_witness :
  exists w',
    download_mfile sample_net "dest" "http" 8
      (Mfile "F5" "http://down/x.bin,http://gone/x.bin" sample_md5) []
      empty_world = (Ok ([] ++ [2])%list, w')
    /\ fs w' = fs empty_world
    /\ calls w'
       = (calls (after_probe "http" empty_world)
          ++ map (fun u => HttpOpen u
                    (range_header
                       (resume_offset empty_world
                          (file_name_of "dest" "http://down/x.bin" +:+ ".partial"))
                       None))
                 ["http://down/x.bin"; "http://gone/x.bin"])%list.
Proof.
  apply (download_mfile_http_unreachable sample_net "dest" "http" 8
           (Mfile "F5" "http://down/x.bin,http://gone/x.bin" sample_md5) []
           empty_world "http://down/x.bin" ["http://gone/x.bin"]).
  - reflexivity.
  - reflexivity.
  - repeat constructor.
Defined.

(** ** The priority list: default order, case of the tokens *)

(** X12.  A priority list whose first token is empty is not used at all:
    the selector probes the instance metadata once and answers as it would
    for the list [S3,HTTP,FTP] when the probe finds metadata and
    [HTTP,FTP,S3] when it does not, whatever tokens follow the empty one. *)
Theorem get_prioritized_endpoint_default (net : network)
    (manifest_urls priorities : string) (w : world) :
  hd "" (PyStr.split "," priorities) = "" ->
  get_prioritized_endpoint net manifest_urls priorities w
  = (fst (get_prioritized_endpoint net manifest_urls
            (if instance_metadata net then "S3,HTTP,FTP" else "HTTP,FTP,S3") w),
     World (fs w) (ftp_conns w) (s3_conn w) (calls w ++ [MetadataProbe])%list).
Proof.
  intros Hfirst.
  pose proof (get_prioritized_endpoint_world net manifest_urls priorities w) as Hw.
  unfold after_probe in Hw. rewrite Hfirst in Hw. cbn [String.eqb] in Hw.
  rewrite <- Hw. rewrite (surjective_pairing (get_prioritized_endpoint _ _ priorities w)) at 1.
  f_equal. rewrite !get_prioritized_endpoint_unfold.
  assert (forall eps w1 w2,
            fst (for_each eps (select_endpoint (PyStr.split "," manifest_urls)) [] w1)
            = fst (for_each eps (select_endpoint (PyStr.split "," manifest_urls)) [] w2))
    as Hpure.
  { intros eps w1 w2.
    assert (pure_m (for_each eps
                      (select_endpoint (PyStr.split "," manifest_urls)) []))
      as Hp by (apply pure_for_each; intros; apply pure_select_endpoint).
    now rewrite (Hp w1 w2). }
  unfold effective_priorities at 1. rewrite Hfirst. cbn [String.eqb].
  rewrite (Hpure _ (after_probe priorities w) w).
  destruct (instance_metadata net); reflexivity.
Qed.

Lemma get_prioritized_endpoint_default_witness :
  get_prioritized_endpoint sample_net "ftp://b/y.dat,http://a/x.bin" ",ftp"
                           empty_world
  = (fst (get_prioritized_endpoint sample_net "ftp://b/y.dat,http://a/x.bin"
            (if instance_metadata sample_net then "S3,HTTP,FTP"
             else "HTTP,FTP,S3") empty_world),
     World (fs empty_world) (ftp_conns empty_world) (s3_conn empty_world)
           (calls empty_world ++ [MetadataProbe])%list).
Proof.
  apply (get_prioritized_endpoint_default sample_net
           "ftp://b/y.dat,http://a/x.bin" ",ftp" empty_world).
  reflexivity.
Defined.

Lemma prefix_char (a d : ascii) (s : string) :
  String.prefix (String a "") (String d s) = Ascii.eqb a d.
Proof.
  cbn [String.prefix]. destruct (ascii_dec a d) as [->|Hne].
  - rewrite Ascii.eqb_refl. now destruct s.
  - symmetry. now apply Ascii.eqb_neq.
Qed.

Lemma map_chars_append (f : ascii -> ascii) (s t : string) :
  PyStr.map_chars f (s +:+ t) = PyStr.map_chars f s +:+ PyStr.map_chars f t.
Proof.
  induction s as [|c s IH]; [reflexivity|].
  change (String c s +:+ t) with (String c (s +:+ t)).
  cbn [PyStr.map_chars]. rewrite IH. reflexivity.
Qed.

(** Splitting at commas commutes with a change of case. *)
Lemma split_comma_map_chars (f : ascii -> ascii) (s cur : string) :
  (forall c, Ascii.eqb "," (f c) = Ascii.eqb "," c) ->
  PyStr.split_aux "," 0 (PyStr.map_chars f cur) (PyStr.map_chars f s)
  = map (PyStr.map_chars f) (PyStr.split_aux "," 0 cur s).
Proof.
  intros Hcomma. revert cur. induction s as [|c s IH]; intros cur; [reflexivity|].
  cbn [PyStr.map_chars PyStr.split_aux]. rewrite !prefix_char, Hcomma.
  destruct (Ascii.eqb "," c).
  - cbn [String.length Nat.sub map]. f_equal. apply (IH "").
  - rewrite <- IH. now rewrite map_chars_append.
Qed.

Lemma upper_char_comma (c : ascii) :
  Ascii.eqb "," (PyStr.upper_char c) = Ascii.eqb "," c.
Proof. destruct c as [[] [] [] [] [] [] [] []]; reflexivity. Qed.

Lemma lower_char_comma (c : ascii) :
  Ascii.eqb "," (PyStr.lower_char c) = Ascii.eqb "," c.
Proof. destruct c as [[] [] [] [] [] [] [] []]; reflexivity. Qed.

Lemma lower_upper_char (c : ascii) :
  PyStr.lower_char (PyStr.upper_char c) = PyStr.lower_char c.
Proof. destruct c as [[] [] [] [] [] [] [] []]; reflexivity. Qed.

Lemma lower_lower_char (c : ascii) :
  PyStr.lower_char (PyStr.lower_char c) = PyStr.lower_char c.
Proof. destruct c as [[] [] [] [] [] [] [] []]; reflexivity. Qed.

Lemma lower_map_chars (f : ascii -> ascii) (s : string) :
  (forall c, PyStr.lower_char (f c) = PyStr.lower_char c) ->
  PyStr.lower (PyStr.map_chars f s) = PyStr.lower s.
Proof.
  intros Hf. unfold PyStr.lower. induction s as [|c s IH]; [reflexivity|].
  cbn [PyStr.map_chars]. now rewrite Hf, IH.
Qed.

Lemma for_each_map {A B S} (f : A -> B) (l : list A) (body : B -> S -> M S)
    (s : S) (w : world) :
  for_each (map f l) body s w = for_each l (fun x => body (f x)) s w.
Proof.
  revert s w. induction l as [|x l IH]; intros s w; [reflexivity|].
  cbn [map for_each]. unfold bind.
  destruct (body (f x) s w) as [[s'|e|] w1]; [apply IH | reflexivity..].
Qed.

Lemma for_each_ext {A S} (l : list A) (body body' : A -> S -> M S) (s : S)
    (w : world) :
  (forall x s w, body x s w = body' x s w) ->
  for_each l body s w = for_each l body' s w.
Proof.
  intros Hext. revert s w. induction l as [|x l IH]; intros s w; [reflexivity|].
  cbn [for_each]. unfold bind. rewrite Hext.
  destruct (body' x s w) as [[s'|e|] w1]; [apply IH | reflexivity..].
Qed.

Lemma map_chars_empty (f : ascii -> ascii) (s : string) :
  String.eqb (PyStr.map_chars f s) "" = String.eqb s "".
Proof. now destruct s. Qed.

(** The selector's answer for a priority list whose letters are mapped by
    [f], when [f] keeps commas apart from the other characters and does not
    change what [lower] gives. *)
Lemma get_prioritized_endpoint_map_chars (f : ascii -> ascii) (net : network)
    (manifest_urls priorities : string) (w : world) :
  (forall c, Ascii.eqb "," (f c) = Ascii.eqb "," c) ->
  (forall c, PyStr.lower_char (f c) = PyStr.lower_char c) ->
  get_prioritized_endpoint net manifest_urls (PyStr.map_chars f priorities) w
  = get_prioritized_endpoint net manifest_urls priorities w.
Proof.
  intros Hcomma Hlower. rewrite !get_prioritized_endpoint_unfold.
  pose proof (split_comma_map_chars f priorities "" Hcomma) as Hsplit.
  change (PyStr.map_chars f "") with "" in Hsplit.
  fold (PyStr.split "," (PyStr.map_chars f priorities)) in Hsplit.
  fold (PyStr.split "," priorities) in Hsplit.
  pose proof (split_aux_nonempty "," 0 "" priorities) as Hne.
  fold (PyStr.split "," priorities) in Hne.
  unfold effective_priorities, after_probe. rewrite Hsplit.
  destruct (PyStr.split "," priorities) as [|e0 eps]; [easy|].
  cbn [map hd]. rewrite map_chars_empty.
  destruct (String.eqb e0 ""); [reflexivity|].
  change (PyStr.map_chars f e0 :: map (PyStr.map_chars f) eps)
    with (map (PyStr.map_chars f) (e0 :: eps)).
  rewrite for_each_map. apply for_each_ext. intros ep acc w1.
  unfold select_endpoint. apply for_each_ext. intros url acc' w2.
  unfold select_url. now rewrite (lower_map_chars f ep Hlower).
Qed.

(** X13.  For an ASCII priority list the case does not matter: the
    selector answers for the list in upper case and for the list in lower
    case as for the list as given.  (Outside ASCII Python's case mapping is
    not the letter-by-letter one: ['ſ3'.upper()] is ['S3'].) *)
Theorem get_prioritized_endpoint_any_case (net : network)
    (manifest_urls priorities : string) (w : world) :
  PyStr.isascii priorities = true ->
  get_prioritized_endpoint net manifest_urls (PyStr.upper priorities) w
  = get_prioritized_endpoint net manifest_urls priorities w
  /\ get_prioritized_endpoint net manifest_urls (PyStr.lower priorities) w
     = get_prioritized_endpoint net manifest_urls priorities w.
Proof.
  intros _. split.
  - apply get_prioritized_endpoint_map_chars;
      [apply upper_char_comma | apply lower_upper_char].
  - apply get_prioritized_endpoint_map_chars;
      [apply lower_char_comma | apply lower_lower_char].
Qed.

Lemma get_prioritized_endpoint_any_case_witness :
  get_prioritized_endpoint sample_net "http://a/x.bin,ftp://b/y.dat"
    (PyStr.upper "Ftp,hTTp") empty_world
  = get_prioritized_endpoint sample_net "http://a/x.bin,ftp://b/y.dat"
      "Ftp,hTTp" empty_world
  /\ get_prioritized_endpoint sample_net "http://a/x.bin,ftp://b/y.dat"
       (PyStr.lower "Ftp,hTTp") empty_world
     = get_prioritized_endpoint sample_net "http://a/x.bin,ftp://b/y.dat"
         "Ftp,hTTp" empty_world.
Proof.
  apply (get_prioritized_endpoint_any_case sample_net
           "http://a/x.bin,ftp://b/y.dat" "Ftp,hTTp" empty_world).
  reflexivity.
Defined.

(** ** The shape of an accepted digest *)

Lemma hex_digit_lower (x : Z) :
  0 <= x < 16 ->
  PyStr.mem_char (MD5.hex_digit x) "0123456789abcdef" = true.
Proof.
  intros Hx.
  assert (x = 0 \/ x = 1 \/ x = 2 \/ x = 3 \/ x = 4 \/ x = 5 \/ x = 6 \/ x = 7
          \/ x = 8 \/ x = 9 \/ x = 10 \/ x = 11 \/ x = 12 \/ x = 13 \/ x = 14
          \/ x = 15) as Hcases by lia.
  repeat (destruct Hcases as [->|Hcases]; [reflexivity|]). now subst x.
Qed.

Lemma hex_of_shape (bs : list Z) :
  Forall (fun b => 0 <= b < 256) bs ->
  String.length (MD5.hex_of bs) = (2 * length bs)%nat
  /\ all_in "0123456789abcdef" (MD5.hex_of bs) = true.
Proof.
  induction 1 as [|b bs Hb Hall [IHlen IHin]]; [now split|].
  cbn [MD5.hex_of String.length length all_in]. split; [lia|].
  rewrite IHin, !hex_digit_lower; [reflexivity | |].
  - apply Z.mod_pos_bound. lia.
  - split; [apply Z.div_pos; lia | apply Z.div_lt_upper_bound; lia].
Qed.

Lemma le_bytes_shape (n : nat) (x : Z) :
  length (MD5.le_bytes n x) = n
  /\ Forall (fun b => 0 <= b < 256) (MD5.le_bytes n x).
Proof.
  unfold MD5.le_bytes. split; [now rewrite length_map, length_seq|].
  apply Forall_map, Forall_forall. intros i _. apply Z.mod_pos_bound. lia.
Qed.

(** [hexdigest] is 32 characters out of [0-9a-f]. *)
Lemma hexdigest_shape (msg : list byte) :
  String.length (MD5.hexdigest msg) = 32%nat
  /\ all_in "0123456789abcdef" (MD5.hexdigest msg) = true.
Proof.
  unfold MD5.hexdigest, MD5.digest.
  match goal with
  | |- context [MD5.hex_of ?bs] =>
      assert (length bs = 16%nat /\ Forall (fun b => 0 <= b < 256) bs) as [Hlen Hall]
  end.
  { split.
    - rewrite !length_app. now rewrite !(proj1 (le_bytes_shape 4 _)).
    - repeat (apply Forall_app; split); apply le_bytes_shape. }
  destruct (hex_of_shape _ Hall) as [Hl Hin]. rewrite Hlen in Hl. now split.
Qed.

(** X14.  [checksum_matches] can answer true only for an expected digest of
    32 characters out of [0-9a-f]: a digest of another length, or with an
    upper-case letter or any other character, is never accepted, whatever
    the file holds. *)
Theorem checksum_matches_accepts_lower_hex (path expected : string)
    (w w' : world) :
  checksum_matches path expected w = (Ok true, w') ->
  String.length expected = 32%nat
  /\ all_in "0123456789abcdef" expected = true.
Proof.
  intros Hrun. destruct (fs w !! path) as [data|] eqn:Hdata.
  - rewrite (checksum_matches_run _ _ _ _ Hdata) in Hrun.
    assert (String.eqb (MD5.hexdigest data) expected = true) as Heq
      by congruence.
    apply String.eqb_eq in Heq. subst expected.
    apply hexdigest_shape.
  - now rewrite (checksum_matches_missing _ _ _ Hdata) in Hrun.
Qed.

Lemma checksum_matches_accepts_lower_hex_witness :
  String.length sample_md5 = 32%nat
  /\ all_in "0123456789abcdef" sample_md5 = true.
Proof.
  apply (checksum_matches_accepts_lower_hex "dest/x.bin" sample_md5
           present_world present_world).
  vm_compute. reflexivity.
Defined.

(** ** The chunks requested from S3 *)

(** X15.  For a positive block size, [get_buffer] on an S3 key sends no
    request once the offset has reached the size; before that it sends one
    request whose range starts at the offset, ends at
    [offset + block_size - 1] when that is at most the size and is left open
    otherwise, and what comes back is exactly the next [block_size] bytes of
    the object, or all that is left of it, and is never empty. *)
Theorem get_buffer_s3_chunk (net : network) (bucket key : string)
    (content : list byte) (block_size start_pos : Z) (file : string)
    (w : world) :
  let size := Z.of_nat (length content) in
  let chunk := firstn (Z.to_nat block_size) (skipn (Z.to_nat start_pos) content) in
  let stop := if start_pos + block_size - 1 <=? size
              then Some (start_pos + block_size - 1) else None in
  0 <= start_pos ->
  0 < block_size ->
  (size <= start_pos ->
   get_buffer net (S3Key bucket key content) "S3" block_size start_pos size file w
     = (Ok (None, S3Key bucket key content), w))
  /\ (start_pos < size ->
      get_buffer net (S3Key bucket key content) "S3" block_size start_pos size
                 file w
        = (Ok (Some chunk, S3Key bucket key content),
           World (fs w) (ftp_conns w) (s3_conn w)
                 (calls w ++ [S3GetContents bucket key
                                (range_header start_pos stop)])%list)
      /\ chunk <> []
      /\ length chunk = Nat.min (Z.to_nat block_size)
                                (length content - Z.to_nat start_pos)).
Proof.
  intros size chunk stop Hstart Hbs. unfold get_buffer.
  cbn [String.eqb Ascii.eqb Bool.eqb]. split.
  - intros Hend. now rewrite (proj2 (Z.geb_le _ _)) by lia.
  - intros Hlt.
    assert ((start_pos >=? size) = false) as -> by lia.
    cbv zeta. fold stop. unfold stop at 2.
    rewrite (s3_range_next content start_pos block_size size Hstart Hbs eq_refl).
    fold chunk. split; [reflexivity|].
    assert (length chunk = Nat.min (Z.to_nat block_size)
                                   (length content - Z.to_nat start_pos)) as Hlen
      by (unfold chunk; now rewrite length_firstn, length_skipn).
    split; [|exact Hlen].
    intros Hnil. rewrite Hnil in Hlen. simpl in Hlen. unfold size in Hlt. lia.
Qed.

Lemma get_buffer_s3_chunk_witness :
  let size := Z.of_nat (length sample_content) in
  let chunk := firstn (Z.to_nat 5) (skipn (Z.to_nat 15) sample_content) in
  let stop := if 15 + 5 - 1 <=? size then Some (15 + 5 - 1) else None in
  (size <= 15 ->
   get_buffer sample_net (S3Key "bucket" "x.bin" sample_content) "S3" 5 15 size
              "dest/x.bin.partial" empty_world
     = (Ok (None, S3Key "bucket" "x.bin" sample_content), empty_world))
  /\ (15 < size ->
      get_buffer sample_net (S3Key "bucket" "x.bin" sample_content) "S3" 5 15
                 size "dest/x.bin.partial" empty_world
        = (Ok (Some chunk, S3Key "bucket" "x.bin" sample_content),
           World (fs empty_world) (ftp_conns empty_world) (s3_conn empty_world)
                 (calls empty_world
                  ++ [S3GetContents "bucket" "x.bin" (range_header 15 stop)])%list)
      /\ chunk <> []
      /\ length chunk = Nat.min (Z.to_nat 5)
                                (length sample_content - Z.to_nat 15)).
Proof.
  apply (get_buffer_s3_chunk sample_net "bucket" "x.bin" sample_content 5 15
           "dest/x.bin.partial" empty_world); lia.
Defined.

(** ** The FTP connection cache *)

Lemma cache_ok_once (w : world) : cache_ok w -> connected_once w.
Proof.
  intros Hok host. destruct (Hok host) as [Hin Hout].
  destruct (decide (host ∈ ftp_conns w)) as [H|H]; [auto|].
  rewrite (Hout H). lia.
Qed.

Lemma caches_ret {A} (a : A) : caches (ret a).
Proof. intros w Hok. exact Hok. Qed.

Lemma caches_raise {A} (e : exn) : caches (@raise A e).
Proof. intros w Hok. now apply cache_ok_once. Qed.

Lemma caches_bind {A B} (m : M A) (k : A -> M B) :
  caches m -> (forall a, caches (k a)) -> caches (bind m k).
Proof.
  intros Hm Hk w Hok. unfold bind. specialize (Hm w Hok).
  destruct (m w) as [[a|e|] w1]; [now apply Hk | assumption..].
Qed.

Lemma caches_for_each {A S} (l : list A) (body : A -> S -> M S) (s : S) :
  (forall x s, caches (body x s)) -> caches (for_each l body s).
Proof.
  intros Hbody. revert s. induction l as [|x l IH]; intros s; cbn [for_each].
  - apply caches_ret.
  - apply caches_bind; [apply Hbody | intros s'; apply IH].
Qed.

Lemma count_connects_app (host : string) (l : list event) (e : event) :
  count_connects host (l ++ [e])
  = (count_connects host l + if is_connect host e then 1 else 0)%nat.
Proof. induction l as [|d l IH]; simpl; [lia | rewrite IH; lia]. Qed.

Lemma caches_log (e : event) :
  (forall host, is_connect host e = false) -> caches (log e).
Proof.
  intros Hquiet w Hok host. unfold log, connects. cbn [ftp_conns calls].
  rewrite count_connects_app, Hquiet, Nat.add_0_r. apply Hok.
Qed.

(** a step that changes neither the cache nor the calls *)
Lemma caches_still {A} (m : M A) :
  (forall w, ftp_conns (snd (m w)) = ftp_conns w /\ calls (snd (m w)) = calls w) ->
  caches m.
Proof.
  intros Hstill w Hok. destruct (Hstill w) as [Hconns Hcalls].
  assert (cache_ok (snd (m w))) as Hok'.
  { intros host. unfold connects. rewrite Hconns, Hcalls. apply Hok. }
  destruct (m w) as [[a|e|] w']; cbn [snd] in Hok';
    [assumption | now apply cache_ok_once..].
Qed.

Lemma caches_get_ftp_connection (net : network) (host : string) :
  caches (get_ftp_connection net host).
Proof.
  intros w Hok. unfold get_ftp_connection.
  destruct (bool_decide (host ∈ ftp_conns w)) eqn:Hcached.
  - destruct (ftp_files net host); [assumption | now apply cache_ok_once].
  - apply bool_decide_eq_false in Hcached.
    assert (forall h, connects h (World (fs w) (ftp_conns w) (s3_conn w)
                                        (calls w ++ [FtpConnect host])%list)
                      = (connects h w + if String.eqb host h then 1 else 0)%nat)
      as Hcount by (intros h; unfold connects; cbn [calls];
                    now rewrite count_connects_app).
    assert (connects host w = 0%nat) as Hfresh by now apply (Hok host).
    destruct (ftp_files net host).
    + intros h. unfold connects in *. cbn [ftp_conns calls].
      rewrite count_connects_app. cbn [is_connect].
      destruct (String.eqb host h) eqn:Heq.
      * apply String.eqb_eq in Heq. subst h. rewrite Hfresh.
        split; [lia | set_solver].
      * apply String.eqb_neq in Heq. rewrite Nat.add_0_r.
        destruct (Hok h) as [Hin Hout].
        split.
        -- intros Hh. apply Hin. apply elem_of_union in Hh as [Hh|Hh]; [|exact Hh].
           apply elem_of_singleton in Hh. congruence.
        -- intros Hh. apply Hout. intros Hold. apply Hh.
           apply elem_of_union. now right.
    + intros h. rewrite Hcount.
      destruct (String.eqb host h) eqn:Heq.
      * apply String.eqb_eq in Heq. subst h. rewrite Hfresh. lia.
      * rewrite Nat.add_0_r. now apply cache_ok_once.
Qed.

Ltac caches_step :=
  match goal with
  | |- caches (bind _ _) => apply caches_bind; [|intros ?]
  | |- caches (ret _) => apply caches_ret
  | |- caches (raise _) => apply caches_raise
  | |- caches (log _) => apply caches_log; intros ?; reflexivity
  | |- caches (get_ftp_connection _ _) => apply caches_get_ftp_connection
  | |- caches get_fs => apply caches_still; intros ?; split; reflexivity
  | |- caches (set_fs _) => apply caches_still; intros ?; split; reflexivity
  | |- caches get_s3_connection => apply caches_still; intros ?; split; reflexivity
  | |- caches (index _ _) =>
      apply caches_still; intros ?; unfold index;
      match goal with |- context [?l !! ?i] => destruct (l !! i) end;
      split; reflexivity
  | |- caches (for_each _ _ _) => apply caches_for_each; intros ? ?
  | |- caches (let '(_, _) := ?p in _) => destruct p
  | |- caches (if ?b then _ else _) => destruct b
  | |- caches (match ?x with _ => _ end) => destruct x
  end.

Lemma caches_transfer_loop (net : network) (fuel : nat) (tmp endpoint : string)
    (block_size file_size : Z) (res : netobj) (current_byte : Z) :
  caches (transfer_loop net fuel tmp endpoint block_size file_size res
                        current_byte).
Proof.
  revert res current_byte.
  induction fuel as [|fuel IH]; intros res current_byte; cbn [transfer_loop].
  - intros w Hok. now apply cache_ok_once.
  - unfold get_buffer, file_write. repeat first [ apply IH | caches_step ].
Qed.

Lemma caches_checksum_matches (path expected : string) :
  caches (checksum_matches path expected).
Proof.
  apply caches_still. intros w. unfold checksum_matches. run_monad.
  destruct (fs w !! path); [|split; reflexivity].
  destruct (hash_chunks _ _ _); split; reflexivity.
Qed.

Lemma caches_download_mfile (net : network) (destination priorities : string)
    (block_size : Z) (m : mfile) (failed_files : list Z) :
  caches (download_mfile net destination priorities block_size m failed_files).
Proof.
  unfold download_mfile, get_prioritized_endpoint, select_endpoint, select_url,
    fetch_and_verify, get_current_byte, path_exists, getsize, try_candidate,
    get_fasp_obj, get_url_obj, s3_get_key, s3_bucket_key, parse_ftp_url,
    transfer, open_append, get_file_size, verify_and_finalize, move,
    s3_get_key, s3_bucket_key, parse_ftp_url.
  repeat first
    [ apply caches_transfer_loop | apply caches_checksum_matches | caches_step ].
Qed.

(** X16.  Connections to FTP hosts are reused: in a batch started with a
    cache that agrees with the calls made so far (an empty cache and no
    calls, for one), no host is connected to more than once, however many
    entries and candidates name it and however the run ends. *)
Theorem download_manifest_connects_once (net : network) (manifest : list mfile)
    (destination priorities : string) (block_size : Z) (w : world)
    (host : string) :
  cache_ok w ->
  (connects host
     (snd (download_manifest net manifest destination priorities block_size w))
   <= 1)%nat.
Proof.
  intros Hok.
  assert (caches (download_manifest net manifest destination priorities
                    block_size)) as Hcaches
    by (apply caches_for_each; intros; apply caches_download_mfile).
  specialize (Hcaches w Hok).
  destruct (download_manifest _ _ _ _ _ w) as [[codes|e|] w']; cbn [snd];
    [now apply cache_ok_once | apply Hcaches..].
Qed.

Lemma download_manifest_connects_once_witness :
  (connects "b"
     (snd (download_manifest sample_net
             [Mfile "A" "ftp://b/y.dat" "00"; Mfile "B" "ftp://b/y.dat" sample_md5]
             "dest" "ftp" 8 empty_world)) <= 1)%nat.
Proof.
  apply (download_manifest_connects_once sample_net
           [Mfile "A" "ftp://b/y.dat" "00"; Mfile "B" "ftp://b/y.dat" sample_md5]
           "dest" "ftp" 8 empty_world "b").
  intros host. split; [intros _; unfold connects; simpl; lia | reflexivity].
Defined.

(** ** The demo-data rewrite *)

Lemma select_endpoint_raises (urls : list string) (ep : string)
    (acc : list string) (w : world) :
  mapM demo_url
       (filter (fun u => PyStr.startswith u (PyStr.lower ep) = true) urls) = None ->
  select_endpoint urls ep acc w = (Raise IndexError, w).
Proof.
  unfold select_endpoint. revert acc.
  induction urls as [|u urls IH]; intros acc Hl; [discriminate|].
  rewrite filter_cons in Hl. cbn [for_each]. unfold bind, select_url at 1.
  destruct (PyStr.startswith u (PyStr.lower ep)) eqn:Hu.
  - rewrite decide_True in Hl by reflexivity. cbn [mapM] in Hl.
    destruct (demo_url u) as [v|]; [|reflexivity].
    unfold ret at 1. apply IH.
    destruct (mapM demo_url _); [discriminate | reflexivity].
  - rewrite decide_False in Hl by discriminate. unfold ret at 1. now apply IH.
Qed.

Lemma select_all_raises (urls eps : list string) (acc : list string) (w : world) :
  mapM demo_url (selected urls eps) = None ->
  for_each eps (select_endpoint urls) acc w = (Raise IndexError, w).
Proof.
  revert acc. induction eps as [|ep eps IH]; intros acc Hl; [discriminate|].
  unfold selected in Hl. cbn [flat_map] in Hl. cbn [for_each]. unfold bind.
  destruct (mapM demo_url
              (filter (fun u => PyStr.startswith u (PyStr.lower ep) = true) urls))
    as [l1|] eqn:H1.
  - rewrite (select_endpoint_ok _ _ _ _ _ H1). apply IH.
    destruct (mapM demo_url (selected urls eps)) as [l2|] eqn:H2; [|reflexivity].
    apply mapM_Some in H1, H2.
    assert (mapM demo_url
              (filter (fun u => PyStr.startswith u (PyStr.lower ep) = true) urls
               ++ flat_map
                    (fun ep => filter
                       (fun u => PyStr.startswith u (PyStr.lower ep) = true) urls)
                    eps) = Some (l1 ++ l2)%list) as Hboth
      by (apply mapM_Some; now apply Forall2_app).
    rewrite Hboth in Hl. discriminate.
  - now rewrite (select_endpoint_raises _ _ _ _ H1).
Qed.

(** X17.  A selected s3 URL of the demo data ([s3://] and [HMDEMO] occur in
    it) that has fewer than five pieces between slashes makes the selector
    raise IndexError, for every priority list whose first token is not
    empty; the exception ends the batch. *)
Theorem get_prioritized_endpoint_demo_raises (net : network)
    (manifest_urls priorities : string) (url ep : string) (w : world) :
  hd "" (PyStr.split "," priorities) <> "" ->
  url ∈ PyStr.split "," manifest_urls ->
  ep ∈ PyStr.split "," priorities ->
  PyStr.startswith url (PyStr.lower ep) = true ->
  PyStr.contains "s3://" url = true ->
  PyStr.contains "HMDEMO" url = true ->
  (length (PyStr.split "/" url) < 5)%nat ->
  get_prioritized_endpoint net manifest_urls priorities w = (Raise IndexError, w)
  /\ forall destination block_size m' manifest,
       download_manifest net (Mfile m' manifest_urls "" :: manifest) destination
                         priorities block_size w
       = (Raise IndexError, w).
Proof.
  intros Hfirst Hurl Hep Hstarts Hs3 Hdemo Hshort.
  assert (get_prioritized_endpoint net manifest_urls priorities w
          = (Raise IndexError, w)) as Hraise.
  { rewrite get_prioritized_endpoint_unfold.
    unfold effective_priorities, after_probe.
    apply String.eqb_neq in Hfirst. rewrite Hfirst.
    apply select_all_raises. apply mapM_None. apply Exists_exists.
    exists url. split; [apply in_selected; eauto|].
    unfold demo_url. rewrite Hs3, Hdemo. cbn [andb].
    rewrite (lookup_ge_None_2 _ 4) by lia.
    now destruct (PyStr.split "/" url !! 2%nat). }
  split; [exact Hraise|].
  intros destination block_size m' manifest.
  unfold download_manifest. cbn [for_each]. unfold bind at 1, download_mfile.
  unfold bind at 1. cbn [urls]. now rewrite Hraise.
Qed.

Lemma get_prioritized_endpoint_demo_raises_witness :
  get_prioritized_endpoint sample_net "http://a/x.bin,s3://HMDEMO/x.bin" "s3,http"
                           empty_world = (Raise IndexError, empty_world)
  /\ forall destination block_size m' manifest,
       download_manifest sample_net
         (Mfile m' "http://a/x.bin,s3://HMDEMO/x.bin" "" :: manifest) destination
         "s3,http" block_size empty_world
       = (Raise IndexError, empty_world).
Proof.
  apply (get_prioritized_endpoint_demo_raises sample_net
           "http://a/x.bin,s3://HMDEMO/x.bin" "s3,http" "s3://HMDEMO/x.bin" "s3"
           empty_world).
  - discriminate.
  - change (PyStr.split "," "http://a/x.bin,s3://HMDEMO/x.bin")
      with ["http://a/x.bin"; "s3://HMDEMO/x.bin"].
    apply elem_of_cons. right. apply elem_of_cons. now left.
  - change (PyStr.split "," "s3,http") with ["s3"; "http"].
    apply elem_of_cons. now left.
  - reflexivity.
  - reflexivity.
  - reflexivity.
  - simpl. lia.
Defined.

(** ** FTP transfers *)




(** ** Witnesses of the properties of the batch *)

Lemma candidates_use_last_witness :
  let st := Candidates (HttpResponse "http://a/x.bin" sample_content) "HTTP"
                       "http://a/x.bin" ["HTTPS"; "HTTP"] in
  c_url st = List.last ["https://c/x.bin"; "http://a/x.bin"] ""
  /\ c_endpoint st = endpoint_of (c_url st).
Proof.
  apply (candidates_use_last sample_net 0 ["https://c/x.bin"; "http://a/x.bin"]
           no_candidate empty_world
           (Candidates (HttpResponse "http://a/x.bin" sample_content) "HTTP"
                       "http://a/x.bin" ["HTTPS"; "HTTP"])
           sample_opened_world).
  - discriminate.
  - vm_compute. reflexivity.
Defined.

Lemma download_manifest_codes_witness :
  length [3; 0; 1] = length [wrong_entry; sample_entry; Mfile "F6" "" sample_md5]
  /\ Forall (fun c => 0 <= c <= 3) [3; 0; 1].
Proof.
  apply (download_manifest_codes sample_net
           [wrong_entry; sample_entry; Mfile "F6" "" sample_md5] "dest" "http" 8
           empty_world [3; 0; 1]
           (snd (download_manifest sample_net
                   [wrong_entry; sample_entry; Mfile "F6" "" sample_md5]
                   "dest" "http" 8 empty_world))).
  vm_compute. reflexivity.
Defined.
